(** * dataikuapi.dss.ml: the ML-task client, embedded in Rocq

    The module [dataikuapi/dss/ml.py] is glue over JSON payloads: it reads
    and mutates Python dictionaries that were decoded from the server's
    answers, and it sends requests.  Its methods work through references
    ([sp = settings["splitParams"]], then [sp["ttPolicy"] = ...]), so the
    embedding keeps Python's object model: atoms are values, dictionaries and
    lists are objects of a heap, and a method is a computation over the heap
    that returns a result or raises.

    What the module calls but does not define is given from outside: the
    transport by the answers of a server, [str.lower] as a parameter of the
    methods that call it, and, for the one call on which Python 2 and
    Python 3 differ, the interpreter. *)

From Stdlib Require Import ZArith String Ascii.
From stdpp Require Import base gmap strings list option.

Open Scope string_scope.
Open Scope list_scope.
Open Scope nat_scope.

(** ** JSON documents, as they travel on the wire *)

#[warnings="-register-all"]
Inductive json : Type :=
| JNull
| JBool (b : bool)
| JInt (z : Z)
| JStr (s : string)
| JList (l : list json)
| JObject (m : gmap string json).

(** Nesting depth of a document: atoms have depth 0. *)
Fixpoint jdepth (t : json) : nat :=
  match t with
  | JList l => S (foldr (λ x acc, jdepth x `max` acc) 0 l)
  | JObject m => S (map_fold (λ _ x acc, jdepth x `max` acc) 0 m)
  | _ => 0
  end.

(** ** Python values, objects and the heap *)

Module Py.

Definition loc := positive.

Inductive value : Type :=
| VNone
| VBool (b : bool)
| VInt (z : Z)
| VStr (s : string)
| VRef (l : loc).

Inductive obj : Type :=
| ODict (d : gmap string value)
| OList (xs : list value).

Inductive exn : Type :=
| KeyError (k : value)
| IndexError
| TypeError
| AttributeError
| RuntimeError
| ValueError (msg : string)
| Exception (msg : string)
| TransportError (msg : string).

Inductive outcome (A : Type) : Type :=
| Ret (a : A)
| Raise (e : exn)
| OutOfFuel.
Arguments Ret {A} a.
Arguments Raise {A} e.
Arguments OutOfFuel {A}.

(** What the outside world sees of a run: the requests sent and the sleeps. *)
Inductive event : Type :=
| EFetch (method url : string) (body : option json)
| ESleep (ms : Z).

Record world : Type := World { heap : gmap loc obj; trace : list event }.

Definition M (A : Type) : Type := world → outcome A * world.

Definition ret {A} (a : A) : M A := λ w, (Ret a, w).

Definition raise {A} (e : exn) : M A := λ w, (Raise e, w).

Definition bind {A B} (m : M A) (k : A → M B) : M B :=
  λ w, match m w with
       | (Ret a, w') => k a w'
       | (Raise e, w') => (Raise e, w')
       | (OutOfFuel, w') => (OutOfFuel, w')
       end.

#[global] Instance M_ret : MRet M := @ret.
#[global] Instance M_bind : MBind M := λ A B k m, bind m k.

Definition emit (e : event) : M unit :=
  λ w, (Ret (), World (heap w) (trace w ++ [e])).

(** [{...}] and [[...]] displays: a new object, at an address not in use. *)
Definition alloc (o : obj) : M value :=
  λ w, let l := fresh (dom (heap w)) in
       (Ret (VRef l), World (<[l := o]> (heap w)) (trace w)).

Definition update (l : loc) (o : obj) : M unit :=
  λ w, (Ret (), World (<[l := o]> (heap w)) (trace w)).

(** *** Sequences: integer subscripts *)

Definition index_of (k : value) : option Z :=
  match k with
  | VInt z => Some z
  | VBool b => Some (if b then 1 else 0)%Z
  | _ => None
  end.

Definition seq_index {A} (xs : list A) (i : Z) : option A :=
  let n := Z.of_nat (length xs) in
  if (0 <=? i)%Z then xs !! Z.to_nat i
  else if (- n <=? i)%Z then xs !! Z.to_nat (n + i)
  else None.

Fixpoint chars (s : string) : list value :=
  match s with
  | EmptyString => []
  | String c r => VStr (String c EmptyString) :: chars r
  end.

(** *** Comparisons with a literal *)

(** [v == s] for a string [s]. *)
Definition eq_str (v : value) (s : string) : bool :=
  match v with
  | VStr s' => String.eqb s' s
  | _ => false
  end.

(** [v == b] for a boolean [b]; Python's [bool] is an [int]. *)
Definition eq_bool (v : value) (b : bool) : bool :=
  match v with
  | VBool b' => Bool.eqb b' b
  | VInt z => (z =? (if b then 1 else 0))%Z
  | _ => false
  end.

Definition is_none (v : value) : bool :=
  match v with
  | VNone => true
  | _ => false
  end.

Fixpoint is_substring (needle s : string) : bool :=
  String.prefix needle s ||
  match s with
  | EmptyString => false
  | String _ r => is_substring needle r
  end.

(** *** Subscripts, membership, dictionary methods *)

(** [c[k]] *)
Definition getitem (c k : value) : M value :=
  λ w, match c with
       | VRef l =>
           match heap w !! l with
           | Some (ODict d) =>
               match k with
               | VStr s =>
                   match d !! s with
                   | Some x => (Ret x, w)
                   | None => (Raise (KeyError k), w)
                   end
               | VRef _ => (Raise TypeError, w)
               | _ => (Raise (KeyError k), w)
               end
           | Some (OList xs) =>
               match index_of k with
               | Some i =>
                   match seq_index xs i with
                   | Some x => (Ret x, w)
                   | None => (Raise IndexError, w)
                   end
               | None => (Raise TypeError, w)
               end
           | None => (Raise TypeError, w)
           end
       | VStr s =>
           match index_of k with
           | Some i =>
               match seq_index (chars s) i with
               | Some x => (Ret x, w)
               | None => (Raise IndexError, w)
               end
           | None => (Raise TypeError, w)
           end
       | _ => (Raise TypeError, w)
       end.

(** [c[k] = x] for a string key [k] *)
Definition setitem (c : value) (k : string) (x : value) : M unit :=
  λ w, match c with
       | VRef l =>
           match heap w !! l with
           | Some (ODict d) => update l (ODict (<[k := x]> d)) w
           | _ => (Raise TypeError, w)
           end
       | _ => (Raise TypeError, w)
       end.

(** [del c[k]] for a string key [k] *)
Definition delitem (c : value) (k : string) : M unit :=
  λ w, match c with
       | VRef l =>
           match heap w !! l with
           | Some (ODict d) =>
               match d !! k with
               | Some _ => update l (ODict (delete k d)) w
               | None => (Raise (KeyError (VStr k)), w)
               end
           | _ => (Raise TypeError, w)
           end
       | _ => (Raise TypeError, w)
       end.

(** [k in c] for a string [k] *)
Definition contains (k : string) (c : value) : M bool :=
  λ w, match c with
       | VRef l =>
           match heap w !! l with
           | Some (ODict d) => (Ret (bool_decide (is_Some (d !! k))), w)
           | Some (OList xs) => (Ret (existsb (λ x, eq_str x k) xs), w)
           | None => (Raise TypeError, w)
           end
       | VStr s => (Ret (is_substring k s), w)
       | _ => (Raise TypeError, w)
       end.

(** [c.get(k, dflt)] *)
Definition dict_get (c : value) (k : string) (dflt : value) : M value :=
  λ w, match c with
       | VRef l =>
           match heap w !! l with
           | Some (ODict d) => (Ret (default dflt (d !! k)), w)
           | _ => (Raise AttributeError, w)
           end
       | _ => (Raise AttributeError, w)
       end.

(** [c.items()] *)
Definition items (c : value) : M (list (string * value)) :=
  λ w, match c with
       | VRef l =>
           match heap w !! l with
           | Some (ODict d) => (Ret (map_to_list d), w)
           | _ => (Raise AttributeError, w)
           end
       | _ => (Raise AttributeError, w)
       end.

(** The interpreter that runs the module.  Python 3 is the reference; the
    module was written for Python 2, and one call tells the two apart. *)
Inductive interpreter : Type := Python2 | Python3.

(** [c.iteritems()]: a method of the dictionaries of Python 2, which Python 3
    removed.  On Python 3 no value has this attribute. *)
Definition iteritems (python : interpreter) (c : value) : M (list (string * value)) :=
  match python with
  | Python2 => items c
  | Python3 => raise AttributeError
  end.

(** The elements [for x in c] goes through. *)
Definition iter (c : value) : M (list value) :=
  λ w, match c with
       | VRef l =>
           match heap w !! l with
           | Some (ODict d) => (Ret (VStr <$> (map_to_list d).*1), w)
           | Some (OList xs) => (Ret xs, w)
           | None => (Raise TypeError, w)
           end
       | VStr s => (Ret (chars s), w)
       | _ => (Raise TypeError, w)
       end.

(** [for x in xs: body x] *)
Fixpoint for_each {A} (xs : list A) (body : A → M unit) : M unit :=
  match xs with
  | [] => ret ()
  | x :: r => bind (body x) (λ _, for_each r body)
  end.

End Py.

Import Py.

Coercion VStr : string >-> value.

(** [None] or a string, as a Python value. *)
Definition str_or_none (o : option string) : value :=
  match o with
  | Some s => VStr s
  | None => VNone
  end.

(** Monadic [filter] and [map]: list comprehensions with a condition or an
    element expression that reads the heap.  The resulting list is a new
    object; the caller allocates it. *)
Fixpoint filter_m {A} (p : A → M bool) (xs : list A) : M (list A) :=
  match xs with
  | [] => mret []
  | x :: r => b ← p x; ys ← filter_m p r; mret (if (b : bool) then x :: ys else ys)
  end.

Fixpoint map_m {A B} (f : A → M B) (xs : list A) : M (list B) :=
  match xs with
  | [] => mret []
  | x :: r => y ← f x; ys ← map_m f r; mret (y :: ys)
  end.

(** [c.get(k, dflt)] where the default is an expression: Python looks the
    method up on [c] first, then evaluates the argument, then calls. *)
Definition dict_get_with (c : value) (k : string) (dflt : M value) : M value :=
  λ w, match c with
       | VRef l =>
           match heap w !! l with
           | Some (ODict _) => (x ← dflt; dict_get c k x) w
           | _ => (Raise AttributeError, w)
           end
       | _ => (Raise AttributeError, w)
       end.

(** ** Encoding and decoding *)

Definition map_sequence {A} (m : gmap string (option A)) : option (gmap string A) :=
  if decide (map_Forall (λ _ o, is_Some o) m) then Some (omap id m) else None.

(** The document a value stands for, read through at most [n] nested
    containers: what [json.dumps] writes, and what a structural comparison
    or a deep copy sees. *)
Fixpoint read (n : nat) (h : gmap loc obj) (v : value) : option json :=
  match v with
  | VNone => Some JNull
  | VBool b => Some (JBool b)
  | VInt z => Some (JInt z)
  | VStr s => Some (JStr s)
  | VRef l =>
      match n with
      | 0 => None
      | S n' =>
          match h !! l with
          | Some (ODict d) => JObject <$> map_sequence (read n' h <$> d)
          | Some (OList xs) => JList <$> mapM (read n' h) xs
          | None => None
          end
      end
  end.

(** [json.loads]: the document as new objects. *)
Fixpoint load (t : json) : M value :=
  match t with
  | JNull => mret VNone
  | JBool b => mret (VBool b)
  | JInt z => mret (VInt z)
  | JStr s => mret (VStr s)
  | JList l =>
      xs ← (fix go (l : list json) : M (list value) :=
              match l with
              | [] => mret []
              | x :: r => v ← load x; vs ← go r; mret (v :: vs)
              end) l;
      alloc (OList xs)
  | JObject m =>
      d ← map_fold (λ k x (acc : M (gmap string value)),
                     d ← acc; v ← load x; mret (<[k := v]> d)) (mret ∅) m;
      alloc (ODict d)
  end.

(** The interpreter's recursion limit bounds the nesting that [copy.deepcopy]
    and the JSON encoder go through; the remote service answers the [n]-th
    request of a run. *)
Inductive response : Type :=
| Json (t : json)
| Failure (e : exn).

Definition is_fetch (e : event) : bool :=
  match e with
  | EFetch _ _ _ => true
  | ESleep _ => false
  end.

Definition requests (w : world) : nat := length (filter is_fetch (trace w)).

Section Runtime.

Variable recursion_limit : nat.
Variable server : nat → string → string → option json → response.

(** [copy.deepcopy] of a JSON value: new objects with the same content.
    Payloads decoded from JSON are trees, so the memo table with which
    [deepcopy] keeps sharing is not modelled. *)
Definition deepcopy (v : value) : M value :=
  λ w, match read recursion_limit (heap w) v with
       | Some t => load t w
       | None => (Raise RuntimeError, w)
       end.

(** Modelled from the spec: the transport primitive [client._perform_json]
    is an external collaborator (section 6: it supplies error-raising JSON
    requests).  It encodes the body, sends one request, and decodes the
    answer or raises the transport's error unchanged. *)
Definition perform_json (method url : string) (body : option value) : M value :=
  λ w, match match body with
             | None => Some None
             | Some b => Some <$> read recursion_limit (heap w) b
             end with
       | None => (Raise RuntimeError, w)
       | Some bj =>
           let w1 := World (heap w) (trace w ++ [EFetch method url bj]) in
           match server (requests w) method url bj with
           | Json t => load t w1
           | Failure e => (Raise e, w1)
           end
       end.

(** [time.sleep], in milliseconds. *)
Definition sleep (ms : Z) : M unit := emit (ESleep ms).

End Runtime.

(** ** class PredictionSplitParamsHandler *)

Module PredictionSplitParamsHandler.

(** A selection or filter argument that is not [None]: an instance of the
    builder class the method tests for, given by what its [build()] returns,
    or any other object, which is stored as it is. *)
Inductive argument : Type :=
| Builder (built : value)
| Raw (v : value).

Definition resolve (a : argument) : value :=
  match a with
  | Builder built => built
  | Raw v => v
  end.

Definition store (target : value) (key : string) (a : option argument) : M unit :=
  match a with
  | Some a => setitem target key (resolve a)
  | None => mret ()
  end.

(** [train_ratio] and [n_folds] are stored as they are given. *)
Definition set_split_random (mltask_settings : value) (train_ratio : value)
    (selection : option argument) (dataset_name : option string) : M unit :=
  sp ← getitem mltask_settings "splitParams";
  setitem sp "ttPolicy" "SPLIT_SINGLE_DATASET";;
  store sp "ssdSelection" selection;;
  setitem sp "ssdTrainingRatio" train_ratio;;
  setitem sp "kfold" (VBool false);;
  match dataset_name with
  | Some dataset_name => setitem sp "ssdDatasetSmartName" dataset_name
  | None => mret ()
  end.

Definition set_split_kfold (mltask_settings : value) (n_folds : value)
    (selection : option argument) (dataset_name : option string) : M unit :=
  sp ← getitem mltask_settings "splitParams";
  setitem sp "ttPolicy" "SPLIT_SINGLE_DATASET";;
  store sp "ssdSelection" selection;;
  setitem sp "kfold" (VBool true);;
  setitem sp "nFolds" n_folds;;
  match dataset_name with
  | Some dataset_name => setitem sp "ssdDatasetSmartName" dataset_name
  | None => mret ()
  end.

Definition set_split_explicit (mltask_settings : value)
    (train_selection test_selection : option argument)
    (dataset_name test_dataset_name : option string)
    (train_filter test_filter : option argument) : M unit :=
  sp ← getitem mltask_settings "splitParams";
  match dataset_name with
  | None => raise (Exception "For explicit splitting a dataset_name is mandatory")
  | Some name =>
      '(train_split, test_split) ←
        (if bool_decide (test_dataset_name = None ∨ test_dataset_name = Some name)
         then
           setitem sp "ttPolicy" "EXPLICIT_FILTERING_SINGLE_DATASET";;
           train_split ← alloc (ODict ∅);
           test_split ← alloc (ODict ∅);
           setitem sp "efsdDatasetSmartName" name;;
           setitem sp "efsdTrain" train_split;;
           setitem sp "efsdTest" test_split;;
           mret (train_split, test_split)
         else
           setitem sp "ttPolicy" "EXPLICIT_FILTERING_TWO_DATASETS";;
           train_split ← alloc (ODict {["datasetSmartName" := VStr name]});
           test_split ← alloc (ODict {["datasetSmartName" := str_or_none test_dataset_name]});
           setitem sp "eftdTrain" train_split;;
           setitem sp "eftdTest" test_split;;
           mret (train_split, test_split));
      store train_split "selection" train_selection;;
      store test_split "selection" test_selection;;
      store train_split "filter" train_filter;;
      store test_split "filter" test_filter
  end.

End PredictionSplitParamsHandler.

(** ** class DSSMLTaskSettings and its two subclasses *)

Module DSSMLTaskSettings.

Inductive subclass : Type :=
| DSSPredictionMLTaskSettings
| DSSClusteringMLTaskSettings.

Record t : Type := Build {
  class : subclass;
  mltask_settings : value
}.

Definition algorithm_remap (c : subclass) : gmap string string :=
  match c with
  | DSSPredictionMLTaskSettings =>
      list_to_map [
        ("SVC_CLASSIFICATION", "svc_classifier");
        ("SGD_CLASSIFICATION", "sgd_classifier");
        ("SPARKLING_DEEP_LEARNING", "deep_learning_sparkling");
        ("SPARKLING_GBM", "gbm_sparkling");
        ("SPARKLING_RF", "rf_sparkling");
        ("SPARKLING_GLM", "glm_sparkling");
        ("SPARKLING_NB", "nb_sparkling");
        ("XGBOOST_CLASSIFICATION", "xgboost");
        ("XGBOOST_REGRESSION", "xgboost");
        ("MLLIB_LOGISTIC_REGRESSION", "mllib_logit");
        ("MLLIB_LINEAR_REGRESSION", "mllib_linreg");
        ("MLLIB_RANDOM_FOREST", "mllib_rf")
      ]
  | DSSClusteringMLTaskSettings =>
      list_to_map [ ("DBSCAN", "db_scan_clustering") ]
  end.

Section Methods.

Variable recursion_limit : nat.

(** [str.lower], the interpreter's lowercasing of a string.  It follows the
    Unicode case tables, which are not part of the module: the methods take
    it as given. *)
Variable lower : string → string.

Variable self : t.

Definition get_feature_preprocessing (feature_name : value) : M value :=
  preprocessing ← getitem (mltask_settings self) "preprocessing";
  per_feature ← getitem preprocessing "per_feature";
  getitem per_feature feature_name.

Definition per_feature : M value :=
  preprocessing ← getitem (mltask_settings self) "preprocessing";
  getitem preprocessing "per_feature".

Definition foreach_feature (fn : string → value → M value)
    (only_of_type : option string) : M unit :=
  new_per_feature ← alloc (ODict ∅);
  features ← per_feature;
  kvs ← items features;
  for_each kvs (λ '(k, v),
    role ← getitem v "role";
    if eq_str role "TARGET" then mret ()
    else
      skip ← match only_of_type with
             | None => mret false
             | Some ty => type ← getitem v "type"; mret (negb (eq_str type ty))
             end;
      if (skip : bool) then mret ()
      else
        copy ← deepcopy recursion_limit v;
        params ← fn k copy;
        setitem new_per_feature k params);;
  preprocessing ← getitem (mltask_settings self) "preprocessing";
  setitem preprocessing "per_feature" new_per_feature.

Definition get_raw : value := mltask_settings self.

(** The handler is built over the settings object itself, not a copy. *)
Definition get_split_params : value := mltask_settings self.

Definition reject_feature (feature_name : string) : M unit :=
  feature ← get_feature_preprocessing feature_name;
  setitem feature "role" "REJECT".

Definition use_feature (feature_name : string) : M unit :=
  feature ← get_feature_preprocessing feature_name;
  setitem feature "role" "INPUT".

Definition remove_sample_weighting : M unit :=
  weight ← getitem (mltask_settings self) "weight";
  setitem weight "weightMethod" "NO_WEIGHTING";;
  features ← per_feature;
  names ← iter features;
  for_each names (λ feature_name,
    feature ← get_feature_preprocessing feature_name;
    role ← getitem feature "role";
    if eq_str role "WEIGHT" then
      feature ← get_feature_preprocessing feature_name;
      setitem feature "role" "INPUT"
    else mret ()).

Definition use_sample_weighting (feature_name : string) : M unit :=
  remove_sample_weighting;;
  features ← per_feature;
  present ← contains feature_name features;
  if negb present then
    raise (ValueError ("Feature " +:+ feature_name +:+
                       " doesn't exist in this ML task, can't use as weight"))
  else
    weight ← getitem (mltask_settings self) "weight";
    setitem weight "weightMethod" "SAMPLE_WEIGHT";;
    weight ← getitem (mltask_settings self) "weight";
    setitem weight "sampleWeightVariable" feature_name;;
    feature ← get_feature_preprocessing feature_name;
    setitem feature "role" "WEIGHT".

Definition get_algorithm_settings (algorithm_name : string) : M value :=
  let algorithm_name :=
    match algorithm_remap (class self) !! algorithm_name with
    | Some remapped => remapped
    | None => algorithm_name
    end in
  modeling ← getitem (mltask_settings self) "modeling";
  getitem modeling (lower algorithm_name).

Definition set_algorithm_enabled (algorithm_name : string) (enabled : value) : M unit :=
  settings ← get_algorithm_settings algorithm_name;
  setitem settings "enabled" enabled.

Definition metrics : M value :=
  modeling ← getitem (mltask_settings self) "modeling";
  getitem modeling "metrics".

Definition set_metric (metric custom_metric : option string)
    (custom_metric_greater_is_better custom_metric_use_probas : bool) : M unit :=
  if bool_decide (custom_metric = None ∧ metric = None) then
    raise (ValueError "Either metric or custom_metric must be defined")
  else
    m ← metrics;
    setitem m "evaluationMetric"
      (match custom_metric with
       | None => str_or_none metric
       | Some _ => VStr "CUSTOM"
       end);;
    m ← metrics;
    setitem m "customEvaluationMetricCode" (str_or_none custom_metric);;
    m ← metrics;
    setitem m "customEvaluationMetricGIB" (VBool custom_metric_greater_is_better);;
    m ← metrics;
    setitem m "customEvaluationMetricNeedsProba" (VBool custom_metric_use_probas).

End Methods.

End DSSMLTaskSettings.

(** ** class DSSMLTask (its fields first), and the detail wrappers it hands out *)

Module DSSMLTaskObject.

Record t : Type := Build {
  project_key : string;
  analysis_id : string;
  mltask_id : string
}.

Definition lab (self : t) : string :=
  "/projects/" +:+ project_key self +:+ "/models/lab/" +:+
  analysis_id self +:+ "/" +:+ mltask_id self.

End DSSMLTaskObject.

(** ** class DSSClustersFacts *)

Module DSSClustersFacts.

Record t : Type := Build { clusters_facts : value }.

Section Methods.

Variable self : t.

Definition get_raw : value := clusters_facts self.

Definition get_cluster_size (cluster_index : value) : M value :=
  clusters ← getitem (clusters_facts self) "clusters";
  cluster ← getitem clusters cluster_index;
  getitem cluster "size".

Definition get_facts_for_cluster (cluster_index : value) : M value :=
  clusters ← getitem (clusters_facts self) "clusters";
  cluster ← getitem clusters cluster_index;
  getitem cluster "facts".

Definition get_facts_for_cluster_and_feature (cluster_index : value)
    (feature_name : string) : M value :=
  facts ← get_facts_for_cluster cluster_index;
  facts ← iter facts;
  kept ← filter_m (λ x,
            label ← getitem x "feature_label";
            mret (eq_str label feature_name)) facts;
  alloc (OList kept).

End Methods.

End DSSClustersFacts.

Module DSSTrainedModelDetails.

Inductive subclass : Type :=
| DSSTrainedPredictionModelDetails
| DSSTrainedClusteringModelDetails.

Record t : Type := Build {
  class : subclass;
  details : value;
  snippet : value;
  mltask : option DSSMLTaskObject.t;
  mltask_model_id : option string
}.

Definition prediction_bookkeeping : list string :=
  ["gridsearchData"; "trainDate"; "topImportance"; "backendType"; "userMeta";
   "sessionDate"; "trainInfo"; "fullModelId"; "gridLength"; "algorithm";
   "sessionId"].

Definition clustering_bookkeeping : list string :=
  ["fullModelId"; "algorithm"; "trainInfo"; "userMeta"; "backendType";
   "sessionId"; "sessionDate"; "facts"].

Section Methods.

Variable recursion_limit : nat.
Variable self : t.

(** DSSTrainedPredictionModelDetails.get_roc_curve_data *)
Definition get_roc_curve_data : M value :=
  perf ← dict_get_with (details self) "perf" (alloc (ODict ∅));
  roc ← dict_get_with perf "rocVizData" (alloc (ODict ∅));
  if is_none roc then
    raise (ValueError "This model does not have ROC visualization data")
  else mret roc.

Definition strip (keys : list string) : M value :=
  clean_snippet ← deepcopy recursion_limit (snippet self);
  for_each keys (λ x,
    present ← contains x clean_snippet;
    if (present : bool) then delitem clean_snippet x else mret ());;
  mret clean_snippet.

(** The method of either subclass, each with its own list of keys. *)
Definition get_performance_metrics : M value :=
  match class self with
  | DSSTrainedPredictionModelDetails => strip prediction_bookkeeping
  | DSSTrainedClusteringModelDetails => strip clustering_bookkeeping
  end.

Definition get_raw : value := details self.

Definition get_raw_snippet : value := snippet self.

Definition get_train_info : M value := getitem (details self) "trainInfo".

Definition get_user_meta : M value := getitem (details self) "userMeta".

Definition get_preprocessing_settings : M value := getitem (details self) "preprocessing".

Definition get_modeling_settings : M value := getitem (details self) "modeling".

Definition get_actual_modeling_params : M value := getitem (details self) "actualParams".


End Methods.

End DSSTrainedModelDetails.

Module DSSMLTask.

Import DSSMLTaskObject.

Section Methods.

Variable python : interpreter.
Variable recursion_limit : nat.
Variable server : nat → string → string → option json → response.
Variable self : DSSMLTaskObject.t.

Definition get_status : M value :=
  perform_json recursion_limit server "GET" (lab self +:+ "/status") None.

Fixpoint wait_guess_complete (fuel : nat) : M unit :=
  match fuel with
  | 0 => λ w, (OutOfFuel, w)
  | S fuel =>
      status ← get_status;
      guessing ← dict_get status "guessing" "???";
      if eq_bool guessing false then mret ()
      else sleep 200;; wait_guess_complete fuel
  end.

Fixpoint wait_train_complete (fuel : nat) : M unit :=
  match fuel with
  | 0 => λ w, (OutOfFuel, w)
  | S fuel =>
      status ← get_status;
      training ← dict_get status "training" "???";
      if eq_bool training false then mret ()
      else sleep 2000;; wait_train_complete fuel
  end.

Definition get_trained_model_snippet (id : option string) (ids : option value) : M value :=
  obj ← match id, ids with
        | Some id, _ => l ← alloc (OList [VStr id]); alloc (ODict {["modelsIds" := l]})
        | None, Some ids => alloc (ODict {["modelsIds" := ids]})
        | None, None => alloc (ODict ∅)
        end;
  ret ← perform_json recursion_limit server "GET" (lab self +:+ "/models-snippets") (Some obj);
  match id with
  | Some id => getitem ret id
  | None => mret ret
  end.

Definition get_trained_models_ids (session_id algorithm : option string) : M value :=
  status ← get_status;
  full_model_ids ← getitem status "fullModelIds";
  full_model_ids ←
    match session_id with
    | None => mret full_model_ids
    | Some session_id =>
        entries ← iter full_model_ids;
        kept ← filter_m (λ fmi,
                  full ← dict_get_with fmi "fullModelId" (alloc (ODict ∅));
                  session ← dict_get full "sessionId" "";
                  mret (eq_str session session_id)) entries;
        alloc (OList kept)
    end;
  entries ← iter full_model_ids;
  ids ← map_m (λ x, getitem x "id") entries;
  model_ids ← alloc (OList ids);
  match algorithm with
  | None => mret model_ids
  | Some algorithm =>
      snippets ← get_trained_model_snippet None (Some model_ids);
      pairs ← iteritems python snippets;
      kept ← filter_m (λ '(fmi, s),
                alg ← dict_get s "algorithm" "";
                mret (eq_str alg algorithm)) pairs;
      alloc (OList (VStr <$> kept.*1))
  end.

Definition get_trained_model_details (id : string) : M DSSTrainedModelDetails.t :=
  ret ← perform_json recursion_limit server "GET"
          (lab self +:+ "/models/" +:+ id +:+ "/details") None;
  snippet ← get_trained_model_snippet (Some id) None;
  facts ← contains "facts" ret;
  if (facts : bool) then
    mret (DSSTrainedModelDetails.Build
            DSSTrainedModelDetails.DSSTrainedClusteringModelDetails
            ret snippet (Some self) (Some id))
  else
    mret (DSSTrainedModelDetails.Build
            DSSTrainedModelDetails.DSSTrainedPredictionModelDetails
            ret snippet (Some self) (Some id)).

Definition get_settings : M DSSMLTaskSettings.t :=
  settings ← perform_json recursion_limit server "GET" (lab self +:+ "/settings") None;
  task_type ← getitem settings "taskType";
  if eq_str task_type "PREDICTION" then
    mret (DSSMLTaskSettings.Build DSSMLTaskSettings.DSSPredictionMLTaskSettings settings)
  else
    mret (DSSMLTaskSettings.Build DSSMLTaskSettings.DSSClusteringMLTaskSettings settings).

Definition start_train (session_name session_description : option string) : M value :=
  session_info ← alloc (ODict (<["sessionName" := str_or_none session_name]>
                                {["sessionDescription" := str_or_none session_description]}));
  perform_json recursion_limit server "POST" (lab self +:+ "/train") (Some session_info).

Definition start_ensembling (model_ids : value) (method : option string) : M value :=
  ensembling_request ← alloc (ODict (<["method" := str_or_none method]>
                                      {["modelsIds" := model_ids]}));
  ret ← perform_json recursion_limit server "POST" (lab self +:+ "/ensemble")
          (Some ensembling_request);
  getitem ret "id".

Definition deploy_to_flow (model_id model_name train_dataset : string)
    (test_dataset : option string) (redo_optimization : bool) : M value :=
  obj ← alloc (ODict (<["trainDatasetRef" := VStr train_dataset]> (
                      <["testDatasetRef" := str_or_none test_dataset]> (
                      <["modelName" := VStr model_name]>
                      {["redoOptimization" := VBool redo_optimization]}))));
  perform_json recursion_limit server "POST"
    (lab self +:+ "/models/" +:+ model_id +:+ "/actions/deployToFlow") (Some obj).

Definition redeploy_to_flow (model_id : string) (recipe_name saved_model_id : option string)
    (activate : bool) : M value :=
  obj ← alloc (ODict (<["recipeName" := str_or_none recipe_name]> (
                      <["savedModelId" := str_or_none saved_model_id]>
                      {["activate" := VBool activate]})));
  perform_json recursion_limit server "POST"
    (lab self +:+ "/models/" +:+ model_id +:+ "/actions/redeployToFlow") (Some obj).

End Methods.

End DSSMLTask.

(** ** Vocabulary of the statements *)

(** In heap [h], the object at [l] is a dictionary whose entry [k] is [x]. *)
Definition field (h : gmap loc obj) (l : loc) (k : string) (x : value) : Prop :=
  ∃ d, h !! l = Some (ODict d) ∧ d !! k = Some x.

(** The value [v] stands for the document [t] in heap [h]. *)
Definition repr (h : gmap loc obj) (v : value) (t : json) : Prop :=
  ∃ n, read n h v = Some t.

(** What decoding guarantees for a document [t]: [load] returns a value that
    stands for [t], and it only adds objects to the heap. *)
Definition loads (t : json) : Prop :=
  ∀ w, ∃ v w',
    load t w = (Ret v, w') ∧ heap w ⊆ heap w' ∧ trace w' = trace w ∧
    read (jdepth t) (heap w') v = Some t.

(** The status document [t] is a mapping that reports the boolean [b] in
    its field [key]. *)
Definition reports (t : json) (key : string) (b : bool) : Prop :=
  ∃ m, t = JObject m ∧ m !! key = Some (JBool b).

(** [k] rounds of polling: a status fetch, then a sleep of [ms] milliseconds. *)
Definition polls (url : string) (ms : Z) (k : nat) : list event :=
  concat (replicate k [EFetch "GET" url None; ESleep ms]).

(** Entries of a status's [fullModelIds] and snippets, as documents: the
    model id of an entry, the session it belongs to (what
    [fmi.get('fullModelId', {}).get('sessionId', '')] compares), and the
    algorithm of a snippet (what [s.get("algorithm", "")] compares). *)
Definition is_str (t : json) (s : string) : bool :=
  match t with
  | JStr s' => String.eqb s' s
  | _ => false
  end.

Definition entry_id (e : json) : string :=
  match e with
  | JObject m => match m !! "id" with Some (JStr id) => id | _ => "" end
  | _ => ""
  end.

Definition session_of (e : json) : json :=
  match e with
  | JObject m =>
      match m !! "fullModelId" with
      | Some (JObject f) => default (JStr "") (f !! "sessionId")
      | _ => JStr ""
      end
  | _ => JStr ""
  end.

Definition algorithm_of (s : json) : json :=
  match s with
  | JObject m => default (JStr "") (m !! "algorithm")
  | _ => JStr ""
  end.

(** An entry the method can go through: a mapping with a string [id] whose
    [fullModelId], when present, is a mapping. *)
Definition entry_ok (e : json) : Prop :=
  ∃ m id, e = JObject m ∧ m !! "id" = Some (JStr id) ∧
    (m !! "fullModelId" = None ∨ ∃ f, m !! "fullModelId" = Some (JObject f)).

Definition is_object (t : json) : Prop := ∃ m, t = JObject m.

(** The snippet answered under the model id [k] has the given algorithm. *)
Definition has_algorithm (snippets : gmap string json) (algorithm k : string) : bool :=
  match snippets !! k with
  | Some s => is_str (algorithm_of s) algorithm
  | None => false
  end.

(** Sample weighting.  The reset step turns the role ['WEIGHT'] of a feature
    into ['INPUT'] and changes nothing else in it. *)
Definition reset_role (o : obj) : obj :=
  match o with
  | ODict d =>
      match d !! "role" with
      | Some role => if eq_str role "WEIGHT" then ODict (<["role" := VStr "INPUT"]> d) else o
      | None => o
      end
  | OList _ => o
  end.

(** The object that holds the parameters of feature [k]. *)
Definition cell_of (pf : gmap string value) (k : string) : option loc :=
  match pf !! k with
  | Some (VRef l) => Some l
  | _ => None
  end.

Definition cells_of (pf : gmap string value) (names : list string) : gset loc :=
  list_to_set (omap (cell_of pf) names).

Definition feature_cells (pf : gmap string value) : gset loc :=
  cells_of pf (map_to_list pf).*1.

(** The heap [h] with the role of the features at [cells] reset. *)
Definition reset_cells (cells : gset loc) (h : gmap loc obj) : gmap loc obj :=
  map_imap (λ l o, Some (if decide (l ∈ cells) then reset_role o else o)) h.

(** The settings at [ls] are laid out as the methods expect: [weight] is a
    mapping (at [lw]), [preprocessing.per_feature] is a mapping (at [lpf],
    through [lp]) from names to feature mappings that each have a [role],
    and these objects are distinct, as they are in a decoded document. *)
Definition weighting_layout (ls lw lp lpf : loc) (wd pf : gmap string value)
    (h : gmap loc obj) : Prop :=
  field h ls "weight" (VRef lw) ∧ h !! lw = Some (ODict wd) ∧
  field h ls "preprocessing" (VRef lp) ∧ field h lp "per_feature" (VRef lpf) ∧
  h !! lpf = Some (ODict pf) ∧
  lw ≠ ls ∧ lw ≠ lp ∧ lw ≠ lpf ∧
  map_Forall (λ _ v, ∃ lf fd role,
    v = VRef lf ∧ h !! lf = Some (ODict fd) ∧ fd !! "role" = Some role ∧
    lf ≠ ls ∧ lf ≠ lw ∧ lf ≠ lp ∧ lf ≠ lpf) pf.

(** The path [settings["modeling"]["metrics"]], from the settings at [ls],
    leads through [lm] to the dictionary at [lmm]. *)
Definition metrics_at (ls lm lmm : loc) (h : gmap loc obj) : Prop :=
  field h ls "modeling" (VRef lm) ∧ field h lm "metrics" (VRef lmm).

(** What a split record holds once the optional selection and filter are
    stored into [base]. *)
Definition with_argument (key : string)
    (a : option PredictionSplitParamsHandler.argument)
    (d : gmap string value) : gmap string value :=
  match a with
  | Some a => <[key := PredictionSplitParamsHandler.resolve a]> d
  | None => d
  end.

Definition split_record (base : gmap string value)
    (selection filter : option PredictionSplitParamsHandler.argument) :
    gmap string value :=
  with_argument "filter" filter (with_argument "selection" selection base).

(** The two key shapes of an explicit split in [splitParams]. *)
Definition single_dataset_shape (sp : gmap string value) : Prop :=
  is_Some (sp !! "efsdDatasetSmartName") ∧ is_Some (sp !! "efsdTrain") ∧
  is_Some (sp !! "efsdTest").

Definition two_datasets_shape (sp : gmap string value) : Prop :=
  is_Some (sp !! "eftdTrain") ∧ is_Some (sp !! "eftdTest").

(** What a split record holds once the optional dataset name is stored into
    [d]. *)
Definition with_name (dataset_name : option string) (d : gmap string value) :
    gmap string value :=
  match dataset_name with
  | Some name => <["ssdDatasetSmartName" := VStr name]> d
  | None => d
  end.

(** The path [settings["preprocessing"]["per_feature"]], from the settings at
    [ls], leads through [lp] to the dictionary [pf] at [lpf]. *)
Definition features_at (ls lp lpf : loc) (pf : gmap string value)
    (h : gmap loc obj) : Prop :=
  field h ls "preprocessing" (VRef lp) ∧ field h lp "per_feature" (VRef lpf) ∧
  h !! lpf = Some (ODict pf).

(** [None] is sent as [null], a string as itself. *)
Definition json_or_null (o : option string) : json :=
  match o with
  | Some s => JStr s
  | None => JNull
  end.

(** The computation [m] stops at its first request: the error [e] of the
    transport comes out as it is, and one request is all that happened. *)
Definition fails_at_first_request {A} (m : M A) (w : world) (e : exn) : Prop :=
  ∃ w' method url body,
    m w = (Raise e, w') ∧ trace w' = trace w ++ [EFetch method url body].

(** In heap [h], [fact] is a mapping whose [feature_label] is [label]. *)
Definition labelled (h : gmap loc obj) (fact label : value) : Prop :=
  ∃ l d, fact = VRef l ∧ h !! l = Some (ODict d) ∧ d !! "feature_label" = Some label.


(** ** Sample inputs *)

Module Sample.

Import DSSMLTaskSettings.

#[local] Open Scope positive_scope.

(** Settings [{"modeling": {"metrics": {}}}], as a prediction task holds them. *)
Definition metrics_world : world :=
  World (list_to_map [
    (1, ODict {["modeling" := VRef 2]});
    (2, ODict {["metrics" := VRef 3]});
    (3, ODict ∅)
  ]) [].

Definition metrics_settings : DSSMLTaskSettings.t :=
  DSSMLTaskSettings.Build DSSPredictionMLTaskSettings (VRef 1).

(** Settings weighted by feature [w0], with a second feature [a]:
    [{"weight": {"weightMethod": "SAMPLE_WEIGHT", "sampleWeightVariable": "w0"},
      "preprocessing": {"per_feature": {"w0": {"role": "WEIGHT"},
                                        "a": {"role": "INPUT"}}}}]. *)
Definition weighting_world : world :=
  World (list_to_map [
    (1, ODict (<["weight" := VRef 2]> {["preprocessing" := VRef 3]}));
    (2, ODict (<["weightMethod" := VStr "SAMPLE_WEIGHT"]>
                 {["sampleWeightVariable" := VStr "w0"]}));
    (3, ODict {["per_feature" := VRef 4]});
    (4, ODict (<["w0" := VRef 5]> {["a" := VRef 6]}));
    (5, ODict {["role" := VStr "WEIGHT"]});
    (6, ODict {["role" := VStr "INPUT"]})
  ]) [].

(** Lowercasing of ASCII text: the letters [A] to [Z] go to [a] to [z] and
    every other byte stays.  On the ASCII names used below this is what
    [str.lower] does. *)
Definition lower_ascii (c : ascii) : ascii :=
  let n := nat_of_ascii c in
  if (65 <=? n)%nat && (n <=? 90)%nat then ascii_of_nat (n + 32)%nat else c.

Fixpoint lower (s : string) : string :=
  match s with
  | EmptyString => EmptyString
  | String c r => String (lower_ascii c) (lower r)
  end.

(** Settings [{"splitParams": {}}]. *)
Definition split_world : world :=
  World (list_to_map [
    (1, ODict {["splitParams" := VRef 2]});
    (2, ODict ∅)
  ]) [].

(** Settings with a target [y] and two input features, [a] a category and
    [b] a number. *)
Definition features_world : world :=
  World (list_to_map [
    (1, ODict {["preprocessing" := VRef 2]});
    (2, ODict {["per_feature" := VRef 3]});
    (3, ODict (<["y" := VRef 4]> (<["a" := VRef 5]> {["b" := VRef 6]})));
    (4, ODict (<["role" := VStr "TARGET"]> {["type" := VStr "NUMERIC"]}));
    (5, ODict (<["role" := VStr "INPUT"]> {["type" := VStr "CATEGORY"]}));
    (6, ODict (<["role" := VStr "INPUT"]> {["type" := VStr "NUMERIC"]}))
  ]) [].

(** A transform that leaves the parameters as they are. *)
Definition keep : string → value → M value := λ _ params, mret params.

(** Details of a prediction model: [{}], [{"perf": {}}] and
    [{"perf": {"rocVizData": null}}]. *)
Definition no_perf_world : world := World (list_to_map [(1, ODict ∅)]) [].

Definition no_roc_world : world :=
  World (list_to_map [(1, ODict {["perf" := VRef 2]}); (2, ODict ∅)]) [].

Definition null_roc_world : world :=
  World (list_to_map [(1, ODict {["perf" := VRef 2]});
                      (2, ODict {["rocVizData" := VNone]})]) [].

Definition prediction_details : DSSTrainedModelDetails.t :=
  DSSTrainedModelDetails.Build
    DSSTrainedModelDetails.DSSTrainedPredictionModelDetails (VRef 1) VNone None None.

(** An ML task, and a service whose status says "busy" for the first [k]
    requests and "done" afterwards. *)
Definition task : DSSMLTaskObject.t := DSSMLTaskObject.Build "PROJ" "an" "ml".

Definition busy_server (k : nat) : nat → string → string → option json → response :=
  λ i _ _ _, Json (JObject (<["training" := JBool (i <? k)%nat]>
                            {["guessing" := JBool (i <? k)%nat]})).

Definition empty_world : world := World ∅ [].

(** A prediction wrapper whose snippet is
    [{"algorithm": "RANDOM_FOREST", "auc": 1, "trainInfo": {}}]. *)
Definition snippet_world : world :=
  World (list_to_map [
    (1, ODict (<["algorithm" := VStr "RANDOM_FOREST"]>
               (<["auc" := VInt 1]> {["trainInfo" := VRef 2]})));
    (2, ODict ∅)
  ]) [].

Definition snippet_details : DSSTrainedModelDetails.t :=
  DSSTrainedModelDetails.Build
    DSSTrainedModelDetails.DSSTrainedPredictionModelDetails VNone (VRef 1) None None.

(** A service that answers the first request with [first] and every later
    one with [later]. *)
Definition two_step_server (first later : json) :
    nat → string → string → option json → response :=
  λ i _ _ _, match i with
             | O => Json first
             | S _ => Json later
             end.

(** A status with two trained models, of the sessions [s1] and [s2]. *)
Definition model_entry (id session : string) : json :=
  JObject (<["id" := JStr id]>
           {["fullModelId" := JObject {["sessionId" := JStr session]}]}).

Definition two_models : list json := [model_entry "m1" "s1"; model_entry "m2" "s2"].

Definition two_models_status : gmap string json :=
  <["training" := JBool false]> {["fullModelIds" := JList two_models]}.

Definition kmeans_snippets : json :=
  JObject {["m1" := JObject {["algorithm" := JStr "KMEANS"]}]}.

(** Settings [{"modeling": {"xgboost": {"enabled": false},
    "ridge_regression": {"enabled": false}}}]. *)
Definition modeling_world : world :=
  World (list_to_map [
    (1, ODict {["modeling" := VRef 2]});
    (2, ODict (<["xgboost" := VRef 3]> {["ridge_regression" := VRef 4]}));
    (3, ODict {["enabled" := VBool false]});
    (4, ODict {["enabled" := VBool false]})
  ]) [].

(** Facts of two clusters:
    [{"clusters": [{"size": 10, "facts": []},
                   {"size": 20, "facts": [{"feature_label": "age"},
                                          {"feature_label": "city"},
                                          {"feature_label": "age"}]}]}]. *)
Definition facts_world : world :=
  World (list_to_map [
    (1, ODict {["clusters" := VRef 2]});
    (2, OList [VRef 3; VRef 4]);
    (3, ODict (<["size" := VInt 10]> {["facts" := VRef 5]}));
    (4, ODict (<["size" := VInt 20]> {["facts" := VRef 6]}));
    (5, OList []);
    (6, OList [VRef 7; VRef 8; VRef 9]);
    (7, ODict {["feature_label" := VStr "age"]});
    (8, ODict {["feature_label" := VStr "city"]});
    (9, ODict {["feature_label" := VStr "age"]})
  ]) [].

Definition facts : DSSClustersFacts.t := DSSClustersFacts.Build (VRef 1).

(** Details [{"userMeta": {"name": "draft"}}]. *)
Definition user_meta_world : world :=
  World (list_to_map [
    (1, ODict {["userMeta" := VRef 2]});
    (2, ODict {["name" := VStr "draft"]})
  ]) [].

End Sample.

(** * Properties *)

(** ** Running a computation step by step *)

Lemma bind_Ret {A B} (m : M A) (k : A → M B) w a w' :
  m w = (Ret a, w') → (m ≫= k) w = k a w'.
Proof. intros E. unfold mbind, M_bind, bind. by rewrite E. Qed.

Lemma bind_Raise {A B} (m : M A) (k : A → M B) w e w' :
  m w = (Raise e, w') → (m ≫= k) w = (Raise e, w').
Proof. intros E. unfold mbind, M_bind, bind. by rewrite E. Qed.

Lemma bind_OutOfFuel {A B} (m : M A) (k : A → M B) w w' :
  m w = (OutOfFuel, w') → (m ≫= k) w = (OutOfFuel, w').
Proof. intros E. unfold mbind, M_bind, bind. by rewrite E. Qed.

Lemma getitem_field w l (k : string) x :
  field (heap w) l k x → getitem (VRef l) k w = (Ret x, w).
Proof. intros (d & E1 & E2). unfold getitem. by rewrite E1, E2. Qed.

Lemma setitem_dict w l d k x :
  heap w !! l = Some (ODict d) →
  setitem (VRef l) k x w = (Ret (), World (<[l := ODict (<[k := x]> d)]> (heap w)) (trace w)).
Proof. intros E. unfold setitem. by rewrite E. Qed.

Lemma field_insert_same h l d k x :
  field (<[l := ODict (<[k := x]> d)]> h) l k x.
Proof. exists (<[k := x]> d). by rewrite !lookup_insert_eq. Qed.

Lemma field_insert_other h l k x l' d' k' y :
  field h l k x → h !! l' = Some (ODict d') → k ≠ k' →
  field (<[l' := ODict (<[k' := y]> d')]> h) l k x.
Proof.
  intros (d & E1 & E2) E' Hk. destruct (decide (l = l')) as [->|Hl].
  - exists (<[k' := y]> d'). rewrite lookup_insert_eq. split; [done|].
    rewrite lookup_insert_ne by done. congruence.
  - exists d. by rewrite lookup_insert_ne.
Qed.

Lemma field_alloc h l k x o :
  field h l k x → field (<[fresh (dom h) := o]> h) l k x.
Proof.
  intros (d & E1 & E2). exists d. split; [|done].
  rewrite lookup_insert_ne; [done|]. intros <-.
  apply (is_fresh (dom h)). apply elem_of_dom. eauto.
Qed.

(** ** DSSMLTaskSettings.set_metric *)

Section SetMetric.

Import DSSMLTaskSettings.

Variables (self : DSSMLTaskSettings.t) (ls lm lmm : loc).
Hypothesis Hself : mltask_settings self = VRef ls.

#[local] Abbreviation metrics_at := (metrics_at ls lm lmm).

Lemma metrics_run w :
  metrics_at (heap w) → metrics self w = (Ret (VRef lmm), w).
Proof using Hself.
  intros [H1 H2]. unfold metrics. rewrite Hself.
  rewrite (bind_Ret _ _ _ _ _ (getitem_field _ _ _ _ H1)).
  by apply getitem_field.
Qed.

Lemma metrics_at_insert h mm k x :
  metrics_at h → h !! lmm = Some (ODict mm) →
  k ≠ "modeling" → k ≠ "metrics" →
  metrics_at (<[lmm := ODict (<[k := x]> mm)]> h).
Proof.
  intros [H1 H2] E ??. split; eapply field_insert_other; eauto.
Qed.

Lemma set_metric_step w mm k x (rest : M unit) :
  metrics_at (heap w) → heap w !! lmm = Some (ODict mm) →
  (m ← metrics self; setitem m k x;; rest) w =
  rest (World (<[lmm := ODict (<[k := x]> mm)]> (heap w)) (trace w)).
Proof using Hself.
  intros Hp E.
  rewrite (bind_Ret _ _ _ _ _ (metrics_run _ Hp)).
  by rewrite (bind_Ret _ _ _ _ _ (setitem_dict _ _ _ _ _ E)).
Qed.

Lemma set_metric_writes w mm metric custom_metric gib probas :
  metrics_at (heap w) → heap w !! lmm = Some (ODict mm) →
  ¬ (custom_metric = None ∧ metric = None) →
  set_metric self metric custom_metric gib probas w =
  (Ret (), World (<[lmm := ODict (
      <["customEvaluationMetricNeedsProba" := VBool probas]> (
      <["customEvaluationMetricGIB" := VBool gib]> (
      <["customEvaluationMetricCode" := str_or_none custom_metric]> (
      <["evaluationMetric" := match custom_metric with
                              | None => str_or_none metric
                              | Some _ => VStr "CUSTOM"
                              end]> mm))))]> (heap w)) (trace w)).
Proof using Hself.
  intros Hp E Hn. unfold set_metric. rewrite bool_decide_eq_false_2 by done.
  assert (∀ h d k x, metrics_at h → h !! lmm = Some (ODict d) →
            k ≠ "modeling" → k ≠ "metrics" →
            metrics_at (<[lmm := ODict (<[k := x]> d)]> h) ∧
            <[lmm := ODict (<[k := x]> d)]> h !! lmm = Some (ODict (<[k := x]> d)))
    as Hnext.
  { intros. split; [by apply metrics_at_insert | apply lookup_insert_eq]. }
  rewrite (set_metric_step _ _ _ _ _ Hp E).
  destruct (Hnext (heap w) mm "evaluationMetric"
              (match custom_metric with
               | None => str_or_none metric
               | Some _ => VStr "CUSTOM"
               end) Hp E) as [Hp1 E1]; [done..|].
  rewrite (set_metric_step (World _ _) _ _ _ _ Hp1 E1). simpl.
  destruct (Hnext _ _ "customEvaluationMetricCode" (str_or_none custom_metric) Hp1 E1)
    as [Hp2 E2]; [done..|].
  rewrite (set_metric_step (World _ _) _ _ _ _ Hp2 E2). simpl.
  destruct (Hnext _ _ "customEvaluationMetricGIB" (VBool gib) Hp2 E2)
    as [Hp3 E3]; [done..|].
  rewrite (bind_Ret _ _ _ _ _ (metrics_run (World _ _) Hp3)).
  rewrite (setitem_dict (World _ _) _ _ _ _ E3). simpl.
  by rewrite !insert_insert_eq.
Qed.

End SetMetric.

(** C2, as amended.  [set_metric] requires at least one of a named metric
    and a custom-metric code.  On settings whose [modeling.metrics] is a
    dictionary: with neither it raises the validation error before writing
    anything; with a metric [m] and no custom code it writes
    [evaluationMetric = m] and [customEvaluationMetricCode = None]; with a
    custom code [c] (whatever the metric) it writes
    [evaluationMetric = 'CUSTOM'] and stores [c] verbatim; every call that
    does not raise writes the four fields together, into that dictionary
    and nowhere else. *)
Theorem set_metric_at_least_one (self : DSSMLTaskSettings.t) (ls lm lmm : loc)
    (mm : gmap string value) (w : world) (gib probas : bool) :
  DSSMLTaskSettings.mltask_settings self = VRef ls →
  metrics_at ls lm lmm (heap w) →
  heap w !! lmm = Some (ODict mm) →
  let written (evaluation code : value) :=
    (Ret (), World (<[lmm := ODict (
        <["customEvaluationMetricNeedsProba" := VBool probas]> (
        <["customEvaluationMetricGIB" := VBool gib]> (
        <["customEvaluationMetricCode" := code]> (
        <["evaluationMetric" := evaluation]> mm))))]> (heap w)) (trace w)) in
  DSSMLTaskSettings.set_metric self None None gib probas w =
    (Raise (ValueError "Either metric or custom_metric must be defined"), w) ∧
  (∀ m, DSSMLTaskSettings.set_metric self (Some m) None gib probas w =
        written (VStr m) VNone) ∧
  (∀ c metric, DSSMLTaskSettings.set_metric self metric (Some c) gib probas w =
        written (VStr "CUSTOM") (VStr c)).
Proof.
  intros Hself Hp E written. unfold written. split; [done|]. split.
  - intros m. apply (set_metric_writes self ls lm lmm Hself w mm); [done..|].
    by intros [_ [=]].
  - intros c metric. apply (set_metric_writes self ls lm lmm Hself w mm); [done..|].
    by intros [[=] _].
Qed.

Lemma set_metric_at_least_one_witness :
  DSSMLTaskSettings.set_metric Sample.metrics_settings None None true false
    Sample.metrics_world =
    (Raise (ValueError "Either metric or custom_metric must be defined"),
     Sample.metrics_world) ∧
  DSSMLTaskSettings.set_metric Sample.metrics_settings (Some "AUC") None true false
    Sample.metrics_world =
    (Ret (), World (<[3%positive := ODict (
        <["customEvaluationMetricNeedsProba" := VBool false]> (
        <["customEvaluationMetricGIB" := VBool true]> (
        <["customEvaluationMetricCode" := VNone]> (
        <["evaluationMetric" := VStr "AUC"]> ∅))))]>
        (heap Sample.metrics_world)) []).
Proof.
  destruct (set_metric_at_least_one Sample.metrics_settings 1%positive 2%positive
              3%positive ∅
              Sample.metrics_world true false) as (H1 & H2 & _).
  - reflexivity.
  - split; eexists; split; reflexivity.
  - reflexivity.
  - split; [exact H1 | exact (H2 "AUC")].
Defined.

(** C2 as stated fails: with both a metric and a custom code the call is
    accepted, and the custom code wins. *)
Lemma set_metric_both_given_accepted :
  let r := DSSMLTaskSettings.set_metric Sample.metrics_settings
             (Some "AUC") (Some "code") true false Sample.metrics_world in
  r.1 = Ret () ∧
  field (heap r.2) 3%positive "evaluationMetric" (VStr "CUSTOM") ∧
  field (heap r.2) 3%positive "customEvaluationMetricCode" (VStr "code").
Proof.
  split; [reflexivity|]. split; eexists; split; reflexivity.
Qed.

(** ** DSSMLTaskSettings.get_algorithm_settings, set_algorithm_enabled *)

(** The values of both remap tables are lowercase ASCII text already. *)
Lemma lower_idempotent_on_remap c :
  map_Forall (λ _ remapped, Sample.lower remapped = remapped)
    (DSSMLTaskSettings.algorithm_remap c).
Proof. apply (bool_decide_unpack _). by destruct c; vm_compute. Qed.

(** C8.  [get_algorithm_settings] first applies the remap table of the
    settings' class and then indexes into [modeling]: for a name in the table
    it is [modeling[algorithm_remap[name]]], for any other name
    [modeling[lower(name)]] (with the errors of that subscript);
    [set_algorithm_enabled] writes the ['enabled'] field of the dictionary
    found there, and the heap is otherwise unchanged.  Of [str.lower] only
    this is used: it leaves the values of the table, which are lowercase
    already, as they are. *)
Theorem get_algorithm_settings_remap (lower : string → string)
    (self : DSSMLTaskSettings.t) (ls lm : loc)
    (w : world) (algorithm_name : string) :
  DSSMLTaskSettings.mltask_settings self = VRef ls →
  field (heap w) ls "modeling" (VRef lm) →
  let table := DSSMLTaskSettings.algorithm_remap (DSSMLTaskSettings.class self) in
  map_Forall (λ _ remapped, lower remapped = remapped) table →
  (∀ remapped, table !! algorithm_name = Some remapped →
     DSSMLTaskSettings.get_algorithm_settings lower self algorithm_name w =
     getitem (VRef lm) (VStr remapped) w) ∧
  (table !! algorithm_name = None →
     DSSMLTaskSettings.get_algorithm_settings lower self algorithm_name w =
     getitem (VRef lm) (VStr (lower algorithm_name)) w) ∧
  (∀ le entry enabled,
     field (heap w) lm
       (default (lower algorithm_name) (table !! algorithm_name))
       (VRef le) →
     heap w !! le = Some (ODict entry) →
     DSSMLTaskSettings.set_algorithm_enabled lower self algorithm_name enabled w =
     (Ret (), World (<[le := ODict (<["enabled" := enabled]> entry)]> (heap w))
                    (trace w))).
Proof.
  intros Hself Hm table Hlower.
  assert (DSSMLTaskSettings.get_algorithm_settings lower self algorithm_name w =
          getitem (VRef lm)
            (VStr (lower (default algorithm_name (table !! algorithm_name)))) w)
    as Hget.
  { unfold DSSMLTaskSettings.get_algorithm_settings. rewrite Hself.
    rewrite (bind_Ret _ _ _ _ _ (getitem_field _ _ _ _ Hm)).
    fold table. by destruct (table !! algorithm_name). }
  split; [|split].
  - intros remapped E. rewrite Hget. rewrite E. simpl.
    by rewrite (Hlower _ _ E).
  - intros E. rewrite Hget. by rewrite E.
  - intros le entry enabled Hf E.
    unfold DSSMLTaskSettings.set_algorithm_enabled.
    erewrite bind_Ret; [by apply setitem_dict|].
    rewrite Hget. destruct (table !! algorithm_name) as [r|] eqn:Er.
    + simpl in *. rewrite (Hlower _ _ Er).
      by apply getitem_field.
    + by apply getitem_field.
Qed.

Lemma get_algorithm_settings_remap_witness :
  DSSMLTaskSettings.get_algorithm_settings Sample.lower Sample.metrics_settings
    "XGBOOST_REGRESSION" Sample.modeling_world =
    (Ret (VRef 3%positive), Sample.modeling_world) ∧
  DSSMLTaskSettings.get_algorithm_settings Sample.lower Sample.metrics_settings
    "RIDGE_REGRESSION" Sample.modeling_world =
    (Ret (VRef 4%positive), Sample.modeling_world) ∧
  DSSMLTaskSettings.set_algorithm_enabled Sample.lower Sample.metrics_settings
    "XGBOOST_REGRESSION" (VBool true) Sample.modeling_world =
    (Ret (), World (<[3%positive := ODict (<["enabled" := VBool true]>
                                             {["enabled" := VBool false]})]>
                      (heap Sample.modeling_world)) []).
Proof.
  assert (field (heap Sample.modeling_world) 1%positive "modeling" (VRef 2%positive))
    as Hm by (eexists; split; reflexivity).
  assert (map_Forall (λ _ remapped, Sample.lower remapped = remapped)
            (DSSMLTaskSettings.algorithm_remap
               (DSSMLTaskSettings.class Sample.metrics_settings))) as Hlower.
  { apply (bool_decide_unpack _). vm_compute. exact I. }
  split; [|split].
  - destruct (get_algorithm_settings_remap Sample.lower Sample.metrics_settings
                1%positive 2%positive Sample.modeling_world "XGBOOST_REGRESSION"
                eq_refl Hm Hlower) as (H & _ & _).
    rewrite (H "xgboost" eq_refl). reflexivity.
  - destruct (get_algorithm_settings_remap Sample.lower Sample.metrics_settings
                1%positive 2%positive Sample.modeling_world "RIDGE_REGRESSION"
                eq_refl Hm Hlower) as (_ & H & _).
    rewrite (H eq_refl). reflexivity.
  - destruct (get_algorithm_settings_remap Sample.lower Sample.metrics_settings
                1%positive 2%positive Sample.modeling_world "XGBOOST_REGRESSION"
                eq_refl Hm Hlower) as (_ & _ & H).
    apply (H 3%positive {["enabled" := VBool false]} (VBool true)).
    + eexists; split; reflexivity.
    + reflexivity.
Defined.

(** ** PredictionSplitParamsHandler.set_split_explicit *)

(** Two heaps built by updates are equal when they agree at every address. *)
Ltac heap_eq :=
  apply map_eq; intros ?l;
  repeat (rewrite lookup_insert; case_decide; try done; try congruence).

Lemma alloc_run w o :
  alloc o w = (Ret (VRef (fresh (dom (heap w)))),
               World (<[fresh (dom (heap w)) := o]> (heap w)) (trace w)).
Proof. done. Qed.

Lemma fresh_lookup (h : gmap loc obj) : h !! fresh (dom h) = None.
Proof. apply not_elem_of_dom, is_fresh. Qed.

Lemma fresh_ne (h : gmap loc obj) l o : h !! l = Some o → l ≠ fresh (dom h).
Proof. intros E ->. by rewrite fresh_lookup in E. Qed.

Lemma store_run w l d k a :
  heap w !! l = Some (ODict d) →
  PredictionSplitParamsHandler.store (VRef l) k a w =
  (Ret (), World (<[l := ODict (with_argument k a d)]> (heap w)) (trace w)).
Proof.
  intros E. destruct a as [a|]; simpl.
  - by apply setitem_dict.
  - unfold mret, M_ret, ret. rewrite insert_id by done. by destruct w.
Qed.

Lemma split_stores w l1 l2 d1 d2 ts tes tf tef :
  l1 ≠ l2 → heap w !! l1 = Some (ODict d1) → heap w !! l2 = Some (ODict d2) →
  (PredictionSplitParamsHandler.store (VRef l1) "selection" ts;;
   PredictionSplitParamsHandler.store (VRef l2) "selection" tes;;
   PredictionSplitParamsHandler.store (VRef l1) "filter" tf;;
   PredictionSplitParamsHandler.store (VRef l2) "filter" tef) w =
  (Ret (), World (<[l2 := ODict (split_record d2 tes tef)]>
                 (<[l1 := ODict (split_record d1 ts tf)]> (heap w))) (trace w)).
Proof.
  intros Hne E1 E2.
  rewrite (bind_Ret _ _ _ _ _ (store_run _ _ _ _ _ E1)).
  erewrite bind_Ret; cycle 1.
  { apply store_run. simpl. rewrite lookup_insert_ne by done. exact E2. }
  erewrite bind_Ret; cycle 1.
  { apply store_run. simpl. rewrite lookup_insert_ne by done.
    apply lookup_insert_eq. }
  erewrite store_run; cycle 1.
  { simpl. rewrite lookup_insert_ne by done. apply lookup_insert_eq. }
  simpl. f_equal. f_equal. unfold split_record. heap_eq.
Qed.

Section SetSplitExplicit.

Import PredictionSplitParamsHandler.

Variables (settings : value) (ls lsp : loc) (sp : gmap string value) (w : world).
Variables (train_selection test_selection train_filter test_filter : option argument).
Hypothesis Hsettings : settings = VRef ls.
Hypothesis Hpath : field (heap w) ls "splitParams" (VRef lsp).
Hypothesis Hsp : heap w !! lsp = Some (ODict sp).

#[local] Abbreviation run := (λ dataset_name test_dataset_name,
  set_split_explicit settings train_selection test_selection
    dataset_name test_dataset_name train_filter test_filter w).

Lemma set_split_explicit_missing_name test_dataset_name :
  run None test_dataset_name =
  (Raise (Exception "For explicit splitting a dataset_name is mandatory"), w).
Proof using Hsettings Hpath.
  unfold set_split_explicit. rewrite Hsettings.
  by rewrite (bind_Ret _ _ _ _ _ (getitem_field _ _ _ _ Hpath)).
Qed.

Lemma set_split_explicit_single name test_dataset_name :
  test_dataset_name = None ∨ test_dataset_name = Some name →
  ∃ l1 l2, (l1 ∉ dom (heap w)) ∧ (l2 ∉ dom (heap w)) ∧ l1 ≠ l2 ∧
    run (Some name) test_dataset_name =
    (Ret (), World
       (<[l2 := ODict (split_record ∅ test_selection test_filter)]> (
        <[l1 := ODict (split_record ∅ train_selection train_filter)]> (
        <[lsp := ODict (
            <["efsdTest" := VRef l2]> (
            <["efsdTrain" := VRef l1]> (
            <["efsdDatasetSmartName" := VStr name]> (
            <["ttPolicy" := VStr "EXPLICIT_FILTERING_SINGLE_DATASET"]> sp))))]>
          (heap w)))) (trace w)).
Proof using Hsettings Hpath Hsp.
  intros Hsame.
  set (sp1 := <["ttPolicy" := VStr "EXPLICIT_FILTERING_SINGLE_DATASET"]> sp).
  set (h1 := <[lsp := ODict sp1]> (heap w)).
  set (l1 := fresh (dom h1)).
  set (h2 := <[l1 := ODict ∅]> h1).
  set (l2 := fresh (dom h2)).
  assert (h1 !! l1 = None) as F1 by apply fresh_lookup.
  assert (h2 !! l2 = None) as F2 by apply fresh_lookup.
  assert (l1 ≠ lsp) as N1.
  { intros E. rewrite E in F1. unfold h1 in F1. by rewrite lookup_insert_eq in F1. }
  assert (l2 ≠ l1) as N2.
  { intros E. rewrite E in F2. unfold h2 in F2. by rewrite lookup_insert_eq in F2. }
  assert (l2 ≠ lsp) as N3.
  { intros E. rewrite E in F2. unfold h2, h1 in F2.
    by rewrite lookup_insert_ne, lookup_insert_eq in F2. }
  exists l1, l2. split; [|split; [|split]].
  - apply not_elem_of_dom. unfold h1 in F1. by rewrite lookup_insert_ne in F1.
  - apply not_elem_of_dom. unfold h2, h1 in F2.
    by rewrite !lookup_insert_ne in F2.
  - done.
  - unfold set_split_explicit. rewrite Hsettings.
    rewrite (bind_Ret _ _ _ _ _ (getitem_field _ _ _ _ Hpath)).
    rewrite bool_decide_eq_true_2 by done.
    erewrite bind_Ret; cycle 1.
    { rewrite (bind_Ret _ _ _ _ _ (setitem_dict _ _ _ _ _ Hsp)).
      rewrite (bind_Ret _ _ _ _ _ (alloc_run _ _)).
      rewrite (bind_Ret _ _ _ _ _ (alloc_run _ _)). simpl.
      fold sp1 h1 l1 h2 l2.
      erewrite bind_Ret; cycle 1.
      { apply setitem_dict. simpl. unfold h2, h1.
        rewrite !lookup_insert_ne by done. apply lookup_insert_eq. }
      erewrite bind_Ret; cycle 1.
      { apply setitem_dict. simpl. apply lookup_insert_eq. }
      erewrite bind_Ret; cycle 1.
      { apply setitem_dict. simpl. apply lookup_insert_eq. }
      reflexivity. }
    simpl. erewrite split_stores; cycle 1.
    + exact (not_eq_sym N2).
    + simpl. unfold h2, h1. rewrite !lookup_insert_ne by done.
      apply lookup_insert_eq.
    + simpl. unfold h2, h1. rewrite !lookup_insert_ne by done.
      apply lookup_insert_eq.
    + simpl. f_equal. f_equal. unfold h2, h1, sp1. heap_eq.
Qed.

Lemma set_split_explicit_two name test :
  test ≠ name →
  ∃ l1 l2, (l1 ∉ dom (heap w)) ∧ (l2 ∉ dom (heap w)) ∧ l1 ≠ l2 ∧
    run (Some name) (Some test) =
    (Ret (), World
       (<[l2 := ODict (split_record {["datasetSmartName" := VStr test]}
                         test_selection test_filter)]> (
        <[l1 := ODict (split_record {["datasetSmartName" := VStr name]}
                         train_selection train_filter)]> (
        <[lsp := ODict (
            <["eftdTest" := VRef l2]> (
            <["eftdTrain" := VRef l1]> (
            <["ttPolicy" := VStr "EXPLICIT_FILTERING_TWO_DATASETS"]> sp)))]>
          (heap w)))) (trace w)).
Proof using Hsettings Hpath Hsp.
  intros Hdiff.
  set (sp1 := <["ttPolicy" := VStr "EXPLICIT_FILTERING_TWO_DATASETS"]> sp).
  set (h1 := <[lsp := ODict sp1]> (heap w)).
  set (l1 := fresh (dom h1)).
  set (h2 := <[l1 := ODict {["datasetSmartName" := VStr name]}]> h1).
  set (l2 := fresh (dom h2)).
  assert (h1 !! l1 = None) as F1 by apply fresh_lookup.
  assert (h2 !! l2 = None) as F2 by apply fresh_lookup.
  assert (l1 ≠ lsp) as N1.
  { intros E. rewrite E in F1. unfold h1 in F1. by rewrite lookup_insert_eq in F1. }
  assert (l2 ≠ l1) as N2.
  { intros E. rewrite E in F2. unfold h2 in F2. by rewrite lookup_insert_eq in F2. }
  assert (l2 ≠ lsp) as N3.
  { intros E. rewrite E in F2. unfold h2, h1 in F2.
    by rewrite lookup_insert_ne, lookup_insert_eq in F2. }
  exists l1, l2. split; [|split; [|split]].
  - apply not_elem_of_dom. unfold h1 in F1. by rewrite lookup_insert_ne in F1.
  - apply not_elem_of_dom. unfold h2, h1 in F2.
    by rewrite !lookup_insert_ne in F2.
  - done.
  - unfold set_split_explicit. rewrite Hsettings.
    rewrite (bind_Ret _ _ _ _ _ (getitem_field _ _ _ _ Hpath)).
    rewrite bool_decide_eq_false_2 by (intros [[=]|[=]]; done).
    erewrite bind_Ret; cycle 1.
    { rewrite (bind_Ret _ _ _ _ _ (setitem_dict _ _ _ _ _ Hsp)).
      rewrite (bind_Ret _ _ _ _ _ (alloc_run _ _)).
      rewrite (bind_Ret _ _ _ _ _ (alloc_run _ _)). simpl.
      fold sp1 h1 l1 h2 l2.
      erewrite bind_Ret; cycle 1.
      { apply setitem_dict. simpl. unfold h2, h1.
        rewrite !lookup_insert_ne by done. apply lookup_insert_eq. }
      erewrite bind_Ret; cycle 1.
      { apply setitem_dict. simpl. apply lookup_insert_eq. }
      reflexivity. }
    simpl. erewrite split_stores; cycle 1.
    + exact (not_eq_sym N2).
    + simpl. unfold h2, h1. rewrite !lookup_insert_ne by done.
      apply lookup_insert_eq.
    + simpl. unfold h2, h1. rewrite !lookup_insert_ne by done.
      apply lookup_insert_eq.
    + simpl. f_equal. f_equal. unfold h2, h1, sp1. heap_eq.
Qed.

End SetSplitExplicit.

(** C1, as amended.  On settings that hold a [splitParams] dictionary:
    without a [dataset_name] the call raises the validation error and writes
    nothing; when [test_dataset_name] is [None] or equals [dataset_name] it
    sets [ttPolicy] to ['EXPLICIT_FILTERING_SINGLE_DATASET'] and writes
    [efsdDatasetSmartName] and two new records [efsdTrain], [efsdTest], which
    carry the given selection and filter when these are not [None];
    otherwise it sets [ttPolicy] to ['EXPLICIT_FILTERING_TWO_DATASETS'] and
    writes two new records [eftdTrain], [eftdTest], each with its own
    [datasetSmartName].  The keys of the chosen shape are present afterwards;
    the keys of the other shape are left as they were, so only one shape is
    present when the other one was absent before the call. *)
Theorem set_split_explicit_shapes (settings : value) (ls lsp : loc)
    (sp : gmap string value) (w : world)
    (train_selection test_selection train_filter test_filter :
       option PredictionSplitParamsHandler.argument) :
  settings = VRef ls →
  field (heap w) ls "splitParams" (VRef lsp) →
  heap w !! lsp = Some (ODict sp) →
  let run dataset_name test_dataset_name :=
    PredictionSplitParamsHandler.set_split_explicit settings
      train_selection test_selection dataset_name test_dataset_name
      train_filter test_filter w in
  let result l1 train l2 test sp' :=
    (Ret (), World (<[l2 := ODict (split_record test test_selection test_filter)]> (
                    <[l1 := ODict (split_record train train_selection train_filter)]> (
                    <[lsp := ODict sp']> (heap w)))) (trace w)) in
  (∀ test_dataset_name,
     run None test_dataset_name =
     (Raise (Exception "For explicit splitting a dataset_name is mandatory"), w)) ∧
  (∀ name test_dataset_name,
     test_dataset_name = None ∨ test_dataset_name = Some name →
     ∃ l1 l2 sp', (l1 ∉ dom (heap w)) ∧ (l2 ∉ dom (heap w)) ∧ l1 ≠ l2 ∧
       sp' = <["efsdTest" := VRef l2]> (
             <["efsdTrain" := VRef l1]> (
             <["efsdDatasetSmartName" := VStr name]> (
             <["ttPolicy" := VStr "EXPLICIT_FILTERING_SINGLE_DATASET"]> sp))) ∧
       run (Some name) test_dataset_name = result l1 ∅ l2 ∅ sp' ∧
       single_dataset_shape sp' ∧
       (two_datasets_shape sp' ↔ two_datasets_shape sp)) ∧
  (∀ name test,
     test ≠ name →
     ∃ l1 l2 sp', (l1 ∉ dom (heap w)) ∧ (l2 ∉ dom (heap w)) ∧ l1 ≠ l2 ∧
       sp' = <["eftdTest" := VRef l2]> (
             <["eftdTrain" := VRef l1]> (
             <["ttPolicy" := VStr "EXPLICIT_FILTERING_TWO_DATASETS"]> sp)) ∧
       run (Some name) (Some test) =
         result l1 {["datasetSmartName" := VStr name]}
                l2 {["datasetSmartName" := VStr test]} sp' ∧
       two_datasets_shape sp' ∧
       (single_dataset_shape sp' ↔ single_dataset_shape sp)).
Proof.
  intros Hsettings Hpath Hsp run result. split; [|split].
  - intros t. by eapply set_split_explicit_missing_name.
  - intros name t Ht.
    destruct (set_split_explicit_single settings ls lsp sp w train_selection
                test_selection train_filter test_filter Hsettings Hpath Hsp name t Ht)
      as (l1 & l2 & F1 & F2 & Hne & Hrun).
    exists l1, l2. eexists. do 4 (split; [done|]). split; [exact Hrun|].
    unfold single_dataset_shape, two_datasets_shape.
    rewrite !lookup_insert. repeat case_decide; try done; naive_solver.
  - intros name test Hdiff.
    destruct (set_split_explicit_two settings ls lsp sp w train_selection
                test_selection train_filter test_filter Hsettings Hpath Hsp name test
                Hdiff)
      as (l1 & l2 & F1 & F2 & Hne & Hrun).
    exists l1, l2. eexists. do 4 (split; [done|]). split; [exact Hrun|].
    unfold single_dataset_shape, two_datasets_shape.
    rewrite !lookup_insert. repeat case_decide; try done; naive_solver.
Qed.

Lemma set_split_explicit_shapes_witness :
  ∃ l1 l2 sp',
    PredictionSplitParamsHandler.set_split_explicit (VRef 1%positive)
      None None (Some "train") None None None Sample.split_world =
    (Ret (), World (<[l2 := ODict ∅]> (<[l1 := ODict ∅]> (
                    <[2%positive := ODict sp']> (heap Sample.split_world)))) []) ∧
    single_dataset_shape sp' ∧ ¬ two_datasets_shape sp'.
Proof.
  destruct (set_split_explicit_shapes (VRef 1%positive) 1%positive 2%positive ∅
              Sample.split_world None None None None) as (_ & H & _).
  - reflexivity.
  - eexists; split; reflexivity.
  - reflexivity.
  - destruct (H "train" None) as (l1 & l2 & sp' & _ & _ & _ & _ & Hrun & Hs & Ht).
    + by left.
    + exists l1, l2, sp'. split; [exact Hrun|]. split; [exact Hs|].
      intros Hboth. apply Ht in Hboth. destruct Hboth as [[v Hv] _].
      discriminate Hv.
Defined.

(** C1 as stated fails in its last clause: the call does not remove the keys
    of the other shape.  After a two-dataset split followed by a
    single-dataset split, [splitParams] holds both shapes. *)
Lemma set_split_explicit_both_shapes :
  let r := (PredictionSplitParamsHandler.set_split_explicit (VRef 1%positive)
              None None (Some "train") (Some "test") None None;;
            PredictionSplitParamsHandler.set_split_explicit (VRef 1%positive)
              None None (Some "train") None None None) Sample.split_world in
  r.1 = Ret () ∧
  ∃ sp', heap r.2 !! 2%positive = Some (ODict sp') ∧
         sp' !! "ttPolicy" = Some (VStr "EXPLICIT_FILTERING_SINGLE_DATASET") ∧
         single_dataset_shape sp' ∧ two_datasets_shape sp'.
Proof.
  split; [reflexivity|]. eexists. split; [reflexivity|].
  split; [reflexivity|]. by repeat split; eexists.
Qed.

(** ** DSSTrainedPredictionModelDetails.get_roc_curve_data *)

(** C3, on the code: when the details have no ROC data ([perf] or
    [perf.rocVizData] is missing) the method does not raise; it returns the
    default of its [get], a new empty dictionary.  It raises only for a
    [rocVizData] that is present and [None]. *)
Theorem get_roc_curve_data_absent_returns_empty :
  (∃ l w', DSSTrainedModelDetails.get_roc_curve_data Sample.prediction_details
             Sample.no_perf_world = (Ret (VRef l), w') ∧
           heap Sample.no_perf_world !! l = None ∧
           heap w' !! l = Some (ODict ∅)) ∧
  (∃ l w', DSSTrainedModelDetails.get_roc_curve_data Sample.prediction_details
             Sample.no_roc_world = (Ret (VRef l), w') ∧
           heap Sample.no_roc_world !! l = None ∧
           heap w' !! l = Some (ODict ∅)) ∧
  (DSSTrainedModelDetails.get_roc_curve_data Sample.prediction_details
     Sample.null_roc_world).1 =
  Raise (ValueError "This model does not have ROC visualization data").
Proof.
  split; [|split].
  - do 2 eexists. split; [reflexivity|]. split; reflexivity.
  - do 2 eexists. split; [reflexivity|]. split; reflexivity.
  - reflexivity.
Qed.

(** ** DSSMLTaskSettings.foreach_feature *)

(** C4, on the code: features that are skipped are not copied into the new
    mapping, which then replaces [per_feature].  With the type filter
    ['NUMERIC'] and a transform that changes nothing, the target [y] and the
    category [a] are gone from the settings; with no filter the target is
    gone. *)
Theorem foreach_feature_drops_skipped :
  let self := Sample.metrics_settings in
  let after only_of_type :=
    (DSSMLTaskSettings.foreach_feature 10 self Sample.keep only_of_type;;
     DSSMLTaskSettings.per_feature self) Sample.features_world in
  let numeric := JObject (<["role" := JStr "INPUT"]> {["type" := JStr "NUMERIC"]}) in
  let category := JObject (<["role" := JStr "INPUT"]> {["type" := JStr "CATEGORY"]}) in
  (∃ v w', after (Some "NUMERIC") = (Ret v, w') ∧
           read 10 (heap w') v = Some (JObject {["b" := numeric]})) ∧
  (∃ v w', after None = (Ret v, w') ∧
           read 10 (heap w') v =
             Some (JObject (<["a" := category]> {["b" := numeric]}))).
Proof.
  split.
  - do 2 eexists. split; [reflexivity|]. vm_compute. reflexivity.
  - do 2 eexists. split; [reflexivity|]. vm_compute. reflexivity.
Qed.

(** ** Documents in the heap: [read] and [load] *)

Lemma map_sequence_Some {A} (mo : gmap string (option A)) (m : gmap string A) :
  map_sequence mo = Some m ↔ mo = Some <$> m.
Proof.
  unfold map_sequence. split.
  - case_decide as Hall; [|done]. intros [= <-]. apply map_eq. intros k.
    rewrite lookup_fmap, lookup_omap. destruct (mo !! k) as [o|] eqn:E; [|done].
    destruct (Hall k o E) as [a ->]. done.
  - intros ->. rewrite decide_True.
    + f_equal. apply map_eq. intros k. rewrite lookup_omap, lookup_fmap.
      by destruct (m !! k).
    + intros k o. rewrite lookup_fmap. destruct (m !! k); naive_solver.
Qed.

Lemma map_sequence_fmap_Some {A B} (f : A → option B) (d : gmap string A)
    (m : gmap string B) :
  map_sequence (f <$> d) = Some m ↔
  ∀ k, option_Forall2 (λ a b, f a = Some b) (d !! k) (m !! k).
Proof.
  rewrite map_sequence_Some. split.
  - intros E k. apply (f_equal (.!! k)) in E. rewrite !lookup_fmap in E.
    destruct (d !! k), (m !! k); simplify_eq/=; by constructor.
  - intros H. apply map_eq. intros k. rewrite !lookup_fmap.
    destruct (H k) as [a b Hab|]; simpl; [by rewrite Hab|done].
Qed.

Lemma read_atom n h v :
  (∀ l, v ≠ VRef l) →
  read n h v = match v with
               | VNone => Some JNull
               | VBool b => Some (JBool b)
               | VInt z => Some (JInt z)
               | VStr s => Some (JStr s)
               | VRef _ => None
               end.
Proof. intros Hv. destruct v, n; try done. by destruct (Hv l). Qed.

Lemma read_ref n h l :
  read (S n) h (VRef l) =
  match h !! l with
  | Some (ODict d) => JObject <$> map_sequence (read n h <$> d)
  | Some (OList xs) => JList <$> mapM (read n h) xs
  | None => None
  end.
Proof. done. Qed.

Lemma read_mono (n n' : nat) h h' v t :
  (n ≤ n')%nat → h ⊆ h' → read n h v = Some t → read n' h' v = Some t.
Proof.
  intros Hn Hh. revert n' Hn v t.
  induction n as [|n IH]; intros n' Hn v t.
  - destruct v, n'; try done.
  - destruct n' as [|n']; [lia|]. destruct v as [| | | |l]; try done.
    rewrite !read_ref. destruct (h !! l) as [o|] eqn:E; [|done].
    rewrite (lookup_weaken _ _ _ _ E Hh). destruct o as [d|xs].
    + destruct (map_sequence (read n h <$> d)) as [m|] eqn:Em; [|done].
      intros [= <-]. pose proof (proj1 (map_sequence_fmap_Some _ _ _) Em) as Hk.
      erewrite (proj2 (map_sequence_fmap_Some _ _ m)); [done|].
      intros k. destruct (Hk k); constructor. apply IH; [lia|done].
    + destruct (mapM (read n h) xs) as [ts|] eqn:Em; [|done].
      intros [= <-]. apply mapM_Some in Em.
      erewrite (proj2 (mapM_Some _ _ ts)); [done|].
      revert Em. apply Forall2_impl. intros ???. apply IH; [lia|done].
Qed.

Lemma jdepth_list_elem l x : x ∈ l → (jdepth x < jdepth (JList l))%nat.
Proof.
  simpl. induction 1 as [|?? ? ? IH]; simpl; lia.
Qed.

Lemma jdepth_object_elem m k x :
  m !! k = Some x → (jdepth x < jdepth (JObject m))%nat.
Proof.
  simpl. revert k x. induction m as [|i y m Hi Hfirst IH] using map_first_key_ind.
  - intros k x. by rewrite lookup_empty.
  - intros k x. rewrite map_fold_insert_first_key by done.
    rewrite lookup_insert. case_decide as Hk.
    + intros [= ->]. lia.
    + intros E. specialize (IH k x E). lia.
Qed.

Lemma json_induction (P : json → Prop) :
  P JNull → (∀ b, P (JBool b)) → (∀ z, P (JInt z)) → (∀ s, P (JStr s)) →
  (∀ l, Forall P l → P (JList l)) →
  (∀ m, map_Forall (λ _, P) m → P (JObject m)) →
  ∀ t, P t.
Proof.
  intros HN HB HI HS HL HO t.
  remember (jdepth t) as n eqn:Hn. revert t Hn.
  induction (lt_wf n) as [n _ IH]. intros t ->.
  assert (∀ x, (jdepth x < jdepth t)%nat → P x) as IHx.
  { intros x Hx. exact (IH _ Hx x eq_refl). }
  destruct t as [| | | |l|m]; auto.
  - apply HL. apply list.Forall_forall. intros x Hx. apply IHx.
    by apply jdepth_list_elem.
  - apply HO. intros k x Hk. apply IHx. by eapply jdepth_object_elem.
Qed.

Lemma load_list l :
  load (JList l) = (xs ← map_m load l; alloc (OList xs)).
Proof.
  simpl. f_equal. induction l as [|x l IH]; simpl; [done|]. by rewrite IH.
Qed.

Lemma load_object m :
  load (JObject m) =
  (d ← map_fold (λ k x (acc : M (gmap string value)),
                  d ← acc; v ← load x; mret (<[k := v]> d)) (mret ∅) m;
   alloc (ODict d)).
Proof. done. Qed.

Lemma alloc_subseteq (h : gmap loc obj) o : h ⊆ <[fresh (dom h) := o]> h.
Proof. apply insert_subseteq, fresh_lookup. Qed.

Lemma loads_list l :
  Forall loads l →
  ∀ w, ∃ vs w',
    map_m load l w = (Ret vs, w') ∧ heap w ⊆ heap w' ∧ trace w' = trace w ∧
    Forall2 (λ v t, read (jdepth t) (heap w') v = Some t) vs l.
Proof.
  induction 1 as [|x l Hx _ IH]; intros w.
  - exists [], w. by repeat split.
  - destruct (Hx w) as (v & w1 & E1 & S1 & T1 & R1).
    destruct (IH w1) as (vs & w2 & E2 & S2 & T2 & R2).
    exists (v :: vs), w2. split; [|split; [|split]].
    + simpl. rewrite (bind_Ret _ _ _ _ _ E1).
      by rewrite (bind_Ret _ _ _ _ _ E2).
    + by etrans.
    + congruence.
    + constructor; [|done]. by eapply read_mono.
Qed.

Lemma loads_object_fold m :
  map_Forall (λ _, loads) m →
  ∀ w, ∃ d w',
    map_fold (λ k x (acc : M (gmap string value)),
               d ← acc; v ← load x; mret (<[k := v]> d)) (mret ∅) m w =
      (Ret d, w') ∧
    heap w ⊆ heap w' ∧ trace w' = trace w ∧
    ∀ k, option_Forall2 (λ v t, read (jdepth t) (heap w') v = Some t)
           (d !! k) (m !! k).
Proof.
  induction m as [|i x m Hi Hfirst IH] using map_first_key_ind; intros Hall w.
  - exists ∅, w. rewrite map_fold_empty. repeat split; [done|].
    intros k. rewrite !lookup_empty. constructor.
  - rewrite map_fold_insert_first_key by done.
    destruct (IH (map_Forall_insert_1_2 _ _ _ _ Hi Hall) w)
      as (d & w1 & E1 & S1 & T1 & R1).
    destruct (map_Forall_insert_1_1 _ _ _ _ Hall w1) as (v & w2 & E2 & S2 & T2 & R2).
    exists (<[i := v]> d), w2. split; [|split; [|split]].
    + rewrite (bind_Ret _ _ _ _ _ E1). by rewrite (bind_Ret _ _ _ _ _ E2).
    + by etrans.
    + congruence.
    + intros k. rewrite !lookup_insert. case_decide; [by constructor|].
      destruct (R1 k); constructor. by eapply read_mono.
Qed.

Lemma read_list_depth h vs l :
  Forall2 (λ v t, read (jdepth t) h v = Some t) vs l →
  Forall2 (λ v t, read (foldr (λ x acc, jdepth x `max` acc) 0 l) h v = Some t) vs l.
Proof.
  induction 1 as [|v t vs l Hv _ IH]; simpl; constructor.
  - apply (read_mono (jdepth t) _ h h); [lia|done|exact Hv].
  - revert IH. apply Forall2_impl. intros v' t' Hv'.
    apply (read_mono (foldr (λ x acc, jdepth x `max` acc) 0 l) _ h h);
      [lia|done|exact Hv'].
Qed.

Lemma load_loads t : loads t.
Proof.
  induction t as [| | | |l IH|m IH] using json_induction;
    try (intros w; eexists _, w; by repeat split).
  - intros w. destruct (loads_list l IH w) as (vs & w1 & E1 & S1 & T1 & R1).
    eexists _, _. rewrite load_list, (bind_Ret _ _ _ _ _ E1), alloc_run.
    split; [done|]. simpl. split; [|split; [done|]].
    + etrans; [exact S1|]. apply alloc_subseteq.
    + rewrite lookup_insert_eq. simpl.
      erewrite (proj2 (mapM_Some _ _ l)); [done|].
      apply read_list_depth. revert R1. apply Forall2_impl. intros v' t' Hv'.
      apply (read_mono (jdepth t') _ (heap w1)); [done|apply alloc_subseteq|done].
  - intros w. destruct (loads_object_fold m IH w) as (d & w1 & E1 & S1 & T1 & R1).
    eexists _, _. rewrite load_object, (bind_Ret _ _ _ _ _ E1), alloc_run.
    split; [done|]. simpl. split; [|split; [done|]].
    + etrans; [exact S1|]. apply alloc_subseteq.
    + rewrite lookup_insert_eq. simpl.
      erewrite (proj2 (map_sequence_fmap_Some _ _ m)); [done|].
      intros k. pose proof (R1 k) as Rk.
      destruct (m !! k) as [t|] eqn:Em; inversion Rk as [v t' Hv|]; subst;
        constructor.
      apply (read_mono (jdepth t) _ (heap w1)); [|apply alloc_subseteq|done].
      pose proof (jdepth_object_elem m k t Em) as Hd. simpl in Hd. lia.
Qed.

Lemma map_fold_max_le {A} (f : A → nat) (m : gmap string A) (b : nat) :
  (∀ k x, m !! k = Some x → (f x ≤ b)%nat) →
  (map_fold (λ _ x acc, f x `max` acc) 0 m ≤ b)%nat.
Proof.
  induction m as [|i x m Hi Hfirst IH] using map_first_key_ind; intros Hall.
  - rewrite map_fold_empty. lia.
  - rewrite map_fold_insert_first_key by done.
    pose proof (Hall i x (lookup_insert_eq _ _ _)).
    assert (map_fold (λ _ x acc, f x `max` acc) 0 m ≤ b)%nat; [|lia].
    apply IH. intros k y Hk. apply (Hall k y).
    rewrite lookup_insert_ne; [done|]. intros ->. congruence.
Qed.

Lemma read_depth n h v t : read n h v = Some t → (jdepth t ≤ n)%nat.
Proof.
  revert v t. induction n as [|n IH]; intros v t.
  - destruct v; intros [= <-]; simpl; lia.
  - destruct v as [| | | |l]; try (intros [= <-]; simpl; lia).
    rewrite read_ref. destruct (h !! l) as [[d|xs]|]; [| |done].
    + destruct (map_sequence (read n h <$> d)) as [m|] eqn:Em; [|done].
      intros [= <-]. simpl. apply le_n_S, map_fold_max_le. intros k x Hk.
      pose proof (proj1 (map_sequence_fmap_Some _ _ _) Em k) as Rk.
      rewrite Hk in Rk. inversion Rk. by eapply IH.
    + destruct (mapM (read n h) xs) as [ts|] eqn:Em; [|done].
      intros [= <-]. simpl. apply le_n_S. apply mapM_Some in Em.
      induction Em as [|x t xs ts Hx _ IHxs]; simpl; [lia|].
      apply IH in Hx. lia.
Qed.

Lemma read_object n h v m :
  read n h v = Some (JObject m) →
  ∃ l d n', v = VRef l ∧ n = S n' ∧ h !! l = Some (ODict d) ∧
    ∀ k, option_Forall2 (λ x t, read n' h x = Some t) (d !! k) (m !! k).
Proof.
  destruct v as [| | | |l]; try by destruct n.
  destruct n as [|n]; [done|]. rewrite read_ref.
  destruct (h !! l) as [[d|xs]|] eqn:E; [| |done].
  - destruct (map_sequence (read n h <$> d)) as [m'|] eqn:Em; [|done].
    intros [= <-]. exists l, d, n. do 3 (split; [done|]).
    by apply map_sequence_fmap_Some.
  - by destruct (mapM (read n h) xs).
Qed.

Lemma read_list n h v ts :
  read n h v = Some (JList ts) →
  ∃ l xs n', v = VRef l ∧ n = S n' ∧ h !! l = Some (OList xs) ∧
    Forall2 (λ x t, read n' h x = Some t) xs ts.
Proof.
  destruct v as [| | | |l]; try by destruct n.
  destruct n as [|n]; [done|]. rewrite read_ref.
  destruct (h !! l) as [[d|xs]|] eqn:E; [| |done].
  - by destruct (map_sequence (read n h <$> d)).
  - destruct (mapM (read n h) xs) as [ts'|] eqn:Em; [|done].
    intros [= <-]. exists l, xs, n. do 3 (split; [done|]). by apply mapM_Some.
Qed.

Lemma read_bool n h v b : read n h v = Some (JBool b) → v = VBool b.
Proof.
  destruct v as [| | | |l]; try (destruct n; by intros [= ->]).
  destruct n as [|n]; [done|]. rewrite read_ref.
  destruct (h !! l) as [[d|xs]|]; [| |done].
  - by destruct (map_sequence (read n h <$> d)).
  - by destruct (mapM (read n h) xs).
Qed.

Lemma read_str n h v s : read n h v = Some (JStr s) → v = VStr s.
Proof.
  destruct v as [| | | |l]; try (destruct n; by intros [= ->]).
  destruct n as [|n]; [done|]. rewrite read_ref.
  destruct (h !! l) as [[d|xs]|]; [| |done].
  - by destruct (map_sequence (read n h <$> d)).
  - by destruct (mapM (read n h) xs).
Qed.

(** ** DSSMLTask: the transport and the two polling waits *)

Lemma requests_fetch w method url body :
  requests (World (heap w) (trace w ++ [EFetch method url body])) = S (requests w).
Proof.
  unfold requests. simpl. rewrite list.filter_app, length_app. simpl. lia.
Qed.

Lemma requests_sleep h tr ms :
  requests (World h (tr ++ [ESleep ms])) = requests (World h tr).
Proof.
  unfold requests. simpl. rewrite list.filter_app, length_app. simpl. lia.
Qed.

Section Transport.

Variable recursion_limit : nat.
Variable server : nat → string → string → option json → response.

(** A request without a body that the service answers with the document [t]:
    the answer is decoded into new objects, and the request is on the trace. *)
Lemma perform_json_answer w method url t :
  server (requests w) method url None = Json t →
  ∃ v w', perform_json recursion_limit server method url None w = (Ret v, w') ∧
    heap w ⊆ heap w' ∧
    trace w' = trace w ++ [EFetch method url None] ∧
    read (jdepth t) (heap w') v = Some t.
Proof.
  intros Hs. unfold perform_json. rewrite Hs.
  destruct (load_loads t (World (heap w) (trace w ++ [EFetch method url None])))
    as (v & w' & E & S & T & R).
  exists v, w'. by rewrite E.
Qed.

End Transport.

Section Polling.

Variable recursion_limit : nat.
Variable server : nat → string → string → option json → response.
Variable self : DSSMLTaskObject.t.
Variables (key : string) (ms : Z) (loop : nat → M unit).

#[local] Abbreviation url := (DSSMLTaskObject.lab self +:+ "/status").

Hypothesis loop_0 : ∀ w, loop 0 w = (OutOfFuel, w).
Hypothesis loop_S : ∀ fuel,
  loop (S fuel) =
  (status ← DSSMLTask.get_status recursion_limit server self;
   flag ← dict_get status key "???";
   if eq_bool flag false then mret ()
   else sleep ms;; loop fuel).

Lemma poll_once w b fuel :
  (∃ t, server (requests w) "GET" url None = Json t ∧ reports t key b) →
  ∃ w1, heap w ⊆ heap w1 ∧ trace w1 = trace w ++ [EFetch "GET" url None] ∧
    loop (S fuel) w =
    if b then loop fuel (World (heap w1) (trace w1 ++ [ESleep ms]))
    else (Ret (), w1).
Proof using loop_S.
  intros (t & Hs & m & -> & Hm).
  destruct (perform_json_answer recursion_limit server w "GET" url _ Hs)
    as (v & w1 & E & S & T & R).
  exists w1. do 2 (split; [done|]).
  rewrite loop_S. unfold DSSMLTask.get_status. rewrite (bind_Ret _ _ _ _ _ E).
  destruct (read_object _ _ _ _ R) as (l & d & n' & -> & _ & Hl & Hd).
  pose proof (Hd key) as Hk. rewrite Hm in Hk.
  inversion Hk as [x t' Hx Ex|]; subst. apply read_bool in Hx as ->.
  erewrite bind_Ret; cycle 1.
  { unfold dict_get. rewrite Hl. by rewrite <-Ex. }
  simpl. by destruct b.
Qed.

Lemma poll_until_false (k : nat) : ∀ w fuel,
  (∀ i, (i < k)%nat →
     ∃ t, server (requests w + i) "GET" url None = Json t ∧ reports t key true) →
  (∃ t, server (requests w + k) "GET" url None = Json t ∧ reports t key false) →
  (k < fuel)%nat →
  ∃ w', loop fuel w = (Ret (), w') ∧ heap w ⊆ heap w' ∧
    trace w' = trace w ++ polls url ms k ++ [EFetch "GET" url None].
Proof using loop_S.
  induction k as [|k IH]; intros w fuel Htrue Hfalse Hfuel.
  - destruct fuel as [|fuel]; [lia|].
    rewrite Nat.add_0_r in Hfalse.
    destruct (poll_once w false fuel Hfalse) as (w1 & S1 & T1 & E1).
    exists w1. by rewrite E1.
  - destruct fuel as [|fuel]; [lia|].
    destruct (poll_once w true fuel) as (w1 & S1 & T1 & E1).
    { rewrite <-(Nat.add_0_r (requests w)). apply Htrue. lia. }
    set (w2 := World (heap w1) (trace w1 ++ [ESleep ms])) in *.
    assert (requests w2 = S (requests w)) as Hr.
    { unfold w2. rewrite requests_sleep. destruct w1 as [h1 tr1]. simpl in *.
      subst tr1. apply (requests_fetch w). }
    destruct (IH w2 fuel) as (w' & E' & S' & T').
    + intros i Hi. rewrite Hr. replace (S (requests w) + i)%nat
        with (requests w + S i)%nat by lia. apply Htrue. lia.
    + rewrite Hr. by replace (S (requests w) + k)%nat
        with (requests w + S k)%nat by lia.
    + lia.
    + exists w'. rewrite E1, E'. split; [done|]. split; [by etrans|].
      rewrite T'. unfold w2. simpl. rewrite T1. unfold polls. simpl.
      by rewrite <-!app_assoc.
Qed.

Lemma poll_forever : ∀ fuel w,
  (∀ i, ∃ t, server (requests w + i) "GET" url None = Json t ∧
             reports t key true) →
  ∃ w', loop fuel w = (OutOfFuel, w') ∧
    trace w' = trace w ++ polls url ms fuel.
Proof using loop_0 loop_S.
  induction fuel as [|fuel IH]; intros w Htrue.
  - exists w. rewrite loop_0. unfold polls. simpl. by rewrite app_nil_r.
  - destruct (poll_once w true fuel) as (w1 & S1 & T1 & E1).
    { rewrite <-(Nat.add_0_r (requests w)). apply Htrue. }
    set (w2 := World (heap w1) (trace w1 ++ [ESleep ms])) in *.
    assert (requests w2 = S (requests w)) as Hr.
    { unfold w2. rewrite requests_sleep. destruct w1 as [h1 tr1]. simpl in *.
      subst tr1. apply (requests_fetch w). }
    destruct (IH w2) as (w' & E' & T').
    + intros i. rewrite Hr. replace (S (requests w) + i)%nat
        with (requests w + S i)%nat by lia. apply Htrue.
    + exists w'. rewrite E1, E'. split; [done|].
      rewrite T'. unfold w2. simpl. rewrite T1. unfold polls. simpl.
      by rewrite <-!app_assoc.
Qed.

End Polling.

Lemma requests_polls h tr url ms k tail :
  requests (World h (tr ++ polls url ms k ++ tail)) =
  requests (World h tr) + k + requests (World h tail).
Proof.
  unfold requests. simpl. rewrite !list.filter_app, !length_app.
  assert (length (filter is_fetch (polls url ms k)) = k) as ->; [|lia].
  unfold polls. induction k as [|k IH]; [done|].
  change (concat (replicate (S k) [EFetch "GET" url None; ESleep ms]))
    with (EFetch "GET" url None :: ESleep ms ::
          concat (replicate k [EFetch "GET" url None; ESleep ms])).
  rewrite filter_cons_True by exact I.
  rewrite filter_cons_False by (intros []).
  simpl. by rewrite IH.
Qed.

(** C7.  [wait_train_complete] returns when a fetched status reports
    [training] as false: if the statuses report [training = true] for the
    first [k] fetches and [training = false] at the next one, the loop does
    one status fetch per element, [k + 1] in all, sleeps 2 s after each of the
    first [k], and returns; while every status reports [training = true] it
    does not return, whatever the fuel, and sleeps 2 s after each fetch.
    [wait_guess_complete] does the same over [guessing] with 0.2 s. *)
Theorem wait_complete_polls (recursion_limit : nat)
    (server : nat → string → string → option json → response)
    (self : DSSMLTaskObject.t) (w : world) :
  let url := DSSMLTaskObject.lab self +:+ "/status" in
  let status i key b :=
    ∃ t, server (requests w + i) "GET" url None = Json t ∧ reports t key b in
  let returns (loop : nat → M unit) key ms :=
    ∀ k fuel,
      (∀ i, i < k → status i key true) → status k key false → k < fuel →
      ∃ w', loop fuel w = (Ret (), w') ∧
        trace w' = trace w ++ polls url ms k ++ [EFetch "GET" url None] ∧
        requests w' = requests w + S k in
  let hangs (loop : nat → M unit) key ms :=
    (∀ i, status i key true) →
    ∀ fuel, ∃ w', loop fuel w = (OutOfFuel, w') ∧
      trace w' = trace w ++ polls url ms fuel in
  returns (DSSMLTask.wait_train_complete recursion_limit server self) "training" 2000%Z ∧
  hangs (DSSMLTask.wait_train_complete recursion_limit server self) "training" 2000%Z ∧
  returns (DSSMLTask.wait_guess_complete recursion_limit server self) "guessing" 200%Z ∧
  hangs (DSSMLTask.wait_guess_complete recursion_limit server self) "guessing" 200%Z.
Proof.
  intros url status returns hangs.
  assert (∀ loop key ms,
    (∀ fuel, loop (S fuel) =
       (status ← DSSMLTask.get_status recursion_limit server self;
        flag ← dict_get status key "???";
        if eq_bool flag false then mret () else sleep ms;; loop fuel)) →
    (∀ w, loop 0 w = (OutOfFuel, w)) →
    returns loop key ms ∧ hangs loop key ms) as Hloop.
  { intros loop key ms HS H0. split.
    - intros k fuel Htrue Hfalse Hfuel.
      destruct (poll_until_false recursion_limit server self key ms loop HS k w fuel
                  Htrue Hfalse Hfuel) as (w' & E & _ & T).
      exists w'. do 2 (split; [done|]).
      destruct w' as [h' tr']. simpl in T. subst tr'.
      rewrite requests_polls. unfold requests at 2 3. simpl.
      destruct w as [h tr]. unfold requests. simpl. lia.
    - intros Htrue fuel.
      by apply (poll_forever recursion_limit server self key ms loop H0 HS). }
  destruct (Hloop (DSSMLTask.wait_train_complete recursion_limit server self)
              "training" 2000%Z) as [??]; [done..|].
  destruct (Hloop (DSSMLTask.wait_guess_complete recursion_limit server self)
              "guessing" 200%Z) as [??]; [done..|].
  done.
Qed.

Lemma wait_complete_polls_witness :
  let url := "/projects/PROJ/models/lab/an/ml/status" in
  ∃ w', DSSMLTask.wait_train_complete 10 (Sample.busy_server 2) Sample.task 5
          Sample.empty_world = (Ret (), w') ∧
        trace w' = [EFetch "GET" url None; ESleep 2000; EFetch "GET" url None;
                    ESleep 2000; EFetch "GET" url None] ∧
        requests w' = 3.
Proof.
  destruct (wait_complete_polls 10 (Sample.busy_server 2) Sample.task
              Sample.empty_world) as (H & _).
  destruct (H 2 5) as (w' & E & T & R).
  - intros i Hi. eexists. split; [reflexivity|].
    eexists. split; [reflexivity|].
    by destruct i as [|[|i]]; [..|lia].
  - eexists. split; [reflexivity|]. eexists. split; reflexivity.
  - lia.
  - exists w'. split; [exact E|]. split; [exact T|exact R].
Defined.

(** ** Reading decoded documents through the dictionary operations *)

Lemma getitem_read n w v m (k : string) t :
  read n (heap w) v = Some (JObject m) → m !! k = Some t →
  ∃ x, getitem v k w = (Ret x, w) ∧ read (pred n) (heap w) x = Some t.
Proof.
  intros R Hk. destruct (read_object _ _ _ _ R) as (l & d & n' & -> & -> & Hl & Hd).
  pose proof (Hd k) as Rk. rewrite Hk in Rk. inversion Rk as [x t' Hx Ex|]; subst.
  exists x. split; [|done]. unfold getitem. by rewrite Hl, <-Ex.
Qed.

Lemma contains_read n w v m k :
  read n (heap w) v = Some (JObject m) →
  contains k v w = (Ret (bool_decide (is_Some (m !! k))), w).
Proof.
  intros R. destruct (read_object _ _ _ _ R) as (l & d & n' & -> & -> & Hl & Hd).
  unfold contains. rewrite Hl. do 2 f_equal. apply bool_decide_ext.
  destruct (Hd k); split; intros [??]; by eauto.
Qed.

Lemma dict_get_read n w v m k dflt :
  read n (heap w) v = Some (JObject m) →
  ∃ x, dict_get v k dflt w = (Ret x, w) ∧
    match m !! k with
    | Some t => read (pred n) (heap w) x = Some t
    | None => x = dflt
    end.
Proof.
  intros R. destruct (read_object _ _ _ _ R) as (l & d & n' & -> & -> & Hl & Hd).
  unfold dict_get. rewrite Hl. eexists. split; [done|].
  destruct (Hd k) as [x t Hx|]; simpl; done.
Qed.

Section Requests.

Variable recursion_limit : nat.
Variable server : nat → string → string → option json → response.

(** A request with a body: the body is encoded as the document it stands
    for, and the answer [t] is decoded into new objects. *)
Lemma perform_json_body w method url b bj t :
  read recursion_limit (heap w) b = Some bj →
  server (requests w) method url (Some bj) = Json t →
  ∃ v w', perform_json recursion_limit server method url (Some b) w = (Ret v, w') ∧
    heap w ⊆ heap w' ∧
    trace w' = trace w ++ [EFetch method url (Some bj)] ∧
    read (jdepth t) (heap w') v = Some t.
Proof.
  intros Hb Hs. unfold perform_json. rewrite Hb. simpl. rewrite Hs.
  destruct (load_loads t (World (heap w) (trace w ++ [EFetch method url (Some bj)])))
    as (v & w' & E & S & T & R).
  exists v, w'. by rewrite E.
Qed.

End Requests.

(** ** DSSMLTask.get_trained_model_snippet, get_trained_model_details *)

Lemma requests_same_trace w w' : trace w' = trace w → requests w' = requests w.
Proof. unfold requests. by intros ->. Qed.

Lemma read_ids_body n h l lb (ids : list value) (ts : list json) :
  l ≠ lb →
  h !! l = Some (OList ids) →
  h !! lb = Some (ODict {["modelsIds" := VRef l]}) →
  Forall2 (λ x t, read n h x = Some t) ids ts →
  read (S (S n)) h (VRef lb) = Some (JObject {["modelsIds" := JList ts]}).
Proof.
  intros Hne Hl Hlb Hids. rewrite read_ref, Hlb.
  erewrite (proj2 (map_sequence_fmap_Some _ _ {["modelsIds" := JList ts]})); [done|].
  intros k. destruct (decide (k = "modelsIds")) as [->|Hk].
  - rewrite !lookup_singleton_eq. constructor. rewrite read_ref, Hl.
    by erewrite (proj2 (mapM_Some _ _ ts)).
  - rewrite !lookup_singleton_ne by done. constructor.
Qed.

Section Snippets.

Variable recursion_limit : nat.
Variable server : nat → string → string → option json → response.
Variable self : DSSMLTaskObject.t.

#[local] Abbreviation snippets_url := (DSSMLTaskObject.lab self +:+ "/models-snippets").

(** The snippet of one model: one request whose body names the model, and the
    entry of the answer under that name. *)
Lemma get_trained_model_snippet_id w id answer s :
  2 ≤ recursion_limit →
  server (requests w) "GET" snippets_url
    (Some (JObject {["modelsIds" := JList [JStr id]]})) = Json (JObject answer) →
  answer !! id = Some s →
  ∃ x w', DSSMLTask.get_trained_model_snippet recursion_limit server self
            (Some id) None w = (Ret x, w') ∧
    heap w ⊆ heap w' ∧
    trace w' = trace w ++ [EFetch "GET" snippets_url
                             (Some (JObject {["modelsIds" := JList [JStr id]]}))] ∧
    repr (heap w') x s.
Proof.
  intros Hlimit Hs Hid. unfold DSSMLTask.get_trained_model_snippet.
  rewrite (bind_Ret _ _ _ _ _ (bind_Ret _ _ _ _ _ (alloc_run _ _))). simpl.
  set (l := fresh (dom (heap w))).
  set (h1 := <[l := OList [VStr id]]> (heap w)).
  set (lb := fresh (dom h1)).
  set (h2 := <[lb := ODict {["modelsIds" := VRef l]}]> h1).
  assert (heap w ⊆ h1) as S1 by apply alloc_subseteq.
  assert (h1 ⊆ h2) as S2 by apply alloc_subseteq.
  assert (l ≠ lb) as Hne.
  { apply (fresh_ne h1 l (OList [VStr id])). apply lookup_insert_eq. }
  destruct (perform_json_body recursion_limit server (World h2 (trace w)) "GET"
              snippets_url (VRef lb) (JObject {["modelsIds" := JList [JStr id]]})
              (JObject answer)) as (v & w' & E & S3 & T & R).
  { destruct recursion_limit as [|[|n]]; [lia..|]. simpl.
    apply (read_ids_body n h2 l lb [VStr id] [JStr id]); [done| | |].
    - unfold h2. rewrite lookup_insert_ne by done. apply lookup_insert_eq.
    - apply lookup_insert_eq.
    - constructor; [|done]. by destruct n. }
  { by rewrite (requests_same_trace w). }
  rewrite (bind_Ret _ _ _ _ _ E).
  destruct (getitem_read _ _ _ _ id s R Hid) as (x & Ex & Rx).
  exists x, w'. split; [done|]. split; [by repeat (etrans; [eassumption|])|].
  split; [done|]. by eexists.
Qed.

End Snippets.

(** C6.  Whatever mapping the service answers to the details fetch,
    [get_trained_model_details] returns a clustering wrapper exactly when
    that mapping has the key ['facts'], and a prediction wrapper otherwise;
    the wrapper holds the fetched details and the snippet that a second
    request, for the same id, returns under that id. *)
Theorem get_trained_model_details_dispatch (recursion_limit : nat)
    (server : nat → string → string → option json → response)
    (self : DSSMLTaskObject.t) (w : world) (id : string)
    (details answer : gmap string json) (s : json) :
  let details_url := DSSMLTaskObject.lab self +:+ "/models/" +:+ id +:+ "/details" in
  let snippets_url := DSSMLTaskObject.lab self +:+ "/models-snippets" in
  let body := JObject {["modelsIds" := JList [JStr id]]} in
  2 ≤ recursion_limit →
  server (requests w) "GET" details_url None = Json (JObject details) →
  server (S (requests w)) "GET" snippets_url (Some body) = Json (JObject answer) →
  answer !! id = Some s →
  ∃ r w',
    DSSMLTask.get_trained_model_details recursion_limit server self id w = (Ret r, w') ∧
    (DSSTrainedModelDetails.class r =
       DSSTrainedModelDetails.DSSTrainedClusteringModelDetails ↔
     is_Some (details !! "facts")) ∧
    (DSSTrainedModelDetails.class r =
       DSSTrainedModelDetails.DSSTrainedPredictionModelDetails ↔
     details !! "facts" = None) ∧
    repr (heap w') (DSSTrainedModelDetails.details r) (JObject details) ∧
    repr (heap w') (DSSTrainedModelDetails.snippet r) s ∧
    DSSTrainedModelDetails.mltask r = Some self ∧
    DSSTrainedModelDetails.mltask_model_id r = Some id ∧
    trace w' = trace w ++ [EFetch "GET" details_url None;
                           EFetch "GET" snippets_url (Some body)].
Proof.
  intros details_url snippets_url body Hlimit Hd Hs Hid.
  destruct (perform_json_answer recursion_limit server w "GET" details_url _ Hd)
    as (v & w1 & E1 & S1 & T1 & R1).
  assert (requests w1 = S (requests w)) as Hr.
  { destruct w1 as [h1 tr1]. simpl in T1. subst tr1. apply (requests_fetch w). }
  destruct (get_trained_model_snippet_id recursion_limit server self w1 id answer s
              Hlimit) as (x & w2 & E2 & S2 & T2 & R2); [by rewrite Hr|done|].
  assert (read (jdepth (JObject details)) (heap w2) v = Some (JObject details)) as R1'.
  { by eapply read_mono. }
  unfold DSSMLTask.get_trained_model_details. fold details_url.
  rewrite (bind_Ret _ _ _ _ _ E1), (bind_Ret _ _ _ _ _ E2).
  rewrite (bind_Ret _ _ _ _ _ (contains_read _ _ _ _ "facts" R1')).
  assert (trace w2 = trace w ++ [EFetch "GET" details_url None;
                                 EFetch "GET" snippets_url (Some body)]) as T.
  { rewrite T2, T1. by rewrite <-app_assoc. }
  assert (repr (heap w2) v (JObject details)) as Rv by (by eexists).
  case_bool_decide as Hfacts; eexists _, w2; (split; [done|]); simpl.
  - split; [by split|]. split; [|by repeat split].
    split; [done|]. intros E. rewrite E in Hfacts. by destruct Hfacts.
  - split; [|split; [|by repeat split]].
    + split; [done|]. intros ?. by destruct Hfacts.
    + split; [|done]. intros _. by apply eq_None_not_Some.
Qed.

Lemma get_trained_model_details_dispatch_witness :
  (∃ r w', DSSMLTask.get_trained_model_details 5
             (Sample.two_step_server (JObject {["facts" := JList []]})
                Sample.kmeans_snippets)
             Sample.task "m1" Sample.empty_world = (Ret r, w') ∧
           DSSTrainedModelDetails.class r =
             DSSTrainedModelDetails.DSSTrainedClusteringModelDetails) ∧
  (∃ r w', DSSMLTask.get_trained_model_details 5
             (Sample.two_step_server (JObject {["perf" := JObject ∅]})
                Sample.kmeans_snippets)
             Sample.task "m1" Sample.empty_world = (Ret r, w') ∧
           DSSTrainedModelDetails.class r =
             DSSTrainedModelDetails.DSSTrainedPredictionModelDetails).
Proof.
  split.
  - destruct (get_trained_model_details_dispatch 5
                (Sample.two_step_server (JObject {["facts" := JList []]})
                   Sample.kmeans_snippets)
                Sample.task Sample.empty_world "m1" {["facts" := JList []]}
                {["m1" := JObject {["algorithm" := JStr "KMEANS"]}]}
                (JObject {["algorithm" := JStr "KMEANS"]}))
      as (r & w' & E & Hc & _); [lia|reflexivity..|].
    exists r, w'. split; [exact E|]. apply Hc. by eexists.
  - destruct (get_trained_model_details_dispatch 5
                (Sample.two_step_server (JObject {["perf" := JObject ∅]})
                   Sample.kmeans_snippets)
                Sample.task Sample.empty_world "m1" {["perf" := JObject ∅]}
                {["m1" := JObject {["algorithm" := JStr "KMEANS"]}]}
                (JObject {["algorithm" := JStr "KMEANS"]}))
      as (r & w' & E & _ & Hp & _); [lia|reflexivity..|].
    exists r, w'. split; [exact E|]. by apply Hp.
Defined.

(** ** DSSTrainedModelDetails.get_performance_metrics *)

Lemma lookup_delete_keys {A} (keys : list string) (d : gmap string A) k :
  foldl (λ d k, delete k d) d keys !! k =
  if decide (k ∈ keys) then None else d !! k.
Proof.
  revert d. induction keys as [|x keys IH]; intros d; cbn [foldl].
  - destruct (decide (k ∈ [])) as [H|H]; [by apply elem_of_nil in H|done].
  - rewrite IH.
    destruct (decide (k ∈ keys)) as [H1|H1], (decide (k ∈ x :: keys)) as [H2|H2];
      try done.
    + destruct H2. by right.
    + apply elem_of_cons in H2 as [->|?]; [|done]. apply lookup_delete_eq.
    + apply lookup_delete_ne. intros ->. apply H2. by left.
Qed.

Lemma strip_loop keys : ∀ w l d,
  heap w !! l = Some (ODict d) →
  for_each keys (λ x,
    present ← contains x (VRef l);
    if (present : bool) then delitem (VRef l) x else mret ()) w =
  (Ret (), World (<[l := ODict (foldl (λ d k, delete k d) d keys)]> (heap w))
                 (trace w)).
Proof.
  induction keys as [|x keys IH]; intros w l d Hl.
  - simpl. unfold ret. rewrite insert_id by done. by destruct w.
  - assert ((present ← contains x (VRef l);
             if (present : bool) then delitem (VRef l) x else mret ()) w =
            (Ret (), World (<[l := ODict (delete x d)]> (heap w)) (trace w)))
      as Hbody.
    { assert (contains x (VRef l) w = (Ret (bool_decide (is_Some (d !! x))), w))
        as Hc by (unfold contains; by rewrite Hl).
      rewrite (bind_Ret _ _ _ _ _ Hc). case_bool_decide as Hx.
      - destruct Hx as [y Hy]. unfold delitem. by rewrite Hl, Hy.
      - rewrite (delete_id d x) by (by apply eq_None_not_Some).
        rewrite insert_id by done. by destruct w. }
    cbn [for_each]. unfold bind. rewrite Hbody.
    rewrite (IH _ l (delete x d)) by apply lookup_insert_eq. simpl.
    by rewrite insert_insert_eq.
Qed.

Lemma load_object_fresh m w :
  ∃ l d h0,
    load (JObject m) w = (Ret (VRef l), World (<[l := ODict d]> h0) (trace w)) ∧
    heap w ⊆ h0 ∧ h0 !! l = None ∧
    ∀ k, option_Forall2 (λ v t, read (jdepth t) h0 v = Some t) (d !! k) (m !! k).
Proof.
  destruct (loads_object_fold m (λ k x _, load_loads x) w)
    as (d & w0 & E & S & T & R).
  exists (fresh (dom (heap w0))), d, (heap w0).
  rewrite load_object, (bind_Ret _ _ _ _ _ E), alloc_run, T.
  split; [done|]. split; [done|]. split; [apply fresh_lookup|done].
Qed.

Section Strip.

Variable recursion_limit : nat.
Variable self : DSSTrainedModelDetails.t.

(** The copy that [strip] returns is a new object: the heap it starts from is
    kept as it is, and the copy reads as the snippet without the keys. *)
Lemma strip_copy keys w m :
  read recursion_limit (heap w) (DSSTrainedModelDetails.snippet self) =
    Some (JObject m) →
  ∃ l w' m',
    DSSTrainedModelDetails.strip recursion_limit self keys w = (Ret (VRef l), w') ∧
    heap w !! l = None ∧ heap w ⊆ heap w' ∧ trace w' = trace w ∧
    read recursion_limit (heap w') (VRef l) = Some (JObject m') ∧
    ∀ k, m' !! k = if decide (k ∈ keys) then None else m !! k.
Proof.
  intros R. unfold DSSTrainedModelDetails.strip.
  destruct (load_object_fresh m w) as (l & d & h0 & E & S & F & Rd).
  assert (deepcopy recursion_limit (DSSTrainedModelDetails.snippet self) w =
          (Ret (VRef l), World (<[l := ODict d]> h0) (trace w))) as Hcopy.
  { unfold deepcopy. by rewrite R. }
  rewrite (bind_Ret _ _ _ _ _ Hcopy).
  erewrite bind_Ret; cycle 1.
  { apply (strip_loop keys _ l d). apply lookup_insert_eq. }
  simpl. rewrite insert_insert_eq.
  set (d' := foldl (λ d k, delete k d) d keys).
  set (m' := foldl (λ d k, delete k d) m keys).
  assert (h0 ⊆ <[l := ODict d']> h0) as S' by (by apply insert_subseteq).
  exists l, (World (<[l := ODict d']> h0) (trace w)), m'.
  split; [done|]. split; [by eapply lookup_weaken_None|].
  split; [by etrans|]. split; [done|]. split; [|apply lookup_delete_keys].
  pose proof (read_depth _ _ _ _ R) as Hdepth.
  destruct recursion_limit as [|n]; [simpl in Hdepth; lia|].
  simpl. rewrite lookup_insert_eq.
  erewrite (proj2 (map_sequence_fmap_Some _ _ m')); [done|].
  intros k. unfold d', m'. rewrite !lookup_delete_keys.
  destruct (decide (k ∈ keys)); [constructor|].
  pose proof (Rd k) as Rk.
  destruct (m !! k) as [t|] eqn:Em; inversion Rk as [v t' Hv|]; subst; constructor.
  apply (read_mono (jdepth t) _ h0); [|done|done].
  pose proof (jdepth_object_elem m k t Em). lia.
Qed.

End Strip.

(** C10.  Both [get_performance_metrics] variants are reads: each returns a
    new mapping equal to the stored snippet without the keys of its
    bookkeeping list (the other keys keep their values), every object that
    was in the heap before the call, the stored snippet among them, is
    unchanged, and a second call returns an equal mapping. *)
Theorem get_performance_metrics_pure (recursion_limit : nat)
    (self : DSSTrainedModelDetails.t) (w : world) (m : gmap string json) :
  read recursion_limit (heap w) (DSSTrainedModelDetails.snippet self) =
    Some (JObject m) →
  let keys :=
    match DSSTrainedModelDetails.class self with
    | DSSTrainedModelDetails.DSSTrainedPredictionModelDetails =>
        DSSTrainedModelDetails.prediction_bookkeeping
    | DSSTrainedModelDetails.DSSTrainedClusteringModelDetails =>
        DSSTrainedModelDetails.clustering_bookkeeping
    end in
  ∃ r w' m',
    DSSTrainedModelDetails.get_performance_metrics recursion_limit self w =
      (Ret r, w') ∧
    read recursion_limit (heap w') r = Some (JObject m') ∧
    (∀ k, m' !! k = if decide (k ∈ keys) then None else m !! k) ∧
    (∀ l o, heap w !! l = Some o → heap w' !! l = Some o) ∧
    read recursion_limit (heap w') (DSSTrainedModelDetails.snippet self) =
      Some (JObject m) ∧
    trace w' = trace w ∧
    ∃ r2 w'',
      DSSTrainedModelDetails.get_performance_metrics recursion_limit self w' =
        (Ret r2, w'') ∧
      r2 ≠ r ∧
      read recursion_limit (heap w'') r2 = Some (JObject m') ∧
      read recursion_limit (heap w'') r = Some (JObject m').
Proof.
  intros R keys.
  assert (DSSTrainedModelDetails.get_performance_metrics recursion_limit self =
          DSSTrainedModelDetails.strip recursion_limit self keys) as ->.
  { unfold DSSTrainedModelDetails.get_performance_metrics, keys.
    by destruct (DSSTrainedModelDetails.class self). }
  destruct (strip_copy recursion_limit self keys w m R)
    as (l & w' & m' & E & F & S & T & Rr & Hm').
  assert (read recursion_limit (heap w') (DSSTrainedModelDetails.snippet self) =
          Some (JObject m)) as R' by (by eapply read_mono).
  destruct (strip_copy recursion_limit self keys w' m R')
    as (l2 & w'' & m2 & E2 & F2 & S2 & T2 & Rr2 & Hm2).
  assert (m2 = m') as ->.
  { apply map_eq. intros k. by rewrite Hm', Hm2. }
  exists (VRef l), w', m'. do 3 (split; [done|]).
  split; [intros l0 o Hl; by eapply lookup_weaken|].
  do 2 (split; [done|]).
  exists (VRef l2), w''. split; [done|]. split.
  - intros [= ->]. destruct recursion_limit as [|n]; [done|].
    rewrite read_ref, F2 in Rr. done.
  - split; [done|]. by eapply read_mono.
Qed.

Lemma get_performance_metrics_pure_witness :
  ∃ r w' m',
    DSSTrainedModelDetails.get_performance_metrics 5 Sample.snippet_details
      Sample.snippet_world = (Ret r, w') ∧
    read 5 (heap w') r = Some (JObject m') ∧
    m' !! "auc" = Some (JInt 1) ∧ m' !! "algorithm" = None ∧
    m' !! "trainInfo" = None ∧
    heap w' !! 1%positive = heap Sample.snippet_world !! 1%positive.
Proof.
  destruct (get_performance_metrics_pure 5 Sample.snippet_details
              Sample.snippet_world
              (<["algorithm" := JStr "RANDOM_FOREST"]>
               (<["auc" := JInt 1]> {["trainInfo" := JObject ∅]})))
    as (r & w' & m' & E & R & Hm & Hkeep & _).
  - vm_compute. reflexivity.
  - exists r, w', m'. split; [exact E|]. split; [exact R|].
    rewrite !Hm. do 3 (split; [reflexivity|]).
    apply Hkeep. reflexivity.
Defined.

(** ** DSSMLTask.get_trained_models_ids *)

Lemma eq_str_read n h x t s :
  read n h x = Some t → eq_str x s = is_str t s.
Proof.
  destruct x as [| | | |l]; try (destruct n; by intros [= <-]).
  destruct n as [|n]; [done|]. rewrite read_ref.
  destruct (h !! l) as [[d|xs]|]; [| |done].
  - destruct (map_sequence (read n h <$> d)); by intros [= <-].
  - destruct (mapM (read n h) xs); by intros [= <-].
Qed.

Lemma session_test n w x e sid :
  read n (heap w) x = Some e → entry_ok e →
  ∃ w', (full ← dict_get_with x "fullModelId" (alloc (ODict ∅));
         session ← dict_get full "sessionId" "";
         mret (eq_str session sid)) w = (Ret (is_str (session_of e) sid), w') ∧
    heap w ⊆ heap w' ∧ trace w' = trace w.
Proof.
  intros R (m & id & -> & _ & Hfull).
  destruct (read_object _ _ _ _ R) as (l & d & n' & -> & -> & Hl & Hd).
  set (l0 := fresh (dom (heap w))).
  set (w1 := World (<[l0 := ODict ∅]> (heap w)) (trace w)).
  assert (heap w ⊆ heap w1) as S1 by apply alloc_subseteq.
  assert (heap w1 !! l = Some (ODict d)) as Hl1 by (by eapply lookup_weaken).
  assert (dict_get_with (VRef l) "fullModelId" (alloc (ODict ∅)) w =
          (Ret (default (VRef l0) (d !! "fullModelId")), w1)) as Hget.
  { unfold dict_get_with. rewrite Hl.
    rewrite (bind_Ret _ _ _ _ _ (alloc_run _ _)). fold l0 w1.
    unfold dict_get. by rewrite Hl1. }
  exists w1. split; [|done]. rewrite (bind_Ret _ _ _ _ _ Hget).
  pose proof (Hd "fullModelId") as Rk. simpl.
  destruct Hfull as [Hnone|[f Hf]].
  - rewrite Hnone in *. inversion Rk as [|Ed Em]. simpl.
    erewrite bind_Ret; cycle 1.
    { unfold dict_get. simpl. by rewrite lookup_insert_eq. }
    done.
  - rewrite Hf in *. inversion Rk as [v t Hv Ed Em|]; subst. simpl.
    assert (read n' (heap w1) v = Some (JObject f)) as Hv1 by (by eapply read_mono).
    destruct (dict_get_read _ _ _ _ "sessionId" (VStr "") Hv1) as (y & Ey & Hy).
    rewrite (bind_Ret _ _ _ _ _ Ey). unfold mret, M_ret, ret. do 2 f_equal.
    destruct (f !! "sessionId") as [t|]; simpl.
    + by eapply eq_str_read.
    + by subst y.
Qed.

Lemma filter_m_session n sid : ∀ xs entries w,
  Forall2 (λ x e, read n (heap w) x = Some e) xs entries →
  Forall entry_ok entries →
  ∃ kept w',
    filter_m (λ fmi,
      full ← dict_get_with fmi "fullModelId" (alloc (ODict ∅));
      session ← dict_get full "sessionId" "";
      mret (eq_str session sid)) xs w = (Ret kept, w') ∧
    heap w ⊆ heap w' ∧ trace w' = trace w ∧
    Forall2 (λ x e, read n (heap w') x = Some e) kept
      (filter (λ e, is_str (session_of e) sid) entries).
Proof.
  induction xs as [|x xs IH]; intros entries w H Hok;
    inversion H as [|? e ? es Hx Hxs]; subst.
  - exists [], w. repeat split; [done|]. constructor.
  - apply list.Forall_cons_1 in Hok as [Hok1 Hok2].
    destruct (session_test n w x e sid Hx Hok1) as (w1 & E1 & S1 & T1).
    destruct (IH es w1) as (kept & w2 & E2 & S2 & T2 & R2); [|done|].
    { revert Hxs. apply Forall2_impl. intros ???. by eapply read_mono. }
    cbn [filter_m]. rewrite (bind_Ret _ _ _ _ _ E1), (bind_Ret _ _ _ _ _ E2).
    eexists _, w2. split; [done|]. split; [by etrans|]. split; [congruence|].
    destruct (is_str (session_of e) sid) eqn:Es.
    + rewrite filter_cons_True by (by apply Is_true_true). constructor; [|done].
      eapply read_mono; [done| |exact Hx]. by etrans.
    + rewrite filter_cons_False by (by apply Is_true_false). done.
Qed.

Lemma map_m_ids n : ∀ xs entries w,
  Forall2 (λ x e, read n (heap w) x = Some e) xs entries →
  Forall entry_ok entries →
  map_m (λ x, getitem x "id") xs w = (Ret (VStr <$> (entry_id <$> entries)), w).
Proof.
  intros xs entries w H. induction H as [|x e xs es Hx _ IH]; intros Hok; [done|].
  apply list.Forall_cons_1 in Hok as [(m & id & -> & Hid & _) Hok].
  destruct (getitem_read _ _ _ _ "id" _ Hx Hid) as (y & Ey & Ry).
  apply read_str in Ry as ->. cbn [map_m].
  rewrite (bind_Ret _ _ _ _ _ Ey), (bind_Ret _ _ _ _ _ (IH Hok)).
  simpl. by rewrite Hid.
Qed.

Lemma iter_list w l xs :
  heap w !! l = Some (OList xs) → iter (VRef l) w = (Ret xs, w).
Proof. intros E. unfold iter. by rewrite E. Qed.

Section TrainedModelsIds.

Variable recursion_limit : nat.
Variable server : nat → string → string → option json → response.
Variable self : DSSMLTaskObject.t.

#[local] Abbreviation status_url := (DSSMLTaskObject.lab self +:+ "/status").
#[local] Abbreviation models_url := (DSSMLTaskObject.lab self +:+ "/models-snippets").

(** The part of the method before the algorithm filter: one status fetch,
    the optional session filter, and the list of the ids. *)
Lemma model_ids_prefix w st entries session_id (K : value → M value) :
  server (requests w) "GET" status_url None = Json (JObject st) →
  st !! "fullModelIds" = Some (JList entries) →
  Forall entry_ok entries →
  let kept :=
    match session_id with
    | None => entries
    | Some sid => filter (λ e, is_str (session_of e) sid) entries
    end in
  ∃ lm w3,
    (status ← DSSMLTask.get_status recursion_limit server self;
     full_model_ids ← getitem status "fullModelIds";
     full_model_ids ←
       match session_id with
       | None => mret full_model_ids
       | Some session_id =>
           entries ← iter full_model_ids;
           kept ← filter_m (λ fmi,
                     full ← dict_get_with fmi "fullModelId" (alloc (ODict ∅));
                     session ← dict_get full "sessionId" "";
                     mret (eq_str session session_id)) entries;
           alloc (OList kept)
       end;
     entries ← iter full_model_ids;
     ids ← map_m (λ x, getitem x "id") entries;
     model_ids ← alloc (OList ids);
     K model_ids) w = K (VRef lm) w3 ∧
    heap w3 !! lm = Some (OList (VStr <$> (entry_id <$> kept))) ∧
    trace w3 = trace w ++ [EFetch "GET" status_url None].
Proof.
  intros Hs Hids Hok kept.
  destruct (perform_json_answer recursion_limit server w "GET" status_url _ Hs)
    as (v & w1 & E1 & S1 & T1 & R1).
  unfold DSSMLTask.get_status. rewrite (bind_Ret _ _ _ _ _ E1).
  destruct (getitem_read _ _ _ _ "fullModelIds" _ R1 Hids) as (x & Ex & Rx).
  rewrite (bind_Ret _ _ _ _ _ Ex).
  destruct (read_list _ _ _ _ Rx) as (ll & xs & n' & -> & Hn & Hll & Hxs).
  assert (∃ l2 ys w2,
    match session_id with
    | None => mret (VRef ll)
    | Some session_id =>
        entries ← iter (VRef ll);
        kept ← filter_m (λ fmi,
                  full ← dict_get_with fmi "fullModelId" (alloc (ODict ∅));
                  session ← dict_get full "sessionId" "";
                  mret (eq_str session session_id)) entries;
        alloc (OList kept)
    end w1 = (Ret (VRef l2), w2) ∧
    heap w2 !! l2 = Some (OList ys) ∧ trace w2 = trace w1 ∧
    Forall2 (λ x e, read n' (heap w2) x = Some e) ys kept) as
    (l2 & ys & w2 & E2 & Hl2 & T2 & Hys).
  { destruct session_id as [sid|]; [|by exists ll, xs, w1].
    destruct (filter_m_session n' sid xs entries w1 Hxs Hok)
      as (ys & w2 & E2 & S2 & T2 & R2).
    eexists _, ys, _. rewrite (bind_Ret _ _ _ _ _ (iter_list _ _ _ Hll)).
    rewrite (bind_Ret _ _ _ _ _ E2), alloc_run. split; [done|]. simpl.
    split; [apply lookup_insert_eq|]. split; [done|].
    revert R2. apply Forall2_impl. intros ???.
    eapply read_mono; [done|apply alloc_subseteq|done]. }
  rewrite (bind_Ret _ _ _ _ _ E2).
  rewrite (bind_Ret _ _ _ _ _ (iter_list _ _ _ Hl2)).
  assert (Forall entry_ok kept) as Hok'.
  { unfold kept. destruct session_id; [|done].
    apply list.Forall_forall. intros e [_ He]%list_elem_of_filter.
    by eapply list.Forall_forall in Hok. }
  rewrite (bind_Ret _ _ _ _ _ (map_m_ids n' ys kept w2 Hys Hok')).
  rewrite (bind_Ret _ _ _ _ _ (alloc_run _ _)).
  eexists _, _. split; [done|]. simpl. split; [apply lookup_insert_eq|].
  congruence.
Qed.

Lemma filter_m_algorithm n algorithm (snips : gmap string json) w :
  ∀ pairs : list (string * value),
  Forall (λ p, ∃ s, snips !! p.1 = Some s ∧ is_object s ∧
                    read n (heap w) p.2 = Some s) pairs →
  filter_m (λ '(fmi, s),
    alg ← dict_get s "algorithm" "";
    mret (eq_str alg algorithm)) pairs w =
  (Ret (filter (λ p, has_algorithm snips algorithm p.1) pairs), w).
Proof.
  induction pairs as [|[k v] pairs IH]; intros Hall; [done|].
  apply list.Forall_cons_1 in Hall as [(s & Hk & [m ->] & Hv) Hall].
  simpl in Hk, Hv. cbn [filter_m].
  destruct (dict_get_read _ _ _ _ "algorithm" (VStr "") Hv) as (y & Ey & Hy).
  rewrite (bind_Ret _ _ _ _ _ (bind_Ret _ _ _ _ _ Ey)).
  rewrite (bind_Ret _ _ _ _ _ (IH Hall)).
  unfold mret, M_ret, ret. do 2 f_equal.
  assert (eq_str y algorithm = has_algorithm snips algorithm k) as ->.
  { unfold has_algorithm. rewrite Hk. simpl.
    destruct (m !! "algorithm") as [t|]; simpl.
    - by eapply eq_str_read.
    - by subst y. }
  destruct (has_algorithm snips algorithm k) eqn:Ea.
  - rewrite filter_cons_True; [done|]. by apply Is_true_true.
  - rewrite filter_cons_False; [done|]. by apply Is_true_false.
Qed.

(** The algorithm filter starts with a second request, whose body holds the
    ids kept so far; the code then goes on with the decoded answer. *)
Lemma model_ids_snippets w st entries session_id answer (K : value → M value) :
  2 ≤ recursion_limit →
  server (requests w) "GET" status_url None = Json (JObject st) →
  st !! "fullModelIds" = Some (JList entries) →
  Forall entry_ok entries →
  let kept :=
    match session_id with
    | None => entries
    | Some sid => filter (λ e, is_str (session_of e) sid) entries
    end in
  let body := JObject {["modelsIds" := JList (JStr <$> (entry_id <$> kept))]} in
  server (S (requests w)) "GET" models_url (Some body) = Json answer →
  ∃ v w5,
    (status ← DSSMLTask.get_status recursion_limit server self;
     full_model_ids ← getitem status "fullModelIds";
     full_model_ids ←
       match session_id with
       | None => mret full_model_ids
       | Some session_id =>
           entries ← iter full_model_ids;
           kept ← filter_m (λ fmi,
                     full ← dict_get_with fmi "fullModelId" (alloc (ODict ∅));
                     session ← dict_get full "sessionId" "";
                     mret (eq_str session session_id)) entries;
           alloc (OList kept)
       end;
     entries ← iter full_model_ids;
     ids ← map_m (λ x, getitem x "id") entries;
     model_ids ← alloc (OList ids);
     snippets ← DSSMLTask.get_trained_model_snippet recursion_limit server self
                  None (Some model_ids);
     K snippets) w = K v w5 ∧
    read (jdepth answer) (heap w5) v = Some answer ∧
    trace w5 = trace w ++ [EFetch "GET" status_url None;
                           EFetch "GET" models_url (Some body)].
Proof.
  intros Hlimit Hs Hids Hok kept body Hsn.
  destruct (model_ids_prefix w st entries session_id
              (λ model_ids,
                 snippets ← DSSMLTask.get_trained_model_snippet recursion_limit
                              server self None (Some model_ids);
                 K snippets) Hs Hids Hok)
    as (lm & w3 & E & Hlm & T).
  rewrite E. clear E. fold kept in Hlm.
  set (ids := entry_id <$> kept) in *.
  set (lb := fresh (dom (heap w3))).
  set (w4 := World (<[lb := ODict {["modelsIds" := VRef lm]}]> (heap w3)) (trace w3)).
  assert (lm ≠ lb) as Hne by (by eapply fresh_ne).
  destruct (perform_json_body recursion_limit server w4 "GET" models_url (VRef lb)
              body answer) as (v & w5 & E5 & S5 & T5 & R5).
  { destruct recursion_limit as [|[|n]]; [lia..|].
    apply (read_ids_body n (heap w4) lm lb (VStr <$> ids) (JStr <$> ids)); [done| | |].
    - simpl. by rewrite lookup_insert_ne.
    - apply lookup_insert_eq.
    - apply Forall2_fmap, Forall_Forall2_diag, list.Forall_forall.
      intros s _. by destruct n. }
  { assert (requests w4 = S (requests w)) as ->; [|done].
    unfold w4, requests. simpl. rewrite T.
    rewrite list.filter_app, length_app. simpl. lia. }
  assert (DSSMLTask.get_trained_model_snippet recursion_limit server self None
            (Some (VRef lm)) w3 = (Ret v, w5)) as Esn.
  { unfold DSSMLTask.get_trained_model_snippet.
    rewrite (bind_Ret _ _ _ _ _ (alloc_run _ _)). fold lb w4.
    by rewrite (bind_Ret _ _ _ _ _ E5). }
  rewrite (bind_Ret _ _ _ _ _ Esn).
  exists v, w5. split; [done|]. split; [done|].
  rewrite T5. unfold w4. simpl. rewrite T. by rewrite <-app_assoc.
Qed.

End TrainedModelsIds.

Lemma items_read n w v m :
  read n (heap w) v = Some (JObject m) →
  ∃ pairs, items v w = (Ret pairs, w) ∧ NoDup pairs.*1 ∧
    (∀ k, k ∈ pairs.*1 ↔ is_Some (m !! k)) ∧
    Forall (λ p, ∃ s, m !! p.1 = Some s ∧ read (pred n) (heap w) p.2 = Some s) pairs.
Proof.
  intros R. destruct (read_object _ _ _ _ R) as (l & d & n' & -> & -> & Hl & Hd).
  exists (map_to_list d). unfold items. rewrite Hl. split; [done|].
  split; [apply NoDup_fst_map_to_list|]. split.
  - intros k. rewrite list_elem_of_fmap. split.
    + intros ([k' x] & -> & Hkx%elem_of_map_to_list). simpl.
      pose proof (Hd k') as Rk. rewrite Hkx in Rk. inversion Rk. by eexists.
    + intros [s Hs]. pose proof (Hd k) as Rk. rewrite Hs in Rk.
      inversion Rk as [x t Hx Ex Et|]; subst. exists (k, x). split; [done|].
      by apply elem_of_map_to_list.
  - apply list.Forall_forall. intros [k x] Hkx%elem_of_map_to_list. simpl.
    pose proof (Hd k) as Rk. rewrite Hkx in Rk.
    inversion Rk as [x' s Hx Ex Es|]; subst. by exists s.
Qed.

(** C9.  [get_trained_models_ids] returns the ['id'] of every entry of the
    status's [fullModelIds] when no filter is given, and with [session_id] it
    keeps the entries whose session identifier equals it, on either
    interpreter.  With [algorithm] it sends the second request, for the ids
    kept so far, and then calls [.iteritems()] on the decoded answer: on
    Python 3 this raises [AttributeError], whatever the server answered, and
    no list of ids is returned. *)
Theorem get_trained_models_ids_algorithm_raises (recursion_limit : nat)
    (server : nat → string → string → option json → response)
    (self : DSSMLTaskObject.t) (w : world)
    (st : gmap string json) (entries : list json) :
  let status_url := DSSMLTaskObject.lab self +:+ "/status" in
  let models_url := DSSMLTaskObject.lab self +:+ "/models-snippets" in
  let kept session_id :=
    match session_id with
    | None => entries
    | Some sid => filter (λ e, is_str (session_of e) sid) entries
    end in
  let body session_id :=
    JObject {["modelsIds" := JList (JStr <$> (entry_id <$> kept session_id))]} in
  2 ≤ recursion_limit →
  server (requests w) "GET" status_url None = Json (JObject st) →
  st !! "fullModelIds" = Some (JList entries) →
  Forall entry_ok entries →
  (∀ python session_id, ∃ l w',
     DSSMLTask.get_trained_models_ids python recursion_limit server self
       session_id None w = (Ret (VRef l), w') ∧
     heap w' !! l = Some (OList (VStr <$> (entry_id <$> kept session_id))) ∧
     trace w' = trace w ++ [EFetch "GET" status_url None]) ∧
  (∀ session_id algorithm answer,
     server (S (requests w)) "GET" models_url (Some (body session_id)) =
       Json answer →
     ∃ w',
       DSSMLTask.get_trained_models_ids Python3 recursion_limit server self
         session_id (Some algorithm) w = (Raise AttributeError, w') ∧
       trace w' = trace w ++ [EFetch "GET" status_url None;
                              EFetch "GET" models_url (Some (body session_id))]).
Proof.
  intros status_url models_url kept body Hlimit Hs Hids Hok. split.
  - intros python session_id.
    destruct (model_ids_prefix recursion_limit server self w st entries session_id
                (λ model_ids, mret model_ids) Hs Hids Hok) as (lm & w3 & E & Hlm & T).
    exists lm, w3. split; [exact E|done].
  - intros session_id algorithm answer Hsn.
    destruct (model_ids_snippets recursion_limit server self w st entries session_id
                answer
                (λ snippets,
                   pairs ← iteritems Python3 snippets;
                   kept ← filter_m (λ '(fmi, s),
                             alg ← dict_get s "algorithm" "";
                             mret (eq_str alg algorithm)) pairs;
                   alloc (OList (VStr <$> kept.*1))) Hlimit Hs Hids Hok Hsn)
      as (v & w5 & E & _ & T).
    exists w5. split; [|exact T].
    unfold DSSMLTask.get_trained_models_ids. rewrite E. reflexivity.
Qed.

Lemma get_trained_models_ids_algorithm_raises_witness :
  let server := Sample.two_step_server (JObject Sample.two_models_status)
                  Sample.kmeans_snippets in
  (∃ l w', DSSMLTask.get_trained_models_ids Python3 5 server Sample.task None None
             Sample.empty_world = (Ret (VRef l), w') ∧
           heap w' !! l = Some (OList [VStr "m1"; VStr "m2"])) ∧
  (∃ l w', DSSMLTask.get_trained_models_ids Python3 5 server Sample.task
             (Some "s2") None Sample.empty_world = (Ret (VRef l), w') ∧
           heap w' !! l = Some (OList [VStr "m2"])) ∧
  (∃ w', DSSMLTask.get_trained_models_ids Python3 5 server Sample.task (Some "s1")
           (Some "KMEANS") Sample.empty_world = (Raise AttributeError, w')).
Proof.
  intros server.
  destruct (get_trained_models_ids_algorithm_raises 5 server Sample.task
              Sample.empty_world Sample.two_models_status Sample.two_models)
    as [Hplain Halg].
  - lia.
  - reflexivity.
  - reflexivity.
  - repeat constructor; eexists _, _; (split; [reflexivity|]);
      (split; [reflexivity|]); right; eexists; reflexivity.
  - split; [|split].
    + destruct (Hplain Python3 None) as (l & w' & E & Hl & _).
      exists l, w'. split; [exact E|exact Hl].
    + destruct (Hplain Python3 (Some "s2")) as (l & w' & E & Hl & _). exists l, w'.
      split; [exact E|exact Hl].
    + destruct (Halg (Some "s1") "KMEANS" Sample.kmeans_snippets) as (w' & E & _).
      * reflexivity.
      * exists w'. exact E.
Defined.

(** On Python 2, where dictionaries have [iteritems], the algorithm filter
    returns exactly the model ids of the answer whose snippet has an
    ['algorithm'] equal to the one given. *)
Lemma get_trained_models_ids_python2 (recursion_limit : nat)
    (server : nat → string → string → option json → response)
    (self : DSSMLTaskObject.t) (w : world)
    (st : gmap string json) (entries : list json)
    (session_id : option string) (algorithm : string)
    (snippets : gmap string json) :
  let status_url := DSSMLTaskObject.lab self +:+ "/status" in
  let models_url := DSSMLTaskObject.lab self +:+ "/models-snippets" in
  let kept :=
    match session_id with
    | None => entries
    | Some sid => filter (λ e, is_str (session_of e) sid) entries
    end in
  let body := JObject {["modelsIds" := JList (JStr <$> (entry_id <$> kept))]} in
  2 ≤ recursion_limit →
  server (requests w) "GET" status_url None = Json (JObject st) →
  st !! "fullModelIds" = Some (JList entries) →
  Forall entry_ok entries →
  server (S (requests w)) "GET" models_url (Some body) = Json (JObject snippets) →
  map_Forall (λ _, is_object) snippets →
  ∃ l w' ids,
    DSSMLTask.get_trained_models_ids Python2 recursion_limit server self session_id
      (Some algorithm) w = (Ret (VRef l), w') ∧
    heap w' !! l = Some (OList (VStr <$> ids)) ∧
    NoDup ids ∧
    (∀ k, k ∈ ids ↔ ∃ s, snippets !! k = Some s ∧
                         is_str (algorithm_of s) algorithm = true) ∧
    trace w' = trace w ++ [EFetch "GET" status_url None;
                           EFetch "GET" models_url (Some body)].
Proof.
  intros status_url models_url kept body Hlimit Hs Hids Hok Hsn Hobj.
  destruct (model_ids_snippets recursion_limit server self w st entries session_id
              (JObject snippets)
              (λ snippets,
                 pairs ← iteritems Python2 snippets;
                 kept ← filter_m (λ '(fmi, s),
                           alg ← dict_get s "algorithm" "";
                           mret (eq_str alg algorithm)) pairs;
                 alloc (OList (VStr <$> kept.*1))) Hlimit Hs Hids Hok Hsn)
    as (v & w5 & E & R5 & T).
  unfold DSSMLTask.get_trained_models_ids. rewrite E. clear E.
  destruct (items_read _ _ _ _ R5) as (pairs & Ei & Hnd & Hdom & Hpairs).
  unfold iteritems. rewrite (bind_Ret _ _ _ _ _ Ei).
  erewrite bind_Ret; cycle 1.
  { apply (filter_m_algorithm (pred (jdepth (JObject snippets))) algorithm snippets).
    revert Hpairs. apply Forall_impl. intros p (s & Hp & Rp).
    exists s. split; [done|]. split; [by eapply Hobj|done]. }
  rewrite alloc_run. eexists _, _, _. split; [done|]. simpl.
  split; [apply lookup_insert_eq|]. split; [|split].
  - eapply sublist_NoDup; [exact Hnd|apply fmap_sublist, sublist_filter].
  - intros k. rewrite list_elem_of_fmap. split.
    + intros ([k' x] & -> & [Hp _]%list_elem_of_filter). simpl in *.
      apply Is_true_true in Hp. unfold has_algorithm in Hp.
      destruct (snippets !! k') as [s|]; [|done]. by exists s.
    + intros (s & Hk & Ha).
      pose proof (proj2 (Hdom k) (mk_is_Some _ _ Hk)) as Hin.
      apply list_elem_of_fmap in Hin as ([k' x] & Hkx & Hin).
      simpl in Hkx. subst k'. exists (k, x). split; [done|].
      apply list_elem_of_filter. split; [|done]. simpl.
      apply Is_true_true. unfold has_algorithm. by rewrite Hk.
  - exact T.
Qed.

Lemma get_trained_models_ids_python2_witness :
  let server := Sample.two_step_server (JObject Sample.two_models_status)
                  Sample.kmeans_snippets in
  ∃ l w' ids, DSSMLTask.get_trained_models_ids Python2 5 server Sample.task
                (Some "s1") (Some "KMEANS") Sample.empty_world = (Ret (VRef l), w') ∧
              heap w' !! l = Some (OList (VStr <$> ids)) ∧ "m1" ∈ ids.
Proof.
  intros server.
  destruct (get_trained_models_ids_python2 5 server Sample.task Sample.empty_world
              Sample.two_models_status Sample.two_models (Some "s1") "KMEANS"
              {["m1" := JObject {["algorithm" := JStr "KMEANS"]}]})
    as (l & w' & ids & E & Hl & _ & Hin & _).
  - lia.
  - reflexivity.
  - reflexivity.
  - repeat constructor; eexists _, _; (split; [reflexivity|]);
      (split; [reflexivity|]); right; eexists; reflexivity.
  - reflexivity.
  - intros k s [<- <-]%lookup_singleton_Some. by eexists.
  - exists l, w', ids. split; [exact E|]. split; [exact Hl|].
    apply Hin. eexists. split; reflexivity.
Defined.

(** ** DSSMLTaskSettings.remove_sample_weighting, use_sample_weighting *)

Lemma reset_cells_lookup cells h l :
  reset_cells cells h !! l =
  (λ o, if decide (l ∈ cells) then reset_role o else o) <$> h !! l.
Proof. unfold reset_cells. rewrite map_lookup_imap. by destruct (h !! l). Qed.

Lemma reset_cells_outside cells h l :
  l ∉ cells → reset_cells cells h !! l = h !! l.
Proof.
  intros Hl. rewrite reset_cells_lookup.
  destruct (h !! l); simpl; [by rewrite decide_False|done].
Qed.

Lemma reset_role_idemp o : reset_role (reset_role o) = reset_role o.
Proof.
  destruct o as [d|xs]; [|done]. simpl.
  destruct (d !! "role") as [role|] eqn:E; simpl; [|by rewrite E].
  destruct (eq_str role "WEIGHT") eqn:Er; simpl.
  - by rewrite lookup_insert_eq.
  - by rewrite E, Er.
Qed.

Lemma cells_of_elem pf names l :
  l ∈ cells_of pf names ↔ ∃ k, k ∈ names ∧ pf !! k = Some (VRef l).
Proof.
  unfold cells_of. rewrite elem_of_list_to_set, list_elem_of_omap. split.
  - intros (k & Hk & Hc). exists k. split; [done|]. unfold cell_of in Hc.
    destruct (pf !! k) as [[| | | |l']|]; naive_solver.
  - intros (k & Hk & Hp). exists k. split; [done|]. unfold cell_of. by rewrite Hp.
Qed.

Section Reset.

Import DSSMLTaskSettings.

Variables (self : DSSMLTaskSettings.t) (ls lp lpf : loc).
Variables (pf : gmap string value) (hb : gmap loc obj).
Hypothesis Hself : mltask_settings self = VRef ls.
Hypothesis Hpre : field hb ls "preprocessing" (VRef lp).
Hypothesis Hper : field hb lp "per_feature" (VRef lpf).
Hypothesis Hpf : hb !! lpf = Some (ODict pf).
Hypothesis Hfeatures :
  map_Forall (λ _ v, ∃ lf fd role,
    v = VRef lf ∧ hb !! lf = Some (ODict fd) ∧ fd !! "role" = Some role ∧
    lf ≠ ls ∧ lf ≠ lp ∧ lf ≠ lpf) pf.

Lemma cells_apart cells l :
  cells ⊆ feature_cells pf → l = ls ∨ l = lp ∨ l = lpf → l ∉ cells.
Proof using Hfeatures.
  intros Hsub Hl Hin. apply Hsub, cells_of_elem in Hin as (k & _ & Hk).
  destruct (Hfeatures k _ Hk) as (lf & fd & role & [= <-] & _ & _ & ? & ? & ?).
  by destruct Hl as [->|[->| ->]].
Qed.

Lemma field_reset cells l k x :
  cells ⊆ feature_cells pf → l = ls ∨ l = lp ∨ l = lpf →
  field hb l k x → field (reset_cells cells hb) l k x.
Proof using Hfeatures.
  intros Hsub Hl (d & Hd & Hk). exists d. split; [|done].
  rewrite reset_cells_outside; [done|]. by apply cells_apart.
Qed.

Lemma per_feature_reset cells tr :
  cells ⊆ feature_cells pf →
  per_feature self (World (reset_cells cells hb) tr) =
  (Ret (VRef lpf), World (reset_cells cells hb) tr).
Proof using Hself Hpre Hper Hfeatures.
  intros Hsub. unfold per_feature. rewrite Hself.
  erewrite bind_Ret; [|apply getitem_field; apply field_reset; eauto].
  apply getitem_field, field_reset; eauto.
Qed.

Lemma get_feature_reset cells tr k lf :
  cells ⊆ feature_cells pf → pf !! k = Some (VRef lf) →
  get_feature_preprocessing self (VStr k) (World (reset_cells cells hb) tr) =
  (Ret (VRef lf), World (reset_cells cells hb) tr).
Proof using Hself Hpre Hper Hpf Hfeatures.
  intros Hsub Hk. unfold get_feature_preprocessing. rewrite Hself.
  erewrite bind_Ret; [|apply getitem_field; apply field_reset; eauto].
  erewrite bind_Ret; [|apply getitem_field; apply field_reset; eauto].
  apply getitem_field. exists pf. split; [|done]. simpl.
  rewrite reset_cells_outside; [done|]. apply cells_apart; auto.
Qed.

(** One round of the reset loop, on the feature [k]. *)
Lemma reset_feature cells tr k lf :
  cells ⊆ feature_cells pf → pf !! k = Some (VRef lf) →
  (feature ← get_feature_preprocessing self (VStr k);
   role ← getitem feature "role";
   if eq_str role "WEIGHT" then
     feature ← get_feature_preprocessing self (VStr k);
     setitem feature "role" "INPUT"
   else mret ()) (World (reset_cells cells hb) tr) =
  (Ret (), World (reset_cells ({[lf]} ∪ cells) hb) tr).
Proof using Hself Hpre Hper Hpf Hfeatures.
  intros Hsub Hk.
  destruct (Hfeatures k _ Hk) as (? & fd & role & [= <-] & Hfd & Hrole & _).
  rewrite (bind_Ret _ _ _ _ _ (get_feature_reset cells tr k lf Hsub Hk)).
  assert (∀ o, reset_cells cells hb !! lf = Some o →
            reset_cells ({[lf]} ∪ cells) hb = <[lf := reset_role o]> (reset_cells cells hb))
    as Hstep.
  { intros o Ho. apply map_eq. intros l. rewrite lookup_insert.
    case_decide as Hl.
    - subst l. rewrite reset_cells_lookup in Ho |- *. rewrite Hfd in Ho |- *.
      cbn -[reset_role] in *. rewrite decide_True by set_solver.
      injection Ho as <-.
      destruct (decide (lf ∈ cells)); [|done].
      symmetry. exact (f_equal Some (reset_role_idemp (ODict fd))).
    - rewrite !reset_cells_lookup. destruct (hb !! l) as [o'|]; [|done]. simpl.
      destruct (decide (l ∈ cells)).
      + by rewrite decide_True by set_solver.
      + by rewrite decide_False by set_solver. }
  destruct (decide (lf ∈ cells)) as [Hin|Hout].
  - assert (reset_cells cells hb !! lf = Some (reset_role (ODict fd))) as Hlf.
    { rewrite reset_cells_lookup, Hfd. cbn -[reset_role]. by rewrite decide_True. }
    rewrite (Hstep _ Hlf), reset_role_idemp, insert_id by done.
    simpl in Hlf. rewrite Hrole in Hlf.
    destruct (eq_str role "WEIGHT") eqn:Er.
    + erewrite bind_Ret; cycle 1.
      { apply getitem_field. eexists. split; [exact Hlf|apply lookup_insert_eq]. }
      done.
    + erewrite bind_Ret; cycle 1.
      { apply getitem_field. eexists. split; [exact Hlf|exact Hrole]. }
      by rewrite Er.
  - assert (reset_cells cells hb !! lf = Some (ODict fd)) as Hlf.
    { by rewrite reset_cells_outside. }
    rewrite (Hstep _ Hlf).
    erewrite bind_Ret; cycle 1.
    { apply getitem_field. eexists. split; [exact Hlf|exact Hrole]. }
    simpl. rewrite Hrole. destruct (eq_str role "WEIGHT") eqn:Er.
    + rewrite (bind_Ret _ _ _ _ _ (get_feature_reset cells tr k lf Hsub Hk)).
      by rewrite (setitem_dict (World _ _) _ _ _ _ Hlf).
    + unfold mret, M_ret, ret. rewrite ?Er. by rewrite insert_id.
Qed.

Lemma reset_loop names : ∀ cells tr,
  cells ⊆ feature_cells pf → names ⊆ (map_to_list pf).*1 →
  for_each (VStr <$> names) (λ feature_name,
    feature ← get_feature_preprocessing self feature_name;
    role ← getitem feature "role";
    if eq_str role "WEIGHT" then
      feature ← get_feature_preprocessing self feature_name;
      setitem feature "role" "INPUT"
    else mret ()) (World (reset_cells cells hb) tr) =
  (Ret (), World (reset_cells (cells_of pf names ∪ cells) hb) tr).
Proof using Hself Hpre Hper Hpf Hfeatures.
  induction names as [|k names IH]; intros cells tr Hsub Hnames.
  - simpl. unfold ret. do 3 f_equal. unfold cells_of. simpl. set_solver.
  - assert (k ∈ (map_to_list pf).*1) as Hk by (apply Hnames; left).
    apply list_elem_of_fmap in Hk as ([k' v] & -> & Hkv%elem_of_map_to_list).
    simpl in *.
    destruct (Hfeatures _ _ Hkv) as (lf & fd & role & -> & _).
    cbn [fmap list_fmap for_each]. unfold bind.
    rewrite (reset_feature cells tr k' lf Hsub Hkv).
    rewrite IH; cycle 1.
    { apply union_subseteq. split; [|done]. apply singleton_subseteq_l.
      apply cells_of_elem. exists k'. split; [|done].
      apply list_elem_of_fmap. exists (k', VRef lf). split; [done|].
      by apply elem_of_map_to_list. }
    { intros x Hx. apply Hnames. by right. }
    do 3 f_equal. unfold cells_of. simpl. unfold cell_of at 2. rewrite Hkv.
    simpl. set_solver.
Qed.

End Reset.

Lemma reset_cells_empty h : reset_cells ∅ h = h.
Proof.
  apply map_eq. intros l. rewrite reset_cells_outside; [done|]. set_solver.
Qed.

Lemma field_insert_ne h l k x l' o :
  l ≠ l' → field h l k x → field (<[l' := o]> h) l k x.
Proof. intros Hne (d & E1 & E2). exists d. by rewrite lookup_insert_ne. Qed.

Section Weighting.

Import DSSMLTaskSettings.

Variables (self : DSSMLTaskSettings.t) (ls lw lp lpf : loc).
Variables (wd pf : gmap string value) (w : world).
Hypothesis Hself : mltask_settings self = VRef ls.
Hypothesis Hlayout : weighting_layout ls lw lp lpf wd pf (heap w).

(** The heap once [weightMethod] is reset, and once the roles are. *)
#[local] Abbreviation h1 :=
  (<[lw := ODict (<["weightMethod" := VStr "NO_WEIGHTING"]> wd)]> (heap w)).
#[local] Abbreviation hr := (reset_cells (feature_cells pf) h1).

Lemma layout_after_weight :
  field h1 ls "preprocessing" (VRef lp) ∧ field h1 lp "per_feature" (VRef lpf) ∧
  h1 !! lpf = Some (ODict pf) ∧
  map_Forall (λ _ v, ∃ lf fd role,
    v = VRef lf ∧ h1 !! lf = Some (ODict fd) ∧ fd !! "role" = Some role ∧
    lf ≠ ls ∧ lf ≠ lp ∧ lf ≠ lpf) pf.
Proof using Hlayout.
  destruct Hlayout as (_ & _ & Hpre & Hper & Hpf & N1 & N2 & N3 & Hfeat).
  split; [by apply field_insert_ne|]. split; [by apply field_insert_ne|].
  split; [by rewrite lookup_insert_ne|].
  intros k v Hk. destruct (Hfeat k v Hk) as (lf & fd & role & -> & Hfd & Hr & ? & ? & ? & ?).
  exists lf, fd, role. by rewrite lookup_insert_ne.
Qed.

Lemma remove_sample_weighting_run :
  remove_sample_weighting self w = (Ret (), World hr (trace w)).
Proof using Hself Hlayout.
  destruct layout_after_weight as (Hpre & Hper & Hpf & Hfeat).
  destruct Hlayout as (Hweight & Hwd & _).
  unfold remove_sample_weighting. rewrite Hself.
  rewrite (bind_Ret _ _ _ _ _ (getitem_field _ _ _ _ Hweight)).
  rewrite (bind_Ret _ _ _ _ _ (setitem_dict _ _ _ _ _ Hwd)).
  rewrite <-(reset_cells_empty h1).
  rewrite (bind_Ret _ _ _ _ _
             (per_feature_reset self ls lp lpf pf h1 Hself Hpre Hper Hfeat ∅ (trace w)
                (empty_subseteq _))).
  assert (iter (VRef lpf) (World (reset_cells ∅ h1) (trace w)) =
          (Ret (VStr <$> (map_to_list pf).*1), World (reset_cells ∅ h1) (trace w)))
    as Hiter.
  { unfold iter. simpl. by rewrite reset_cells_empty, Hpf. }
  rewrite (bind_Ret _ _ _ _ _ Hiter).
  rewrite (reset_loop self ls lp lpf pf h1 Hself Hpre Hper Hpf Hfeat
             (map_to_list pf).*1 ∅ (trace w)); [|set_solver|done].
  do 3 f_equal; [|by rewrite reset_cells_empty]. unfold feature_cells. set_solver.
Qed.

Lemma weight_cell_apart : lw ∉ feature_cells pf.
Proof using Hlayout.
  destruct Hlayout as (_ & _ & _ & _ & _ & _ & _ & _ & Hfeat).
  intros (k & _ & Hk)%cells_of_elem.
  destruct (Hfeat k _ Hk) as (lf & fd & role & [= <-] & _ & _ & _ & ? & _). done.
Qed.

Lemma use_sample_weighting_absent name :
  pf !! name = None →
  use_sample_weighting self name w =
  (Raise (ValueError ("Feature " +:+ name +:+
                      " doesn't exist in this ML task, can't use as weight")),
   World hr (trace w)).
Proof using Hself Hlayout.
  intros Hname.
  destruct layout_after_weight as (Hpre & Hper & Hpf & Hfeat).
  unfold use_sample_weighting.
  rewrite (bind_Ret _ _ _ _ _ remove_sample_weighting_run).
  rewrite (bind_Ret _ _ _ _ _
             (per_feature_reset self ls lp lpf pf h1 Hself Hpre Hper Hfeat _ (trace w)
                (reflexivity _))).
  erewrite bind_Ret; cycle 1.
  { unfold contains. simpl. rewrite reset_cells_outside, Hpf; [done|].
    apply (cells_apart ls lp lpf pf h1 Hfeat); auto. }
  rewrite bool_decide_eq_false_2; [done|]. rewrite Hname. by intros [??].
Qed.

Lemma use_sample_weighting_present name lf fd :
  pf !! name = Some (VRef lf) → heap w !! lf = Some (ODict fd) →
  use_sample_weighting self name w =
  (Ret (), World
     (<[lf := ODict (<["role" := VStr "WEIGHT"]> fd)]> (
      <[lw := ODict (<["sampleWeightVariable" := VStr name]> (
                     <["weightMethod" := VStr "SAMPLE_WEIGHT"]> wd))]> (
      reset_cells (feature_cells pf) (heap w)))) (trace w)).
Proof using Hself Hlayout.
  intros Hname Hfd.
  destruct layout_after_weight as (Hpre & Hper & Hpf & Hfeat).
  pose proof weight_cell_apart as Hlw.
  destruct Hlayout as (Hweight & Hwd & Hpre0 & Hper0 & Hpf0 & N1 & N2 & N3 & Hfeat0).
  destruct (Hfeat0 _ _ Hname) as (? & fd0 & role & [= <-] & Hfd0 & Hrole & L1 & L2 & L3 & L4).
  assert (fd0 = fd) as -> by congruence.
  assert (∀ l, l = ls ∨ l = lp ∨ l = lpf → l ∉ feature_cells pf) as Hapart.
  { intros l Hl. by apply (cells_apart ls lp lpf pf h1 Hfeat). }
  assert (lf ∈ feature_cells pf) as Hlf.
  { apply cells_of_elem. exists name. split; [|done].
    apply list_elem_of_fmap. exists (name, VRef lf). split; [done|].
    by apply elem_of_map_to_list. }
  unfold use_sample_weighting.
  rewrite (bind_Ret _ _ _ _ _ remove_sample_weighting_run).
  rewrite (bind_Ret _ _ _ _ _
             (per_feature_reset self ls lp lpf pf h1 Hself Hpre Hper Hfeat _ (trace w)
                (reflexivity _))).
  erewrite bind_Ret; cycle 1.
  { unfold contains. simpl. rewrite reset_cells_outside, Hpf; [done|]. auto. }
  rewrite bool_decide_eq_true_2 by (by rewrite Hname). simpl.
  set (A0 := <["weightMethod" := VStr "NO_WEIGHTING"]> wd).
  set (A1 := <["weightMethod" := VStr "SAMPLE_WEIGHT"]> A0).
  set (A2 := <["sampleWeightVariable" := VStr name]> A1).
  set (R1 := <[lw := ODict A1]> hr).
  set (R2 := <[lw := ODict A2]> R1).
  assert (hr !! lw = Some (ODict A0)) as Hw0.
  { rewrite reset_cells_outside by done. apply lookup_insert_eq. }
  assert (∀ l k x, l = ls ∨ l = lp ∨ l = lpf → field (heap w) l k x → field R2 l k x)
    as Hkeep.
  { intros l k x Hl Hf. assert (l ≠ lw) by (by destruct Hl as [->|[->| ->]]).
    do 2 (apply field_insert_ne; [done|]).
    apply (field_reset ls lp lpf pf h1 Hfeat); [done|done|].
    by apply field_insert_ne. }
  rewrite Hself.
  erewrite bind_Ret; cycle 1.
  { apply getitem_field. simpl.
    apply (field_reset ls lp lpf pf h1 Hfeat); [done|by left|].
    by apply field_insert_ne. }
  rewrite (bind_Ret _ _ _ _ _ (setitem_dict (World _ _) _ _ _ _ Hw0)).
  erewrite bind_Ret; cycle 1.
  { apply getitem_field. simpl. fold A1 R1. apply field_insert_ne; [done|].
    apply (field_reset ls lp lpf pf h1 Hfeat); [done|by left|].
    by apply field_insert_ne. }
  erewrite bind_Ret; cycle 1.
  { apply setitem_dict. simpl. apply lookup_insert_eq. }
  simpl. fold A0 A1 A2 R1 R2.
  assert (get_feature_preprocessing self (VStr name) (World R2 (trace w)) =
          (Ret (VRef lf), World R2 (trace w))) as Hget.
  { unfold get_feature_preprocessing. rewrite Hself.
    erewrite bind_Ret; [|apply getitem_field, Hkeep; [by left|exact Hpre0]].
    erewrite bind_Ret; [|apply getitem_field, Hkeep; [right; by left|exact Hper0]].
    apply getitem_field. exists pf. split; [|done]. simpl. unfold R2, R1.
    rewrite !lookup_insert_ne by done. rewrite reset_cells_outside by auto.
    exact Hpf. }
  rewrite (bind_Ret _ _ _ _ _ Hget).
  assert (∃ fd', R2 !! lf = Some (ODict fd') ∧
                 <["role" := VStr "WEIGHT"]> fd' = <["role" := VStr "WEIGHT"]> fd)
    as (fd' & Hfd' & Hsame).
  { unfold R2, R1. rewrite !lookup_insert_ne by done.
    rewrite reset_cells_lookup, lookup_insert_ne, Hfd by done.
    cbn -[reset_role]. rewrite decide_True by done. simpl. rewrite Hrole.
    destruct (eq_str role "WEIGHT").
    - eexists. split; [done|]. by rewrite insert_insert_eq.
    - by eexists. }
  rewrite (setitem_dict (World _ _) _ _ _ _ Hfd'). simpl. rewrite Hsame.
  do 2 f_equal. unfold R2, R1, A2, A1, A0. rewrite insert_insert_eq.
  apply map_eq. intros l. rewrite !lookup_insert.
  case_decide; [done|]. case_decide as Hl.
  - by rewrite insert_insert_eq.
  - rewrite !reset_cells_lookup. by rewrite lookup_insert_ne.
Qed.

End Weighting.

(** C5.  On settings laid out as the methods expect, [use_sample_weighting]
    first runs the reset step of [remove_sample_weighting], whose outcome is
    the heap [reset]: [weight.weightMethod] is ['NO_WEIGHTING'], the feature
    mappings of [per_feature] have gone through [reset_role] (role ['WEIGHT']
    becomes ['INPUT'], nothing else moves) and every other object, the other
    keys of [weight] included, is as it was.  For a name absent from
    [per_feature] the call then raises the validation error and leaves
    exactly that heap.  For a name present in [per_feature] it returns with
    [weightMethod = 'SAMPLE_WEIGHT'], [sampleWeightVariable] the name and the
    role of that feature ['WEIGHT'], over the reset heap. *)
Theorem use_sample_weighting_validates (self : DSSMLTaskSettings.t)
    (ls lw lp lpf : loc) (wd pf : gmap string value) (w : world) (name : string) :
  DSSMLTaskSettings.mltask_settings self = VRef ls →
  weighting_layout ls lw lp lpf wd pf (heap w) →
  let reset :=
    reset_cells (feature_cells pf)
      (<[lw := ODict (<["weightMethod" := VStr "NO_WEIGHTING"]> wd)]> (heap w)) in
  (reset !! lw = Some (ODict (<["weightMethod" := VStr "NO_WEIGHTING"]> wd)) ∧
   (∀ k lf, pf !! k = Some (VRef lf) → reset !! lf = reset_role <$> heap w !! lf) ∧
   (∀ l, l ≠ lw → l ∉ feature_cells pf → reset !! l = heap w !! l)) ∧
  DSSMLTaskSettings.remove_sample_weighting self w =
    (Ret (), World reset (trace w)) ∧
  (pf !! name = None →
   DSSMLTaskSettings.use_sample_weighting self name w =
     (Raise (ValueError ("Feature " +:+ name +:+
                         " doesn't exist in this ML task, can't use as weight")),
      World reset (trace w))) ∧
  (∀ lf fd, pf !! name = Some (VRef lf) → heap w !! lf = Some (ODict fd) →
   DSSMLTaskSettings.use_sample_weighting self name w =
     (Ret (), World
        (<[lf := ODict (<["role" := VStr "WEIGHT"]> fd)]> (
         <[lw := ODict (<["sampleWeightVariable" := VStr name]> (
                        <["weightMethod" := VStr "SAMPLE_WEIGHT"]> wd))]> (
         reset_cells (feature_cells pf) (heap w)))) (trace w))).
Proof.
  intros Hself Hlayout reset. split; [|split; [|split]].
  - pose proof (weight_cell_apart ls lw lp lpf wd pf w Hlayout) as Hlw.
    unfold reset. split; [|split].
    + rewrite reset_cells_outside by done. apply lookup_insert_eq.
    + intros k lf Hk.
      destruct Hlayout as (_ & _ & _ & _ & _ & _ & _ & _ & Hfeat).
      destruct (Hfeat _ _ Hk) as (? & fd & role & [= <-] & Hfd & _ & _ & L2 & _).
      rewrite reset_cells_lookup, lookup_insert_ne, Hfd by done.
      cbn -[reset_role]. rewrite decide_True; [done|].
      apply cells_of_elem. exists k. split; [|done].
      apply list_elem_of_fmap. exists (k, VRef lf). split; [done|].
      by apply elem_of_map_to_list.
    + intros l Hl Hout. rewrite reset_cells_outside by done.
      by rewrite lookup_insert_ne.
  - exact (remove_sample_weighting_run self ls lw lp lpf wd pf w Hself Hlayout).
  - exact (use_sample_weighting_absent self ls lw lp lpf wd pf w Hself Hlayout name).
  - exact (use_sample_weighting_present self ls lw lp lpf wd pf w Hself Hlayout name).
Qed.

Lemma use_sample_weighting_validates_witness :
  DSSMLTaskSettings.use_sample_weighting Sample.metrics_settings "f1"
    Sample.weighting_world =
    (Raise (ValueError "Feature f1 doesn't exist in this ML task, can't use as weight"),
     World (<[5%positive := ODict {["role" := VStr "INPUT"]}]> (
            <[2%positive := ODict (<["weightMethod" := VStr "NO_WEIGHTING"]>
                 {["sampleWeightVariable" := VStr "w0"]})]>
            (heap Sample.weighting_world))) []).
Proof.
  destruct (use_sample_weighting_validates Sample.metrics_settings
              1%positive 2%positive 3%positive 4%positive
              (<["weightMethod" := VStr "SAMPLE_WEIGHT"]>
                 {["sampleWeightVariable" := VStr "w0"]})
              (<["w0" := VRef 5%positive]> {["a" := VRef 6%positive]})
              Sample.weighting_world "f1") as (_ & _ & Habsent & _).
  - reflexivity.
  - repeat split; try (eexists; split; reflexivity); try done.
    apply map_Forall_insert_2; [|apply map_Forall_singleton].
    + exists 5%positive, {["role" := VStr "WEIGHT"]}, (VStr "WEIGHT").
      repeat split; done.
    + exists 6%positive, {["role" := VStr "INPUT"]}, (VStr "INPUT").
      repeat split; done.
  - rewrite (Habsent eq_refl). reflexivity.
Defined.

(** * Further properties *)

(** ** PredictionSplitParamsHandler.set_split_random, set_split_kfold *)

Lemma setitem_again h tr l d k x :
  setitem (VRef l) k x (World (<[l := ODict d]> h) tr) =
  (Ret (), World (<[l := ODict (<[k := x]> d)]> h) tr).
Proof.
  rewrite (setitem_dict (World _ _) l d) by apply lookup_insert_eq.
  simpl. by rewrite insert_insert_eq.
Qed.

Lemma store_again h tr l d k a :
  PredictionSplitParamsHandler.store (VRef l) k a (World (<[l := ODict d]> h) tr) =
  (Ret (), World (<[l := ODict (with_argument k a d)]> h) tr).
Proof.
  rewrite (store_run (World _ _) l d) by apply lookup_insert_eq.
  simpl. by rewrite insert_insert_eq.
Qed.

Lemma name_again h tr l d (dataset_name : option string) :
  match dataset_name with
  | Some dataset_name => setitem (VRef l) "ssdDatasetSmartName" dataset_name
  | None => mret ()
  end (World (<[l := ODict d]> h) tr) =
  (Ret (), World (<[l := ODict (with_name dataset_name d)]> h) tr).
Proof. destruct dataset_name; [apply setitem_again|done]. Qed.

Lemma set_split_random_run ls lsp sp w ratio selection dataset_name :
  field (heap w) ls "splitParams" (VRef lsp) →
  heap w !! lsp = Some (ODict sp) →
  PredictionSplitParamsHandler.set_split_random (VRef ls) ratio selection dataset_name w =
  (Ret (), World (<[lsp := ODict (
      with_name dataset_name (
      <["kfold" := VBool false]> (
      <["ssdTrainingRatio" := ratio]> (
      with_argument "ssdSelection" selection (
      <["ttPolicy" := VStr "SPLIT_SINGLE_DATASET"]> sp)))))]> (heap w)) (trace w)).
Proof.
  intros Hsp Hl. unfold PredictionSplitParamsHandler.set_split_random.
  rewrite (bind_Ret _ _ _ _ _ (getitem_field _ _ _ _ Hsp)).
  rewrite (bind_Ret _ _ _ _ _ (setitem_dict _ _ _ _ _ Hl)).
  rewrite (bind_Ret _ _ _ _ _ (store_again _ _ _ _ _ _)).
  rewrite (bind_Ret _ _ _ _ _ (setitem_again _ _ _ _ _ _)).
  rewrite (bind_Ret _ _ _ _ _ (setitem_again _ _ _ _ _ _)).
  apply name_again.
Qed.

Lemma set_split_kfold_run ls lsp sp w n_folds selection dataset_name :
  field (heap w) ls "splitParams" (VRef lsp) →
  heap w !! lsp = Some (ODict sp) →
  PredictionSplitParamsHandler.set_split_kfold (VRef ls) n_folds selection dataset_name w =
  (Ret (), World (<[lsp := ODict (
      with_name dataset_name (
      <["nFolds" := n_folds]> (
      <["kfold" := VBool true]> (
      with_argument "ssdSelection" selection (
      <["ttPolicy" := VStr "SPLIT_SINGLE_DATASET"]> sp)))))]> (heap w)) (trace w)).
Proof.
  intros Hsp Hl. unfold PredictionSplitParamsHandler.set_split_kfold.
  rewrite (bind_Ret _ _ _ _ _ (getitem_field _ _ _ _ Hsp)).
  rewrite (bind_Ret _ _ _ _ _ (setitem_dict _ _ _ _ _ Hl)).
  rewrite (bind_Ret _ _ _ _ _ (store_again _ _ _ _ _ _)).
  rewrite (bind_Ret _ _ _ _ _ (setitem_again _ _ _ _ _ _)).
  rewrite (bind_Ret _ _ _ _ _ (setitem_again _ _ _ _ _ _)).
  apply name_again.
Qed.

(** The single-dataset setters write into the [splitParams] dictionary and
    nowhere else: [set_split_random] sets the policy, the ratio and
    [kfold = False]; a selection or dataset name that is [None] leaves the
    stored one as it was, and every other key of the dictionary is kept. *)
Theorem set_split_random_writes (ls lsp : loc) (sp : gmap string value) (w : world)
    (ratio : value) (selection : option PredictionSplitParamsHandler.argument)
    (dataset_name : option string) :
  field (heap w) ls "splitParams" (VRef lsp) →
  heap w !! lsp = Some (ODict sp) →
  PredictionSplitParamsHandler.set_split_random (VRef ls) ratio selection dataset_name w =
  (Ret (), World (<[lsp := ODict (
      with_name dataset_name (
      <["kfold" := VBool false]> (
      <["ssdTrainingRatio" := ratio]> (
      with_argument "ssdSelection" selection (
      <["ttPolicy" := VStr "SPLIT_SINGLE_DATASET"]> sp)))))]> (heap w)) (trace w)).
Proof.
  intros Hsp Hl. unfold PredictionSplitParamsHandler.set_split_random.
  rewrite (bind_Ret _ _ _ _ _ (getitem_field _ _ _ _ Hsp)).
  rewrite (bind_Ret _ _ _ _ _ (setitem_dict _ _ _ _ _ Hl)).
  rewrite (bind_Ret _ _ _ _ _ (store_again _ _ _ _ _ _)).
  rewrite (bind_Ret _ _ _ _ _ (setitem_again _ _ _ _ _ _)).
  rewrite (bind_Ret _ _ _ _ _ (setitem_again _ _ _ _ _ _)).
  apply name_again.
Qed.

Lemma set_split_random_writes_witness :
  PredictionSplitParamsHandler.set_split_random (VRef 1%positive) (VInt 1) None
    (Some "customers") Sample.split_world =
  (Ret (), World (<[2%positive := ODict (
      <["ssdDatasetSmartName" := VStr "customers"]> (
      <["kfold" := VBool false]> (
      <["ssdTrainingRatio" := VInt 1]> (
      <["ttPolicy" := VStr "SPLIT_SINGLE_DATASET"]> ∅))))]>
      (heap Sample.split_world)) []).
Proof.
  apply (set_split_random_writes 1%positive 2%positive ∅ Sample.split_world
           (VInt 1) None (Some "customers")).
  - eexists. split; reflexivity.
  - reflexivity.
Defined.



(** Switching from k-fold back to a random split does not clear what k-fold
    wrote: after [set_split_kfold] then [set_split_random] the dictionary
    holds [kfold = False] and the new ratio, and still the [nFolds] of
    the earlier call. *)
Theorem set_split_random_keeps_folds (ls lsp : loc) (sp : gmap string value)
    (w : world) (n_folds ratio : value)
    (selection selection' : option PredictionSplitParamsHandler.argument)
    (dataset_name dataset_name' : option string) :
  field (heap w) ls "splitParams" (VRef lsp) →
  heap w !! lsp = Some (ODict sp) →
  ∃ w',
    (PredictionSplitParamsHandler.set_split_kfold (VRef ls) n_folds selection dataset_name;;
     PredictionSplitParamsHandler.set_split_random (VRef ls) ratio selection' dataset_name') w =
      (Ret (), w') ∧
    field (heap w') lsp "nFolds" n_folds ∧
    field (heap w') lsp "kfold" (VBool false) ∧
    field (heap w') lsp "ssdTrainingRatio" ratio ∧
    field (heap w') lsp "ttPolicy" (VStr "SPLIT_SINGLE_DATASET").
Proof.
  intros Hsp Hl.
  rewrite (bind_Ret _ _ _ _ _ (set_split_kfold_run _ _ _ _ n_folds selection dataset_name Hsp Hl)).
  set (d1 := with_name dataset_name _).
  assert (field (<[lsp := ODict d1]> (heap w)) ls "splitParams" (VRef lsp)) as Hsp'.
  { destruct Hsp as (d & Hd & Hk). destruct (decide (ls = lsp)) as [->|Hne].
    - exists d1. rewrite lookup_insert_eq. split; [done|].
      assert (d = sp) as -> by congruence.
      unfold d1, with_name, with_argument.
      destruct dataset_name, selection; by rewrite !lookup_insert_ne.
    - exists d. by rewrite lookup_insert_ne. }
  rewrite (set_split_random_run ls lsp d1 (World _ _) ratio selection' dataset_name' Hsp')
    by apply lookup_insert_eq.
  eexists. split; [done|]. simpl. rewrite insert_insert_eq.
  repeat split; eexists; (split; [apply lookup_insert_eq|]);
    unfold d1, with_name, with_argument;
    destruct dataset_name', selection', dataset_name, selection;
    by repeat first [rewrite lookup_insert_eq | rewrite lookup_insert_ne by done].
Qed.

Lemma set_split_random_keeps_folds_witness :
  ∃ w',
    (PredictionSplitParamsHandler.set_split_kfold (VRef 1%positive) (VInt 5) None None;;
     PredictionSplitParamsHandler.set_split_random (VRef 1%positive) (VInt 1) None None)
      Sample.split_world = (Ret (), w') ∧
    field (heap w') 2%positive "nFolds" (VInt 5) ∧
    field (heap w') 2%positive "kfold" (VBool false).
Proof.
  destruct (set_split_random_keeps_folds 1%positive 2%positive ∅ Sample.split_world
              (VInt 5) (VInt 1) None None None None) as (w' & E & H1 & H2 & _).
  - eexists. split; reflexivity.
  - reflexivity.
  - exists w'. split; [exact E|]. split; [exact H1|exact H2].
Defined.

(** ** DSSMLTaskSettings.reject_feature, use_feature *)

Lemma get_feature_preprocessing_run self ls lp lpf pf w (name : string) :
  DSSMLTaskSettings.mltask_settings self = VRef ls →
  features_at ls lp lpf pf (heap w) →
  DSSMLTaskSettings.get_feature_preprocessing self name w =
  match pf !! name with
  | Some x => (Ret x, w)
  | None => (Raise (KeyError (VStr name)), w)
  end.
Proof.
  intros Hself (Hpre & Hper & Hpf).
  unfold DSSMLTaskSettings.get_feature_preprocessing. rewrite Hself.
  rewrite (bind_Ret _ _ _ _ _ (getitem_field _ _ _ _ Hpre)).
  rewrite (bind_Ret _ _ _ _ _ (getitem_field _ _ _ _ Hper)).
  unfold getitem. rewrite Hpf. by destruct (pf !! name).
Qed.

(** [reject_feature] and [use_feature] write the role of the named feature,
    ['REJECT'] and ['INPUT'], into the feature's own dictionary and change
    nothing else; for a name that [per_feature] does not hold they raise
    [KeyError] with that name and leave the settings as they were. *)
Theorem reject_feature_sets_role (self : DSSMLTaskSettings.t) (ls lp lpf : loc)
    (pf : gmap string value) (w : world) (name : string) :
  DSSMLTaskSettings.mltask_settings self = VRef ls →
  features_at ls lp lpf pf (heap w) →
  (pf !! name = None →
     DSSMLTaskSettings.reject_feature self name w = (Raise (KeyError (VStr name)), w) ∧
     DSSMLTaskSettings.use_feature self name w = (Raise (KeyError (VStr name)), w)) ∧
  (∀ lf fd, pf !! name = Some (VRef lf) → heap w !! lf = Some (ODict fd) →
     DSSMLTaskSettings.reject_feature self name w =
       (Ret (), World (<[lf := ODict (<["role" := VStr "REJECT"]> fd)]> (heap w))
                      (trace w)) ∧
     DSSMLTaskSettings.use_feature self name w =
       (Ret (), World (<[lf := ODict (<["role" := VStr "INPUT"]> fd)]> (heap w))
                      (trace w))).
Proof.
  intros Hself Hat.
  pose proof (get_feature_preprocessing_run self ls lp lpf pf w name Hself Hat) as Hget.
  split.
  - intros Hname. rewrite Hname in Hget.
    unfold DSSMLTaskSettings.reject_feature, DSSMLTaskSettings.use_feature.
    by rewrite !(bind_Raise _ _ _ _ _ Hget).
  - intros lf fd Hname Hfd. rewrite Hname in Hget.
    unfold DSSMLTaskSettings.reject_feature, DSSMLTaskSettings.use_feature.
    rewrite !(bind_Ret _ _ _ _ _ Hget).
    by rewrite !(setitem_dict _ _ _ _ _ Hfd).
Qed.

Lemma reject_feature_sets_role_witness :
  DSSMLTaskSettings.reject_feature Sample.metrics_settings "a" Sample.features_world =
    (Ret (), World (<[5%positive := ODict (<["role" := VStr "REJECT"]> (
                        <["role" := VStr "INPUT"]> {["type" := VStr "CATEGORY"]}))]>
                      (heap Sample.features_world)) []) ∧
  DSSMLTaskSettings.reject_feature Sample.metrics_settings "zz" Sample.features_world =
    (Raise (KeyError (VStr "zz")), Sample.features_world).
Proof.
  destruct (reject_feature_sets_role Sample.metrics_settings 1%positive 2%positive
              3%positive
              (<["y" := VRef 4%positive]> (<["a" := VRef 5%positive]>
                 {["b" := VRef 6%positive]}))
              Sample.features_world "a") as [_ Ha].
  { reflexivity. }
  { split; [|split]; by try (eexists; split; reflexivity). }
  destruct (reject_feature_sets_role Sample.metrics_settings 1%positive 2%positive
              3%positive
              (<["y" := VRef 4%positive]> (<["a" := VRef 5%positive]>
                 {["b" := VRef 6%positive]}))
              Sample.features_world "zz") as [Hz _].
  { reflexivity. }
  { split; [|split]; by try (eexists; split; reflexivity). }
  split.
  - apply (Ha 5%positive (<["role" := VStr "INPUT"]> {["type" := VStr "CATEGORY"]}));
      reflexivity.
  - apply Hz. reflexivity.
Defined.

(** Rejecting an input feature and using it again is a round trip: the
    settings are back to what they were. *)
Theorem reject_then_use_restores (self : DSSMLTaskSettings.t) (ls lp lpf lf : loc)
    (pf fd : gmap string value) (w : world) (name : string) :
  DSSMLTaskSettings.mltask_settings self = VRef ls →
  features_at ls lp lpf pf (heap w) →
  pf !! name = Some (VRef lf) →
  heap w !! lf = Some (ODict fd) →
  lf ≠ ls → lf ≠ lp → lf ≠ lpf →
  fd !! "role" = Some (VStr "INPUT") →
  (DSSMLTaskSettings.reject_feature self name;;
   DSSMLTaskSettings.use_feature self name) w = (Ret (), w).
Proof.
  intros Hself Hat Hname Hfd N1 N2 N3 Hrole.
  pose proof (get_feature_preprocessing_run self ls lp lpf pf w name Hself Hat) as Hget.
  rewrite Hname in Hget.
  unfold DSSMLTaskSettings.reject_feature at 1.
  erewrite bind_Ret; cycle 1.
  { rewrite (bind_Ret _ _ _ _ _ Hget). by apply setitem_dict. }
  set (w1 := World _ _).
  assert (features_at ls lp lpf pf (heap w1)) as Hat1.
  { destruct Hat as (Hpre & Hper & Hpf). unfold w1. simpl.
    split; [by apply field_insert_ne|]. split; [by apply field_insert_ne|].
    by rewrite lookup_insert_ne. }
  pose proof (get_feature_preprocessing_run self ls lp lpf pf w1 name Hself Hat1) as Hget1.
  rewrite Hname in Hget1.
  unfold DSSMLTaskSettings.use_feature.
  rewrite (bind_Ret _ _ _ _ _ Hget1).
  rewrite (setitem_dict w1 lf (<["role" := VStr "REJECT"]> fd)) by apply lookup_insert_eq.
  unfold w1. simpl. rewrite !insert_insert_eq.
  rewrite (insert_id fd) by done. rewrite insert_id by done. by destruct w.
Qed.

Lemma reject_then_use_restores_witness :
  (DSSMLTaskSettings.reject_feature Sample.metrics_settings "a";;
   DSSMLTaskSettings.use_feature Sample.metrics_settings "a") Sample.features_world =
  (Ret (), Sample.features_world).
Proof.
  apply (reject_then_use_restores Sample.metrics_settings 1%positive 2%positive
           3%positive 5%positive
           (<["y" := VRef 4%positive]> (<["a" := VRef 5%positive]>
              {["b" := VRef 6%positive]}))
           (<["role" := VStr "INPUT"]> {["type" := VStr "CATEGORY"]})
           Sample.features_world "a"); try done.
  split; [|split]; by try (eexists; split; reflexivity).
Defined.

Section WeightRole.

Import DSSMLTaskSettings.

(** ** Sample weighting: at most one weight, and a reset that is idempotent *)

Lemma reset_role_not_weight d :
  ∃ d', reset_role (ODict d) = ODict d' ∧ d' !! "role" ≠ Some (VStr "WEIGHT").
Proof.
  unfold reset_role. destruct (d !! "role") as [role|] eqn:E.
  - destruct (eq_str role "WEIGHT") eqn:Er.
    + eexists. split; [done|]. by rewrite lookup_insert_eq.
    + exists d. split; [done|]. rewrite E. intros [= ->]. done.
  - exists d. split; [done|]. by rewrite E.
Qed.

Lemma feature_cell_elem (pf : gmap string value) k l :
  pf !! k = Some (VRef l) → l ∈ feature_cells pf.
Proof.
  intros Hk. apply cells_of_elem. exists k. split; [|done].
  apply list_elem_of_fmap. exists (k, VRef l). split; [done|].
  by apply elem_of_map_to_list.
Qed.

(** After [use_sample_weighting] on a feature of [per_feature], that feature
    is the only one with role ['WEIGHT']: a weight set earlier is back to
    ['INPUT']. *)
Theorem use_sample_weighting_single_weight (self : DSSMLTaskSettings.t)
    (ls lw lp lpf lf : loc) (wd pf fd : gmap string value) (w : world)
    (name : string) :
  mltask_settings self = VRef ls →
  weighting_layout ls lw lp lpf wd pf (heap w) →
  pf !! name = Some (VRef lf) →
  heap w !! lf = Some (ODict fd) →
  ∃ w',
    use_sample_weighting self name w = (Ret (), w') ∧
    field (heap w') lw "sampleWeightVariable" (VStr name) ∧
    ∀ k l, pf !! k = Some (VRef l) →
      (field (heap w') l "role" (VStr "WEIGHT") ↔ l = lf).
Proof.
  intros Hself Hlayout Hname Hfd.
  rewrite (use_sample_weighting_present self ls lw lp lpf wd pf w Hself Hlayout
             name lf fd Hname Hfd).
  eexists. split; [done|]. simpl.
  pose proof Hlayout as (_ & _ & _ & _ & _ & _ & _ & _ & Hfeat).
  destruct (Hfeat _ _ Hname) as (? & ? & ? & [= <-] & _ & _ & _ & Nlw & _).
  split.
  { eexists. rewrite lookup_insert_ne, lookup_insert_eq by done.
    split; [done|]. apply lookup_insert_eq. }
  intros k l Hk. split.
  - intros (d & Hd & Hr). destruct (decide (l = lf)) as [|Hne]; [done|].
    exfalso. rewrite lookup_insert_ne in Hd by done.
    destruct (Hfeat _ _ Hk) as (? & fd' & role & [= <-] & Hfd' & _ & _ & Nl & _).
    rewrite lookup_insert_ne in Hd by done.
    rewrite reset_cells_lookup, Hfd' in Hd. cbn -[reset_role] in Hd.
    rewrite decide_True in Hd by by eapply feature_cell_elem.
    destruct (reset_role_not_weight fd') as (d' & Ed & Hd'). congruence.
  - intros ->. eexists. rewrite lookup_insert_eq. split; [done|].
    apply lookup_insert_eq.
Qed.

Lemma use_sample_weighting_single_weight_witness :
  ∃ w',
    use_sample_weighting Sample.metrics_settings "a" Sample.weighting_world = (Ret (), w') ∧
    field (heap w') 6%positive "role" (VStr "WEIGHT") ∧
    ¬ field (heap w') 5%positive "role" (VStr "WEIGHT").
Proof.
  destruct (use_sample_weighting_single_weight Sample.metrics_settings
              1%positive 2%positive 3%positive 4%positive 6%positive
              (<["weightMethod" := VStr "SAMPLE_WEIGHT"]>
                 {["sampleWeightVariable" := VStr "w0"]})
              (<["w0" := VRef 5%positive]> {["a" := VRef 6%positive]})
              {["role" := VStr "INPUT"]}
              Sample.weighting_world "a") as (w' & E & _ & H).
  - reflexivity.
  - repeat split; try (eexists; split; reflexivity); try done.
    apply map_Forall_insert_2; [|apply map_Forall_singleton].
    + exists 5%positive, {["role" := VStr "WEIGHT"]}, (VStr "WEIGHT").
      repeat split; done.
    + exists 6%positive, {["role" := VStr "INPUT"]}, (VStr "INPUT").
      repeat split; done.
  - reflexivity.
  - reflexivity.
  - exists w'. split; [exact E|]. split.
    + apply (H "a"); reflexivity.
    + intros H5. apply (H "w0") in H5; [done|reflexivity].
Defined.

Lemma reset_role_keeps_role d role :
  d !! "role" = Some role →
  ∃ d' role', reset_role (ODict d) = ODict d' ∧ d' !! "role" = Some role'.
Proof.
  intros E. unfold reset_role. rewrite E. destruct (eq_str role "WEIGHT").
  - eexists _, _. split; [done|]. apply lookup_insert_eq.
  - by exists d, role.
Qed.

Lemma reset_cells_idemp cells h :
  reset_cells cells (reset_cells cells h) = reset_cells cells h.
Proof.
  apply map_eq. intros l. rewrite !reset_cells_lookup.
  destruct (h !! l) as [o|]; [|done]. cbn -[reset_role].
  case_decide; [|done]. by rewrite reset_role_idemp.
Qed.

Lemma layout_reset ls lw lp lpf wd pf h :
  weighting_layout ls lw lp lpf wd pf h →
  weighting_layout ls lw lp lpf (<["weightMethod" := VStr "NO_WEIGHTING"]> wd) pf
    (reset_cells (feature_cells pf)
       (<[lw := ODict (<["weightMethod" := VStr "NO_WEIGHTING"]> wd)]> h)).
Proof.
  intros Hlayout.
  pose proof (weight_cell_apart ls lw lp lpf wd pf (World h []) Hlayout) as Hlw.
  destruct Hlayout as (Hweight & Hwd & Hpre & Hper & Hpf & N1 & N2 & N3 & Hfeat).
  assert (∀ l, l = ls ∨ l = lp ∨ l = lpf → l ∉ feature_cells pf) as Hapart.
  { intros l Hl (k & _ & Hk)%cells_of_elem.
    destruct (Hfeat _ _ Hk) as (? & ? & ? & [= <-] & _ & _ & ? & ? & ? & ?).
    naive_solver. }
  assert (∀ l k x, l = ls ∨ l = lp ∨ l = lpf → field h l k x →
            field (reset_cells (feature_cells pf)
                     (<[lw := ODict (<["weightMethod" := VStr "NO_WEIGHTING"]> wd)]> h))
                  l k x) as Hkeep.
  { intros l k x Hl (d & Hd & Hk). exists d. split; [|done].
    rewrite reset_cells_outside by auto.
    rewrite lookup_insert_ne; [done|]. naive_solver. }
  split; [apply Hkeep; auto|]. split.
  { rewrite reset_cells_outside by done. apply lookup_insert_eq. }
  split; [apply Hkeep; auto|]. split; [apply Hkeep; auto|]. split.
  { rewrite reset_cells_outside by auto. by rewrite lookup_insert_ne. }
  do 3 (split; [done|]).
  intros k v Hk.
  destruct (Hfeat _ _ Hk) as (lf & fd & role & -> & Hfd & Hrole & L1 & L2 & L3 & L4).
  destruct (reset_role_keeps_role _ _ Hrole) as (d' & role' & Ed & Hd').
  exists lf, d', role'. split; [done|]. split.
  { rewrite reset_cells_lookup, lookup_insert_ne, Hfd by done.
    cbn -[reset_role]. rewrite decide_True by by eapply feature_cell_elem.
    by rewrite Ed. }
  done.
Qed.

(** [remove_sample_weighting] is idempotent: a second call changes nothing. *)
Theorem remove_sample_weighting_idempotent (self : DSSMLTaskSettings.t)
    (ls lw lp lpf : loc) (wd pf : gmap string value) (w : world) :
  mltask_settings self = VRef ls →
  weighting_layout ls lw lp lpf wd pf (heap w) →
  (remove_sample_weighting self;; remove_sample_weighting self) w =
  remove_sample_weighting self w.
Proof.
  intros Hself Hlayout.
  pose proof (remove_sample_weighting_run self ls lw lp lpf wd pf w Hself Hlayout) as E1.
  rewrite (bind_Ret _ _ _ _ _ E1), E1.
  pose proof (layout_reset _ _ _ _ _ _ _ Hlayout) as Hlayout'.
  rewrite (remove_sample_weighting_run self ls lw lp lpf _ pf (World _ _) Hself Hlayout').
  simpl. do 2 f_equal. rewrite insert_insert_eq.
  rewrite (insert_id (reset_cells _ _)); [apply reset_cells_idemp|].
  by destruct Hlayout' as (_ & ? & _).
Qed.

Lemma remove_sample_weighting_idempotent_witness :
  (remove_sample_weighting Sample.metrics_settings;;
   remove_sample_weighting Sample.metrics_settings) Sample.weighting_world =
  remove_sample_weighting Sample.metrics_settings Sample.weighting_world.
Proof.
  apply (remove_sample_weighting_idempotent Sample.metrics_settings
           1%positive 2%positive 3%positive 4%positive
           (<["weightMethod" := VStr "SAMPLE_WEIGHT"]>
              {["sampleWeightVariable" := VStr "w0"]})
           (<["w0" := VRef 5%positive]> {["a" := VRef 6%positive]})
           Sample.weighting_world).
  - reflexivity.
  - repeat split; try (eexists; split; reflexivity); try done.
    apply map_Forall_insert_2; [|apply map_Forall_singleton].
    + exists 5%positive, {["role" := VStr "WEIGHT"]}, (VStr "WEIGHT").
      repeat split; done.
    + exists 6%positive, {["role" := VStr "INPUT"]}, (VStr "INPUT").
      repeat split; done.
Defined.

End WeightRole.

(** ** DSSMLTask.get_settings *)

(** [get_settings] fetches the settings once and wraps them by task type:
    the prediction class exactly when [taskType] is the string
    ['PREDICTION'], the clustering class for every other value; the wrapper
    holds the decoded settings themselves.  Settings without a [taskType]
    raise [KeyError], after the request. *)
Theorem get_settings_dispatch (recursion_limit : nat)
    (server : nat → string → string → option json → response)
    (self : DSSMLTaskObject.t) (w : world) (m : gmap string json) :
  let url := DSSMLTaskObject.lab self +:+ "/settings" in
  server (requests w) "GET" url None = Json (JObject m) →
  (∀ task_type, m !! "taskType" = Some task_type →
     ∃ settings w',
       DSSMLTask.get_settings recursion_limit server self w = (Ret settings, w') ∧
       repr (heap w') (DSSMLTaskSettings.mltask_settings settings) (JObject m) ∧
       DSSMLTaskSettings.class settings =
         (if is_str task_type "PREDICTION"
          then DSSMLTaskSettings.DSSPredictionMLTaskSettings
          else DSSMLTaskSettings.DSSClusteringMLTaskSettings) ∧
       heap w ⊆ heap w' ∧
       trace w' = trace w ++ [EFetch "GET" url None]) ∧
  (m !! "taskType" = None →
     ∃ w',
       DSSMLTask.get_settings recursion_limit server self w =
         (Raise (KeyError (VStr "taskType")), w') ∧
       trace w' = trace w ++ [EFetch "GET" url None]).
Proof.
  intros url Hs.
  destruct (perform_json_answer recursion_limit server w "GET" url _ Hs)
    as (v & w1 & E1 & S1 & T1 & R1).
  split.
  - intros task_type Hk.
    destruct (getitem_read _ _ _ _ "taskType" _ R1 Hk) as (x & Ex & Rx).
    unfold DSSMLTask.get_settings. fold url.
    rewrite (bind_Ret _ _ _ _ _ E1), (bind_Ret _ _ _ _ _ Ex).
    rewrite (eq_str_read _ _ _ _ "PREDICTION" Rx).
    destruct (is_str task_type "PREDICTION"); eexists _, w1;
      (split; [done|]); (split; [by eexists|]); done.
  - intros Hk. exists w1. split; [|done].
    unfold DSSMLTask.get_settings. fold url.
    rewrite (bind_Ret _ _ _ _ _ E1).
    destruct (read_object _ _ _ _ R1) as (l & d & n' & -> & _ & Hl & Hd).
    erewrite bind_Raise; [done|].
    unfold getitem. rewrite Hl. pose proof (Hd "taskType") as Hkk.
    rewrite Hk in Hkk. by inversion Hkk.
Qed.

Lemma get_settings_dispatch_witness :
  let server := Sample.two_step_server
                  (JObject {["taskType" := JStr "CLUSTERING"]}) JNull in
  ∃ settings w',
    DSSMLTask.get_settings 5 server Sample.task Sample.empty_world = (Ret settings, w') ∧
    DSSMLTaskSettings.class settings = DSSMLTaskSettings.DSSClusteringMLTaskSettings.
Proof.
  intros server.
  destruct (get_settings_dispatch 5 server Sample.task Sample.empty_world
              {["taskType" := JStr "CLUSTERING"]}) as [H _].
  - reflexivity.
  - destruct (H (JStr "CLUSTERING")) as (settings & w' & E & _ & Hc & _).
    + reflexivity.
    + exists settings, w'. split; [exact E|exact Hc].
Defined.

(** ** DSSMLTask: the requests that carry a new body *)

Lemma read_str_or_none n h o : read n h (str_or_none o) = Some (json_or_null o).
Proof. by destruct o, n. Qed.

Lemma map_sequence_empty {A} (f : value → option A) :
  map_sequence (f <$> (∅ : gmap string value)) = Some ∅.
Proof. apply map_sequence_fmap_Some. intros k. rewrite !lookup_empty. constructor. Qed.

Lemma map_sequence_insert {A} (f : value → option A) d m k x t :
  map_sequence (f <$> d) = Some m → f x = Some t →
  map_sequence (f <$> <[k := x]> d) = Some (<[k := t]> m).
Proof.
  rewrite !map_sequence_fmap_Some. intros H Hx j.
  destruct (decide (j = k)) as [->|Hne].
  - rewrite !lookup_insert_eq. by constructor.
  - rewrite !lookup_insert_ne by done. apply H.
Qed.

Lemma map_sequence_singleton {A} (f : value → option A) k x t :
  f x = Some t → map_sequence (f <$> ({[k := x]} : gmap string value)) = Some {[k := t]}.
Proof.
  intros Hx. rewrite <-!insert_empty.
  apply map_sequence_insert; [apply map_sequence_empty|done].
Qed.

Section NewBody.

Variable recursion_limit : nat.
Variable server : nat → string → string → option json → response.

(** A request whose body is a dictionary made for it: the body is encoded
    from the new object, and the objects that were there stay as they are. *)
Lemma perform_json_new_body w method url d m :
  1 ≤ recursion_limit →
  map_sequence (read (pred recursion_limit) (heap w) <$> d) = Some m →
  let lb := fresh (dom (heap w)) in
  let w1 := World (<[lb := ODict d]> (heap w))
                  (trace w ++ [EFetch method url (Some (JObject m))]) in
  perform_json recursion_limit server method url (Some (VRef lb))
    (World (<[lb := ODict d]> (heap w)) (trace w)) =
  match server (requests w) method url (Some (JObject m)) with
  | Json t => load t w1
  | Failure e => (Raise e, w1)
  end.
Proof.
  intros Hlimit Hd lb w1. unfold perform_json. simpl.
  destruct recursion_limit as [|n]; [lia|]. rewrite read_ref, lookup_insert_eq.
  simpl in Hd.
  assert (map_sequence (read n (<[lb := ODict d]> (heap w)) <$> d) = Some m) as ->.
  { apply map_sequence_fmap_Some. intros k.
    pose proof (proj1 (map_sequence_fmap_Some _ _ _) Hd k) as Hk.
    destruct Hk as [x t Hx|]; constructor.
    eapply read_mono; [done|apply alloc_subseteq|done]. }
  done.
Qed.

Lemma perform_json_new_body_answer w method url d m t :
  1 ≤ recursion_limit →
  map_sequence (read (pred recursion_limit) (heap w) <$> d) = Some m →
  server (requests w) method url (Some (JObject m)) = Json t →
  let lb := fresh (dom (heap w)) in
  ∃ v w',
    perform_json recursion_limit server method url (Some (VRef lb))
      (World (<[lb := ODict d]> (heap w)) (trace w)) = (Ret v, w') ∧
    heap w ⊆ heap w' ∧
    trace w' = trace w ++ [EFetch method url (Some (JObject m))] ∧
    read (jdepth t) (heap w') v = Some t.
Proof.
  intros Hlimit Hd Hs lb. rewrite (perform_json_new_body _ _ _ _ _ Hlimit Hd), Hs.
  destruct (load_loads t (World (<[lb := ODict d]> (heap w))
                            (trace w ++ [EFetch method url (Some (JObject m))])))
    as (v & w' & E & S & T & R).
  exists v, w'. split; [done|]. split; [|done].
  etrans; [apply alloc_subseteq|exact S].
Qed.

End NewBody.

(** [start_train] sends one POST to the task's [train] endpoint, with the
    session name and description ([null] when not given), and returns the
    decoded answer; the objects of the caller are left as they are. *)
Theorem start_train_posts_session (recursion_limit : nat)
    (server : nat → string → string → option json → response)
    (self : DSSMLTaskObject.t) (w : world)
    (session_name session_description : option string) (answer : json) :
  let url := DSSMLTaskObject.lab self +:+ "/train" in
  let body := JObject (<["sessionName" := json_or_null session_name]>
                        {["sessionDescription" := json_or_null session_description]}) in
  1 ≤ recursion_limit →
  server (requests w) "POST" url (Some body) = Json answer →
  ∃ v w',
    DSSMLTask.start_train recursion_limit server self session_name
      session_description w = (Ret v, w') ∧
    repr (heap w') v answer ∧
    heap w ⊆ heap w' ∧
    trace w' = trace w ++ [EFetch "POST" url (Some body)].
Proof.
  intros url body Hlimit Hs.
  destruct (perform_json_new_body_answer recursion_limit server w "POST" url
              (<["sessionName" := str_or_none session_name]>
                 {["sessionDescription" := str_or_none session_description]})
              (<["sessionName" := json_or_null session_name]>
                 {["sessionDescription" := json_or_null session_description]})
              answer Hlimit) as (v & w' & E & S & T & R).
  { apply map_sequence_insert; [apply map_sequence_singleton|]; apply read_str_or_none. }
  { exact Hs. }
  exists v, w'. unfold DSSMLTask.start_train.
  rewrite (bind_Ret _ _ _ _ _ (alloc_run _ _)).
  split; [exact E|]. split; [by eexists|done].
Qed.

Lemma start_train_posts_session_witness :
  let server := Sample.two_step_server (JObject {["sessionId"  := JStr "s3"]}) JNull in
  ∃ v w',
    DSSMLTask.start_train 5 server Sample.task (Some "nightly") None
      Sample.empty_world = (Ret v, w') ∧
    trace w' = [EFetch "POST" "/projects/PROJ/models/lab/an/ml/train"
                  (Some (JObject (<["sessionName" := JStr "nightly"]>
                                    {["sessionDescription" := JNull]})))].
Proof.
  intros server.
  destruct (start_train_posts_session 5 server Sample.task Sample.empty_world
              (Some "nightly") None (JObject {["sessionId"  := JStr "s3"]}))
    as (v & w' & E & _ & _ & T).
  - lia.
  - reflexivity.
  - exists v, w'. split; [exact E|exact T].
Defined.

(** [start_ensembling] sends one POST with the method and the model ids and
    returns the ['id'] of the answer.  When the answer has no ['id'] it
    raises [KeyError], and the request has been sent by then. *)
Theorem start_ensembling_returns_id (recursion_limit : nat)
    (server : nat → string → string → option json → response)
    (self : DSSMLTaskObject.t) (w : world)
    (model_ids : value) (ids : json) (method : option string)
    (answer : gmap string json) :
  let url := DSSMLTaskObject.lab self +:+ "/ensemble" in
  let body := JObject (<["method" := json_or_null method]> {["modelsIds" := ids]}) in
  1 ≤ recursion_limit →
  read (pred recursion_limit) (heap w) model_ids = Some ids →
  server (requests w) "POST" url (Some body) = Json (JObject answer) →
  ∃ w',
    heap w ⊆ heap w' ∧
    trace w' = trace w ++ [EFetch "POST" url (Some body)] ∧
    match answer !! "id" with
    | Some id =>
        ∃ v, DSSMLTask.start_ensembling recursion_limit server self model_ids method w =
               (Ret v, w') ∧ repr (heap w') v id
    | None =>
        DSSMLTask.start_ensembling recursion_limit server self model_ids method w =
          (Raise (KeyError (VStr "id")), w')
    end.
Proof.
  intros url body Hlimit Hids Hs.
  destruct (perform_json_new_body_answer recursion_limit server w "POST" url
              (<["method" := str_or_none method]> {["modelsIds" := model_ids]})
              (<["method" := json_or_null method]> {["modelsIds" := ids]})
              (JObject answer) Hlimit) as (v & w' & E & S & T & R).
  { apply map_sequence_insert; [by apply map_sequence_singleton|].
    apply read_str_or_none. }
  { exact Hs. }
  exists w'. split; [done|]. split; [done|].
  unfold DSSMLTask.start_ensembling. fold url.
  rewrite (bind_Ret _ _ _ _ _ (alloc_run _ _)), (bind_Ret _ _ _ _ _ E).
  destruct (answer !! "id") as [id|] eqn:Hid.
  - destruct (getitem_read _ _ _ _ "id" _ R Hid) as (x & Ex & Rx).
    exists x. split; [done|]. by eexists.
  - destruct (read_object _ _ _ _ R) as (l & d & n' & -> & _ & Hl & Hd).
    unfold getitem. rewrite Hl. pose proof (Hd "id") as Hk. rewrite Hid in Hk.
    by inversion Hk.
Qed.

Lemma start_ensembling_returns_id_witness :
  let lost := Sample.two_step_server (JObject ∅) JNull in
  ∃ w',
    DSSMLTask.start_ensembling 5 lost Sample.task VNone (Some "AVERAGE")
      Sample.empty_world = (Raise (KeyError (VStr "id")), w') ∧
    trace w' = [EFetch "POST" "/projects/PROJ/models/lab/an/ml/ensemble"
                  (Some (JObject (<["method" := JStr "AVERAGE"]>
                                    {["modelsIds" := JNull]})))].
Proof.
  intros lost.
  destruct (start_ensembling_returns_id 5 lost Sample.task Sample.empty_world
              VNone JNull (Some "AVERAGE") ∅) as (w' & _ & T & E).
  - lia.
  - reflexivity.
  - reflexivity.
  - exists w'. split; [exact E|exact T].
Defined.

(** [deploy_to_flow] and [redeploy_to_flow] each send one POST to the
    model's action endpoint, with every argument in the body ([null] for
    those not given), and return the decoded answer; nothing the caller
    holds is changed. *)
Theorem deploy_to_flow_posts (recursion_limit : nat)
    (server : nat → string → string → option json → response)
    (self : DSSMLTaskObject.t) (w : world) (model_id : string) (answer : json) :
  let deploy := DSSMLTaskObject.lab self +:+ "/models/" +:+ model_id +:+
                "/actions/deployToFlow" in
  let redeploy := DSSMLTaskObject.lab self +:+ "/models/" +:+ model_id +:+
                  "/actions/redeployToFlow" in
  1 ≤ recursion_limit →
  (∀ model_name train_dataset test_dataset redo_optimization,
     let body := JObject (<["trainDatasetRef" := JStr train_dataset]> (
                          <["testDatasetRef" := json_or_null test_dataset]> (
                          <["modelName" := JStr model_name]>
                          {["redoOptimization" := JBool redo_optimization]}))) in
     server (requests w) "POST" deploy (Some body) = Json answer →
     ∃ v w',
       DSSMLTask.deploy_to_flow recursion_limit server self model_id model_name
         train_dataset test_dataset redo_optimization w = (Ret v, w') ∧
       repr (heap w') v answer ∧ heap w ⊆ heap w' ∧
       trace w' = trace w ++ [EFetch "POST" deploy (Some body)]) ∧
  (∀ recipe_name saved_model_id activate,
     let body := JObject (<["recipeName" := json_or_null recipe_name]> (
                          <["savedModelId" := json_or_null saved_model_id]>
                          {["activate" := JBool activate]})) in
     server (requests w) "POST" redeploy (Some body) = Json answer →
     ∃ v w',
       DSSMLTask.redeploy_to_flow recursion_limit server self model_id recipe_name
         saved_model_id activate w = (Ret v, w') ∧
       repr (heap w') v answer ∧ heap w ⊆ heap w' ∧
       trace w' = trace w ++ [EFetch "POST" redeploy (Some body)]).
Proof.
  intros deploy redeploy Hlimit. split.
  - intros model_name train_dataset test_dataset redo_optimization body Hs.
    destruct (perform_json_new_body_answer recursion_limit server w "POST"
                deploy
                (<["trainDatasetRef" := VStr train_dataset]> (
                 <["testDatasetRef" := str_or_none test_dataset]> (
                 <["modelName" := VStr model_name]>
                 {["redoOptimization" := VBool redo_optimization]})))
                (<["trainDatasetRef" := JStr train_dataset]> (
                 <["testDatasetRef" := json_or_null test_dataset]> (
                 <["modelName" := JStr model_name]>
                 {["redoOptimization" := JBool redo_optimization]})))
                answer Hlimit) as (v & w' & E & S & T & R).
    { repeat (apply map_sequence_insert);
        first [apply map_sequence_empty | apply read_str_or_none
              | by destruct (pred recursion_limit)]. }
    { exact Hs. }
    exists v, w'. unfold DSSMLTask.deploy_to_flow.
    rewrite (bind_Ret _ _ _ _ _ (alloc_run _ _)).
    split; [exact E|]. split; [by eexists|done].
  - intros recipe_name saved_model_id activate body Hs.
    destruct (perform_json_new_body_answer recursion_limit server w "POST"
                redeploy
                (<["recipeName" := str_or_none recipe_name]> (
                 <["savedModelId" := str_or_none saved_model_id]>
                 {["activate" := VBool activate]}))
                (<["recipeName" := json_or_null recipe_name]> (
                 <["savedModelId" := json_or_null saved_model_id]>
                 {["activate" := JBool activate]}))
                answer Hlimit) as (v & w' & E & S & T & R).
    { repeat (apply map_sequence_insert);
        first [apply map_sequence_empty | apply read_str_or_none
              | by destruct (pred recursion_limit)]. }
    { exact Hs. }
    exists v, w'. unfold DSSMLTask.redeploy_to_flow.
    rewrite (bind_Ret _ _ _ _ _ (alloc_run _ _)).
    split; [exact E|]. split; [by eexists|done].
Qed.

Lemma deploy_to_flow_posts_witness :
  let server := Sample.two_step_server (JObject {["savedModelId" := JStr "sm1"]}) JNull in
  ∃ v w',
    DSSMLTask.deploy_to_flow 5 server Sample.task "m1" "churn" "customers" None true
      Sample.empty_world = (Ret v, w') ∧
    trace w' = [EFetch "POST"
                  "/projects/PROJ/models/lab/an/ml/models/m1/actions/deployToFlow"
                  (Some (JObject (<["trainDatasetRef" := JStr "customers"]> (
                                  <["testDatasetRef" := JNull]> (
                                  <["modelName" := JStr "churn"]>
                                  {["redoOptimization" := JBool true]})))))].
Proof.
  intros server.
  destruct (deploy_to_flow_posts 5 server Sample.task Sample.empty_world "m1"
              (JObject {["savedModelId" := JStr "sm1"]})) as [H _].
  - lia.
  - destruct (H "churn" "customers" None true) as (v & w' & E & _ & _ & T).
    + reflexivity.
    + exists v, w'. split; [exact E|exact T].
Defined.

(** ** Errors of the transport *)

Section TransportErrors.

Variable recursion_limit : nat.
Variable server : nat → string → string → option json → response.
Variables (w : world) (e : exn).
Hypothesis Hlimit : 1 ≤ recursion_limit.
Hypothesis Hfail : ∀ method url body, server (requests w) method url body = Failure e.

Lemma perform_json_fails method url :
  perform_json recursion_limit server method url None w =
  (Raise e, World (heap w) (trace w ++ [EFetch method url None])).
Proof using Hfail. unfold perform_json. by rewrite Hfail. Qed.

Lemma then_fails {A B} (m : M A) (k : A → M B) :
  fails_at_first_request m w e → fails_at_first_request (m ≫= k) w e.
Proof.
  intros (w' & method & url & body & E & T). exists w', method, url, body.
  by rewrite (bind_Raise _ _ _ _ _ E).
Qed.

Lemma get_fails method url :
  fails_at_first_request (perform_json recursion_limit server method url None) w e.
Proof using Hfail. eexists _, _, _, _. by rewrite perform_json_fails. Qed.

Lemma new_body_fails method url d m :
  map_sequence (read (pred recursion_limit) (heap w) <$> d) = Some m →
  fails_at_first_request
    (obj ← alloc (ODict d);
     perform_json recursion_limit server method url (Some obj)) w e.
Proof using Hlimit Hfail.
  intros Hd. eexists _, _, _, _.
  rewrite (bind_Ret _ _ _ _ _ (alloc_run _ _)).
  rewrite (perform_json_new_body _ _ _ _ _ _ _ Hlimit Hd), Hfail. done.
Qed.

End TransportErrors.

(** Errors of the transport are surfaced unchanged and nothing is retried:
    when the next request fails with [e], every method of the task that
    talks to the server raises [e] after that one request. *)
Theorem transport_errors_surface (recursion_limit : nat)
    (server : nat → string → string → option json → response)
    (self : DSSMLTaskObject.t) (w : world) (e : exn) :
  1 ≤ recursion_limit →
  (∀ method url body, server (requests w) method url body = Failure e) →
  fails_at_first_request (DSSMLTask.get_status recursion_limit server self) w e ∧
  fails_at_first_request (DSSMLTask.get_settings recursion_limit server self) w e ∧
  (∀ fuel,
     fails_at_first_request
       (DSSMLTask.wait_guess_complete recursion_limit server self (S fuel)) w e ∧
     fails_at_first_request
       (DSSMLTask.wait_train_complete recursion_limit server self (S fuel)) w e) ∧
  (∀ session_name session_description,
     fails_at_first_request
       (DSSMLTask.start_train recursion_limit server self session_name
          session_description) w e) ∧
  (∀ model_id model_name train_dataset test_dataset redo_optimization,
     fails_at_first_request
       (DSSMLTask.deploy_to_flow recursion_limit server self model_id model_name
          train_dataset test_dataset redo_optimization) w e) ∧
  (∀ model_id recipe_name saved_model_id activate,
     fails_at_first_request
       (DSSMLTask.redeploy_to_flow recursion_limit server self model_id recipe_name
          saved_model_id activate) w e) ∧
  (∀ python session_id algorithm,
     fails_at_first_request
       (DSSMLTask.get_trained_models_ids python recursion_limit server self
          session_id algorithm) w e) ∧
  (∀ id,
     fails_at_first_request
       (DSSMLTask.get_trained_model_details recursion_limit server self id) w e).
Proof.
  intros Hlimit Hfail.
  pose proof (get_fails recursion_limit server w e Hfail) as Hget.
  pose proof (new_body_fails recursion_limit server w e Hlimit Hfail) as Hnew.
  split; [apply Hget|]. split; [apply then_fails, Hget|].
  split; [intros fuel; split; apply then_fails, Hget|].
  split.
  { intros. eapply Hnew.
    apply map_sequence_insert; [apply map_sequence_singleton|]; apply read_str_or_none. }
  split.
  { intros. eapply Hnew.
    repeat (apply map_sequence_insert);
      first [apply map_sequence_empty | apply read_str_or_none
            | by destruct (pred recursion_limit)]. }
  split.
  { intros. eapply Hnew.
    repeat (apply map_sequence_insert);
      first [apply map_sequence_empty | apply read_str_or_none
            | by destruct (pred recursion_limit)]. }
  split; intros; apply then_fails, Hget.
Qed.

Lemma transport_errors_surface_witness :
  let down : nat → string → string → option json → response :=
    λ _ _ _ _, Failure (TransportError "503") in
  fails_at_first_request (DSSMLTask.wait_train_complete 5 down Sample.task 3)
    Sample.empty_world (TransportError "503").
Proof.
  intros down.
  destruct (transport_errors_surface 5 down Sample.task Sample.empty_world
              (TransportError "503")) as (_ & _ & H & _).
  - lia.
  - reflexivity.
  - apply (H 2).
Defined.

(** ** DSSMLTask.get_trained_model_snippet: the other shapes *)

(** With neither [id] nor [ids], [get_trained_model_snippet] sends an empty
    mapping as the body and returns the whole answer.  With an [id] the
    answer lacks, it raises [KeyError] with that id, after the request. *)
Theorem get_trained_model_snippet_shapes (recursion_limit : nat)
    (server : nat → string → string → option json → response)
    (self : DSSMLTaskObject.t) (w : world) :
  let url := DSSMLTaskObject.lab self +:+ "/models-snippets" in
  2 ≤ recursion_limit →
  (∀ answer,
     server (requests w) "GET" url (Some (JObject ∅)) = Json answer →
     ∃ v w',
       DSSMLTask.get_trained_model_snippet recursion_limit server self None None w =
         (Ret v, w') ∧
       repr (heap w') v answer ∧ heap w ⊆ heap w' ∧
       trace w' = trace w ++ [EFetch "GET" url (Some (JObject ∅))]) ∧
  (∀ id answer,
     let body := JObject {["modelsIds" := JList [JStr id]]} in
     server (requests w) "GET" url (Some body) = Json (JObject answer) →
     answer !! id = None →
     ∃ w',
       DSSMLTask.get_trained_model_snippet recursion_limit server self (Some id) None w =
         (Raise (KeyError (VStr id)), w') ∧
       heap w ⊆ heap w' ∧
       trace w' = trace w ++ [EFetch "GET" url (Some body)]).
Proof.
  intros url Hlimit. split.
  - intros answer Hs.
    destruct (perform_json_new_body_answer recursion_limit server w "GET" url ∅ ∅
                answer) as (v & w' & E & S & T & R).
    { lia. }
    { apply map_sequence_empty. }
    { exact Hs. }
    exists v, w'. unfold DSSMLTask.get_trained_model_snippet.
    rewrite (bind_Ret _ _ _ _ _ (alloc_run _ _)), (bind_Ret _ _ _ _ _ E).
    split; [done|]. split; [by eexists|done].
  - intros id answer body Hs Hid. unfold DSSMLTask.get_trained_model_snippet.
    rewrite (bind_Ret _ _ _ _ _ (bind_Ret _ _ _ _ _ (alloc_run _ _))). simpl.
    set (l := fresh (dom (heap w))).
    set (h1 := <[l := OList [VStr id]]> (heap w)).
    set (lb := fresh (dom h1)).
    set (h2 := <[lb := ODict {["modelsIds" := VRef l]}]> h1).
    assert (heap w ⊆ h1) as S1 by apply alloc_subseteq.
    assert (h1 ⊆ h2) as S2 by apply alloc_subseteq.
    assert (l ≠ lb) as Hne.
    { apply (fresh_ne h1 l (OList [VStr id])). apply lookup_insert_eq. }
    destruct (perform_json_body recursion_limit server (World h2 (trace w)) "GET"
                url (VRef lb) body (JObject answer)) as (v & w' & E & S3 & T & R).
    { destruct recursion_limit as [|[|n]]; [lia..|]. simpl.
      apply (read_ids_body n h2 l lb [VStr id] [JStr id]); [done| | |].
      - unfold h2. rewrite lookup_insert_ne by done. apply lookup_insert_eq.
      - apply lookup_insert_eq.
      - constructor; [|done]. by destruct n. }
    { by rewrite (requests_same_trace w). }
    rewrite (bind_Ret _ _ _ _ _ E).
    exists w'. split; [|split; [by repeat (etrans; [eassumption|])|done]].
    destruct (read_object _ _ _ _ R) as (la & d & n' & -> & _ & Hl & Hd).
    unfold getitem. rewrite Hl. pose proof (Hd id) as Hk. rewrite Hid in Hk.
    by inversion Hk.
Qed.

Lemma get_trained_model_snippet_shapes_witness :
  let server := Sample.two_step_server Sample.kmeans_snippets JNull in
  ∃ w',
    DSSMLTask.get_trained_model_snippet 5 server Sample.task (Some "m9") None
      Sample.empty_world = (Raise (KeyError (VStr "m9")), w').
Proof.
  intros server.
  destruct (get_trained_model_snippet_shapes 5 server Sample.task Sample.empty_world)
    as [_ H].
  - lia.
  - destruct (H "m9" {["m1" := JObject {["algorithm" := JStr "KMEANS"]}]})
      as (w' & E & _).
    + reflexivity.
    + reflexivity.
    + exists w'. exact E.
Defined.

(** ** DSSMLTaskSettings.set_algorithm_enabled: unknown algorithm *)

(** For an algorithm whose key [modeling] does not hold,
    [set_algorithm_enabled] raises [KeyError] with the key it looked up (the
    remapped, lowercased name) and writes nothing. *)
Theorem set_algorithm_enabled_unknown (lower : string → string)
    (self : DSSMLTaskSettings.t) (ls lm : loc) (modeling : gmap string value)
    (w : world) (algorithm_name : string) (enabled : value) :
  DSSMLTaskSettings.mltask_settings self = VRef ls →
  field (heap w) ls "modeling" (VRef lm) →
  heap w !! lm = Some (ODict modeling) →
  let table := DSSMLTaskSettings.algorithm_remap (DSSMLTaskSettings.class self) in
  let key := lower (default algorithm_name (table !! algorithm_name)) in
  modeling !! key = None →
  DSSMLTaskSettings.set_algorithm_enabled lower self algorithm_name enabled w =
    (Raise (KeyError (VStr key)), w).
Proof.
  intros Hself Hm Hlm table key Hkey.
  unfold DSSMLTaskSettings.set_algorithm_enabled.
  erewrite bind_Raise; [done|].
  unfold DSSMLTaskSettings.get_algorithm_settings. rewrite Hself.
  rewrite (bind_Ret _ _ _ _ _ (getitem_field _ _ _ _ Hm)).
  fold table. unfold getitem. rewrite Hlm.
  assert (lower match table !! algorithm_name with
                | Some remapped => remapped
                | None => algorithm_name
                end = key) as -> by (unfold key; by destruct (table !! algorithm_name)).
  by rewrite Hkey.
Qed.

Lemma set_algorithm_enabled_unknown_witness :
  DSSMLTaskSettings.set_algorithm_enabled Sample.lower Sample.metrics_settings
    "SVC_CLASSIFICATION" (VBool true) Sample.modeling_world =
  (Raise (KeyError (VStr "svc_classifier")), Sample.modeling_world).
Proof.
  apply (set_algorithm_enabled_unknown Sample.lower Sample.metrics_settings
           1%positive 2%positive
           (<["xgboost" := VRef 3%positive]> {["ridge_regression" := VRef 4%positive]})
           Sample.modeling_world "SVC_CLASSIFICATION" (VBool true)).
  - reflexivity.
  - eexists. split; reflexivity.
  - reflexivity.
  - reflexivity.
Defined.

(** ** DSSTrainedClusteringModelDetails.get_facts *)



(** ** DSSClustersFacts *)

Lemma filter_m_label name w : ∀ facts : list (value * value),
  Forall (λ p, labelled (heap w) p.1 p.2) facts →
  filter_m (λ x, label ← getitem x "feature_label"; mret (eq_str label name))
    facts.*1 w =
  (Ret (filter (λ p, eq_str p.2 name) facts).*1, w).
Proof.
  induction facts as [|[f label] facts IH]; intros Hall; [done|].
  apply list.Forall_cons_1 in Hall as [(l & d & Hf & Hl & Hd) Hall].
  simpl in Hf, Hd. subst f. rewrite fmap_cons. cbn [filter_m fst].
  assert (getitem (VRef l) "feature_label" w = (Ret label, w)) as Eg.
  { apply getitem_field. by exists d. }
  rewrite (bind_Ret _ _ _ _ _ (bind_Ret _ _ _ _ _ Eg)).
  rewrite (bind_Ret _ _ _ _ _ (IH Hall)).
  unfold mret, M_ret, ret. do 2 f_equal.
  destruct (eq_str label name) eqn:Ea.
  - rewrite filter_cons_True; [done|]. simpl. by apply Is_true_true.
  - rewrite filter_cons_False; [done|]. simpl. by apply Is_true_false.
Qed.

(** [get_facts_for_cluster_and_feature] returns a new list with the facts of
    the cluster whose [feature_label] equals the name, the same objects and in
    their order, and changes nothing.  The cluster is found by Python's
    subscript: an index below zero counts from the end, and an index out of
    range raises [IndexError]. *)
Theorem get_facts_for_cluster_and_feature_filters (self : DSSClustersFacts.t)
    (lroot lc : loc) (clusters : list value) (w : world) (cluster_index : Z)
    (feature_name : string) :
  DSSClustersFacts.clusters_facts self = VRef lroot →
  field (heap w) lroot "clusters" (VRef lc) →
  heap w !! lc = Some (OList clusters) →
  (seq_index clusters cluster_index = None →
     DSSClustersFacts.get_facts_for_cluster_and_feature self (VInt cluster_index)
       feature_name w = (Raise IndexError, w)) ∧
  (∀ lcl lf (facts : list (value * value)),
     seq_index clusters cluster_index = Some (VRef lcl) →
     field (heap w) lcl "facts" (VRef lf) →
     heap w !! lf = Some (OList facts.*1) →
     Forall (λ p, labelled (heap w) p.1 p.2) facts →
     DSSClustersFacts.get_facts_for_cluster_and_feature self (VInt cluster_index)
       feature_name w =
     (Ret (VRef (fresh (dom (heap w)))),
      World (<[fresh (dom (heap w)) :=
                OList (filter (λ p, eq_str p.2 feature_name) facts).*1]> (heap w))
            (trace w))).
Proof.
  intros Hself Hroot Hlc.
  unfold DSSClustersFacts.get_facts_for_cluster_and_feature,
    DSSClustersFacts.get_facts_for_cluster.
  rewrite Hself. split.
  - intros Hi. erewrite bind_Raise; [done|].
    rewrite (bind_Ret _ _ _ _ _ (getitem_field _ _ _ _ Hroot)).
    erewrite bind_Raise; [done|]. unfold getitem. rewrite Hlc. simpl. by rewrite Hi.
  - intros lcl lf facts Hi Hfacts Hlf Hall.
    erewrite bind_Ret; cycle 1.
    { rewrite (bind_Ret _ _ _ _ _ (getitem_field _ _ _ _ Hroot)).
      erewrite bind_Ret; cycle 1.
      { unfold getitem. rewrite Hlc. simpl. by rewrite Hi. }
      by apply getitem_field. }
    rewrite (bind_Ret _ _ _ _ _ (iter_list _ _ _ Hlf)).
    rewrite (bind_Ret _ _ _ _ _ (filter_m_label feature_name w facts Hall)).
    apply alloc_run.
Qed.

Lemma get_facts_for_cluster_and_feature_filters_witness :
  DSSClustersFacts.get_facts_for_cluster_and_feature Sample.facts (VInt (-1)) "age"
    Sample.facts_world =
  (Ret (VRef 10%positive),
   World (<[10%positive := OList [VRef 7%positive; VRef 9%positive]]>
            (heap Sample.facts_world)) []) ∧
  DSSClustersFacts.get_facts_for_cluster_and_feature Sample.facts (VInt 2) "age"
    Sample.facts_world = (Raise IndexError, Sample.facts_world).
Proof.
  split.
  - destruct (get_facts_for_cluster_and_feature_filters Sample.facts
                1%positive 2%positive [VRef 3%positive; VRef 4%positive]
                Sample.facts_world (-1) "age") as [_ H].
    + reflexivity.
    + eexists. split; reflexivity.
    + reflexivity.
    + rewrite (H 4%positive 6%positive
                 [(VRef 7%positive, VStr "age"); (VRef 8%positive, VStr "city");
                  (VRef 9%positive, VStr "age")]).
      * reflexivity.
      * reflexivity.
      * eexists. split; reflexivity.
      * reflexivity.
      * repeat constructor; eexists _, _; (split; [reflexivity|]); split; reflexivity.
  - destruct (get_facts_for_cluster_and_feature_filters Sample.facts
                1%positive 2%positive [VRef 3%positive; VRef 4%positive]
                Sample.facts_world 2 "age") as [H _].
    + reflexivity.
    + eexists. split; reflexivity.
    + reflexivity.
    + apply H. reflexivity.
Defined.

(** ** The polling waits on any status *)


Section AnyStatus.

Variable recursion_limit : nat.
Variable server : nat → string → string → option json → response.
Variable self : DSSMLTaskObject.t.
Variables (key : string) (ms : Z) (loop : nat → M unit).

#[local] Abbreviation url := (DSSMLTaskObject.lab self +:+ "/status").

Hypothesis loop_0 : ∀ w, loop 0 w = (OutOfFuel, w).
Hypothesis loop_S : ∀ fuel,
  loop (S fuel) =
  (status ← DSSMLTask.get_status recursion_limit server self;
   flag ← dict_get status key "???";
   if eq_bool flag false then mret ()
   else sleep ms;; loop fuel).




End AnyStatus.



(** ** DSSTrainedModelDetails.get_user_meta and DSSClustersFacts.get_cluster_size *)

(** [get_user_meta] returns the object held by the details, not a copy: what
    is written through the result is what the next [get_user_meta] reads. *)
Theorem get_user_meta_is_live (self : DSSTrainedModelDetails.t) (ld lum : loc)
    (um : gmap string value) (w : world) (k : string) (x : value) :
  DSSTrainedModelDetails.details self = VRef ld →
  field (heap w) ld "userMeta" (VRef lum) →
  heap w !! lum = Some (ODict um) →
  ld ≠ lum →
  (meta ← DSSTrainedModelDetails.get_user_meta self;
   setitem meta k x;;
   meta' ← DSSTrainedModelDetails.get_user_meta self;
   getitem meta' k) w =
  (Ret x, World (<[lum := ODict (<[k := x]> um)]> (heap w)) (trace w)).
Proof.
  intros Hself Hum Hl Hne. unfold DSSTrainedModelDetails.get_user_meta. rewrite Hself.
  rewrite (bind_Ret _ _ _ _ _ (getitem_field _ _ _ _ Hum)).
  rewrite (bind_Ret _ _ _ _ _ (setitem_dict _ _ _ _ _ Hl)).
  erewrite bind_Ret; cycle 1.
  { apply getitem_field. simpl. by apply field_insert_ne. }
  apply getitem_field. simpl. apply field_insert_same.
Qed.

Lemma get_user_meta_is_live_witness :
  (meta ← DSSTrainedModelDetails.get_user_meta Sample.prediction_details;
   setitem meta "name" (VStr "best");;
   meta' ← DSSTrainedModelDetails.get_user_meta Sample.prediction_details;
   getitem meta' "name") Sample.user_meta_world =
  (Ret (VStr "best"),
   World (<[2%positive := ODict (<["name" := VStr "best"]> {["name" := VStr "draft"]})]>
            (heap Sample.user_meta_world)) []).
Proof.
  apply (get_user_meta_is_live Sample.prediction_details 1%positive 2%positive
           {["name" := VStr "draft"]} Sample.user_meta_world "name" (VStr "best")).
  - reflexivity.
  - eexists. split; reflexivity.
  - reflexivity.
  - done.
Defined.

Lemma seq_index_last {A} (xs : list A) (x : A) : seq_index (xs ++ [x]) (-1) = Some x.
Proof.
  unfold seq_index. rewrite length_app. simpl.
  destruct (- Z.of_nat (length xs + 1) <=? -1)%Z eqn:E1.
  - replace (Z.to_nat (Z.of_nat (length xs + 1) + -1)) with (length xs) by lia.
    rewrite lookup_app_r by lia. by rewrite Nat.sub_diag.
  - apply Z.leb_gt in E1. lia.
Qed.

(** The cluster index is a Python subscript: [get_cluster_size(-1)] is the
    size of the last cluster. *)
Theorem get_cluster_size_from_end (self : DSSClustersFacts.t) (lroot lc lcl : loc)
    (clusters : list value) (w : world) (size : value) :
  DSSClustersFacts.clusters_facts self = VRef lroot →
  field (heap w) lroot "clusters" (VRef lc) →
  heap w !! lc = Some (OList (clusters ++ [VRef lcl])) →
  field (heap w) lcl "size" size →
  DSSClustersFacts.get_cluster_size self (VInt (-1)) w = (Ret size, w).
Proof.
  intros Hself Hroot Hlc Hsize. unfold DSSClustersFacts.get_cluster_size.
  rewrite Hself, (bind_Ret _ _ _ _ _ (getitem_field _ _ _ _ Hroot)).
  erewrite bind_Ret; cycle 1.
  { unfold getitem. rewrite Hlc. cbn [index_of]. by rewrite seq_index_last. }
  by apply getitem_field.
Qed.

Lemma get_cluster_size_from_end_witness :
  DSSClustersFacts.get_cluster_size Sample.facts (VInt (-1)) Sample.facts_world =
  (Ret (VInt 20), Sample.facts_world).
Proof.
  apply (get_cluster_size_from_end Sample.facts 1%positive 2%positive 4%positive
           [VRef 3%positive] Sample.facts_world (VInt 20)).
  - reflexivity.
  - eexists. split; reflexivity.
  - reflexivity.
  - eexists. split; reflexivity.
Defined.
